(** * whisper-claude: the request handler and its services

    A shallow embedding of [src/services.py] and [src/lambda_handler.py]:
    the input validator, the analysis adapter, the pipeline orchestrator and
    the request router, with the object store, the local file system, the
    speech model and the hosted model as an explicit world. *)

From Stdlib Require Import ZArith List String Ascii Bool Lia DecimalString.
From stdpp Require Import gmap strings list fin_maps.
Import ListNotations.

Local Open Scope string_scope.
Local Open Scope Z_scope.

(** ** Python strings

    A Python [str] is a Rocq [string]; one [ascii] stands for one character
    (code points below 256).  Indices are [Z], as [find] and [rfind] answer
    [-1] and slices take negative bounds. *)

Module Py.

(** [str.lower()] on one character: A-Z, and the upper-case letters of the
    Latin-1 block (0xC0-0xDE without the multiplication sign 0xD7). *)
Definition lower_char (c : ascii) : ascii :=
  let n := N_of_ascii c in
  if ((65 <=? n) && (n <=? 90) || (192 <=? n) && (n <=? 222) && negb (n =? 215))%N
  then ascii_of_N (n + 32) else c.

Fixpoint lower (s : string) : string :=
  match s with
  | EmptyString => EmptyString
  | String c r => String (lower_char c) (lower r)
  end.

Definition len (s : string) : Z := Z.of_nat (String.length s).

(** [s.find(c)] for a one-character [c]: the first index, or [-1]. *)
Fixpoint find (c : ascii) (s : string) : Z :=
  match s with
  | EmptyString => -1
  | String a r =>
      if Ascii.eqb a c then 0
      else let k := find c r in if k <? 0 then -1 else k + 1
  end.

(** [s.rfind(c)]: the last index, or [-1]. *)
Fixpoint rfind (c : ascii) (s : string) : Z :=
  match s with
  | EmptyString => -1
  | String a r =>
      let k := rfind c r in
      if 0 <=? k then k + 1 else if Ascii.eqb a c then 0 else -1
  end.

(** How a slice bound is brought into [0 .. len]: a negative bound counts
    from the end. *)
Definition clamp_index (n i : Z) : Z :=
  if i <? 0 then Z.max (i + n) 0 else Z.min i n.

(** [s[lo:hi]]; [None] is an omitted bound. *)
Definition slice (s : string) (lo hi : option Z) : string :=
  let n := len s in
  let a := match lo with None => 0 | Some i => clamp_index n i end in
  let b := match hi with None => n | Some j => clamp_index n j end in
  substring (Z.to_nat a) (Z.to_nat (b - a)) s.

Definition startswith (s p : string) : bool := String.prefix p s.

(** [c in s] and [set(s) <= {c}] for a character [c]. *)
Fixpoint contains (c : ascii) (s : string) : bool :=
  match s with
  | EmptyString => false
  | String a r => Ascii.eqb a c || contains c r
  end.

Fixpoint only (c : ascii) (s : string) : bool :=
  match s with
  | EmptyString => true
  | String a r => Ascii.eqb a c && only c r
  end.

(** [s.split(c)] for a one-character separator: never the empty list. *)
Fixpoint split (c : ascii) (s : string) : list string :=
  match s with
  | EmptyString => [EmptyString]
  | String a r =>
      if Ascii.eqb a c then EmptyString :: split c r
      else match split c r with
           | [] => [String a EmptyString]
           | w :: ws => String a w :: ws
           end
  end.

(** [l[-1]] on a list of strings that [split] has produced. *)
Definition last_item (l : list string) : string := List.last l EmptyString.

(** The loop of [genericpath._splitext] that skips the leading dots of the
    last path component: [true] when a character other than the dot stands
    in [filenameIndex .. filenameIndex + n - 1]. *)
Fixpoint skip_leading_dots (p : string) (filenameIndex : Z) (n : nat) : bool :=
  match n with
  | O => false
  | S n' =>
      if negb (String.eqb (slice p (Some filenameIndex) (Some (filenameIndex + 1))) ".")
      then true
      else skip_leading_dots p (filenameIndex + 1) n'
  end.

(** [os.path.splitext] of [posixpath]: separator [/], no alternative
    separator, extension separator [.]. *)
Definition splitext (p : string) : string * string :=
  let sepIndex := rfind "/" p in
  let dotIndex := rfind "." p in
  if (sepIndex <? dotIndex)
     && skip_leading_dots p (sepIndex + 1) (Z.to_nat (dotIndex - (sepIndex + 1)))
  then (slice p None (Some dotIndex), slice p (Some dotIndex) None)
  else (p, EmptyString).

(** [os.path.join(a, b)] of [posixpath] for two components. *)
Definition path_join (a b : string) : string :=
  if startswith b "/" then b
  else if String.eqb a "" || String.eqb (slice a (Some (-1)) None) "/" then a +:+ b
  else a +:+ "/" +:+ b.

End Py.

(** ** The input validator ([services.validate_audio_file]) *)

Definition allowed_extensions : list string :=
  [".mp3"; ".wav"; ".m4a"; ".flac"; ".ogg"; ".aac"].

Definition str_in (x : string) (l : list string) : bool :=
  existsb (String.eqb x) l.

Definition validate_audio_file (file_key : string) : bool :=
  if negb (Py.startswith file_key "audio/") then false
  else
    let file_extension := snd (Py.splitext (Py.lower file_key)) in
    if negb (str_in file_extension allowed_extensions) then false
    else true.

(** ** Python values

    The values of the events, of the stored documents and of the replies:
    what [json.loads] builds.  A [dict] keeps its insertion order, which
    [json.dumps] follows, so it is an association list; numbers are the
    integers. *)

#[warnings="-register-all"]
Inductive json : Type :=
| JNull
| JBool (b : bool)
| JNum (n : Z)
| JStr (s : string)
| JArr (l : list json)
| JObj (d : list (string * json)).

Definition dict : Type := list (string * json).

(** Truth value of a Python object ([if not x], [all]). *)
Definition truthy (v : json) : bool :=
  match v with
  | JNull => false
  | JBool b => b
  | JNum n => negb (n =? 0)
  | JStr s => negb (String.eqb s "")
  | JArr l => match l with [] => false | _ => true end
  | JObj d => match d with [] => false | _ => true end
  end.

(** [v == 'literal']. *)
Definition eq_str (v : json) (s : string) : bool :=
  match v with
  | JStr t => String.eqb t s
  | _ => false
  end.

Definition type_name (v : json) : string :=
  match v with
  | JNull => "NoneType"
  | JBool _ => "bool"
  | JNum _ => "int"
  | JStr _ => "str"
  | JArr _ => "list"
  | JObj _ => "dict"
  end.

(** Exceptions: the class and [str(e)]. *)
Record exn : Type := Exn { exn_type : string; exn_msg : string }.

Inductive result (A : Type) : Type :=
| Ok (a : A)
| Raise (e : exn).
Arguments Ok {A} a.
Arguments Raise {A} e.

#[global] Instance result_ret : MRet result := @Ok.
#[global] Instance result_bind : MBind result :=
  fun A B k r => match r with Ok a => k a | Raise e => Raise e end.

Module Dict.

Fixpoint get (k : string) (d : dict) : option json :=
  match d with
  | [] => None
  | (k', v) :: r => if String.eqb k' k then Some v else get k r
  end.

(** [d.get(k, default)]. *)
Definition get_default (k : string) (d : dict) (default : json) : json :=
  match get k d with
  | Some v => v
  | None => default
  end.

(** [d[k] = v]: in place when the key is there, at the end otherwise. *)
Fixpoint set (k : string) (v : json) (d : dict) : dict :=
  match d with
  | [] => [(k, v)]
  | (k', v') :: r => if String.eqb k' k then (k', v) :: r else (k', v') :: set k v r
  end.

End Dict.

(** [v[k]] for a string key. *)
Definition subscript (v : json) (k : string) : result json :=
  match v with
  | JObj d =>
      match Dict.get k d with
      | Some x => Ok x
      | None => Raise (Exn "KeyError" ("'" +:+ k +:+ "'"))
      end
  | JArr _ => Raise (Exn "TypeError" "list indices must be integers or slices, not str")
  | JStr _ => Raise (Exn "TypeError" "string indices must be integers, not 'str'")
  | _ => Raise (Exn "TypeError" ("'" +:+ type_name v +:+ "' object is not subscriptable"))
  end.

(** [v[0]]. *)
Definition index0 (v : json) : result json :=
  match v with
  | JArr (x :: _) => Ok x
  | JArr [] => Raise (Exn "IndexError" "list index out of range")
  | JStr (String c _) => Ok (JStr (String c EmptyString))
  | JStr EmptyString => Raise (Exn "IndexError" "string index out of range")
  | JObj _ => Raise (Exn "KeyError" "0")
  | _ => Raise (Exn "TypeError" ("'" +:+ type_name v +:+ "' object is not subscriptable"))
  end.

(** A method of [str] or [dict] called on a value of another type. *)
Definition no_attribute (v : json) (name : string) : exn :=
  Exn "AttributeError" ("'" +:+ type_name v +:+ "' object has no attribute '" +:+ name +:+ "'").

(** ** The world

    The local files, the object store and the log of the calls made to the
    external services, in the order they were made.

    The local files are the regular files at the paths the program itself
    reads and writes: [fs] maps such a path to the content of its file.
    What the speech library keeps in its own cache directory is not part of
    [fs], and the directories of the file system come with the section on
    directories below. *)

(** The two prompt templates, each with the values interpolated into it. *)
Inductive request : Type :=
| AnalysisPrompt (transcript_text : json)
| QAPrompt (transcript_text question : json).

Inductive call : Type :=
| CDownload (bucket : json) (key path : string)
| CLoadModel (name : string)
| CTranscribe (path : string)
| CInvoke (model_id : string) (req : request)
| CPutObject (bucket : json) (key body : string)
| CGetObject (bucket key : json)
| CRemove (path : string).

Record world : Type := World {
  fs : gmap string string;
  s3 : gmap (string * string) string;
  calls : list call
}.

Definition log (c : call) (w : world) : world :=
  World (fs w) (s3 w) (calls w ++ [c]).

(** What a download can do instead of copying the object. *)
Inductive download_fault : Type :=
| DownloadRaises (e : exn)
| DownloadWritesNothing.

(** The library functions and the external services.  Every service sees
    the world, the log included, so its answer may change from call to
    call. *)
Record services : Type := Services {
  json_loads : string -> result json;
  json_dumps : option Z -> json -> string;
  py_str : json -> string;
  lambda_function_name : bool;
  download_may_fail : string -> string -> string -> world -> option download_fault;
  get_may_fail : string -> string -> world -> option exn;
  put_may_fail : string -> string -> string -> world -> option exn;
  load_model : string -> world -> option exn;
  transcribe : string -> world -> result dict;
  invoke_model : string -> request -> world -> result string;
  now : world -> string
}.

(** ** Computations: state and exceptions *)

Definition M (A : Type) : Type := world -> result A * world.

Definition ret {A} (a : A) : M A := fun w => (Ok a, w).
Definition raise {A} (e : exn) : M A := fun w => (Raise e, w).
Definition bind {A B} (m : M A) (k : A -> M B) : M B :=
  fun w => match m w with
           | (Ok a, w') => k a w'
           | (Raise e, w') => (Raise e, w')
           end.

#[global] Instance M_ret : MRet M := @ret.
#[global] Instance M_bind : MBind M := fun A B k m => bind m k.

Definition lift {A} (r : result A) : M A := fun w => (r, w).

Definition is_instance (e : exn) (cls : string) : bool :=
  String.eqb (exn_type e) cls.

(** [try: body except Exception as e: handler(e)]. *)
Definition try_except {A} (body : M A) (handler : exn -> M A) : M A :=
  fun w => match body w with
           | (Ok a, w') => (Ok a, w')
           | (Raise e, w') => handler e w'
           end.

(** [try: body finally: final]: the final block runs on every exit; an
    exception of its own replaces the outcome of the body. *)
Definition try_finally {A} (body : M A) (final : M unit) : M A :=
  fun w => match body w with
           | (r, w') => match final w' with
                        | (Ok _, w'') => (r, w'')
                        | (Raise e, w'') => (Raise e, w'')
                        end
           end.

Definition when_ (b : bool) (m : M unit) : M unit :=
  if b then m else ret tt.

(** [try: body except cls as e: handler(e)]: another class passes through. *)
Definition try_except_class {A} (cls : string) (body : M A) (handler : exn -> M A) : M A :=
  fun w => match body w with
           | (Ok a, w') => (Ok a, w')
           | (Raise e, w') => if is_instance e cls then handler e w' else (Raise e, w')
           end.

(** ** The program *)

Section Program.

Variable svc : services.

(** *** The object store, the local files, the models and the clock *)

Definition param_validation (name : string) : exn :=
  Exn "ParamValidationError" ("Invalid type for parameter " +:+ name).

Definition not_found_404 : exn :=
  Exn "ClientError" "An error occurred (404) when calling the HeadObject operation: Not Found".

Definition no_such_key : exn :=
  Exn "ClientError"
      "An error occurred (NoSuchKey) when calling the GetObject operation: The specified key does not exist.".

Definition write_file (path content : string) (w : world) : world :=
  World (<[path := content]> (fs w)) (s3 w) (calls w).

Definition store_object (b k content : string) (w : world) : world :=
  World (fs w) (<[(b, k) := content]> (s3 w)) (calls w).

(** [s3_client.download_file(bucket, key, path)]. *)
Definition download_file (bucket : json) (key path : string) : M unit :=
  fun w =>
    let w1 := log (CDownload bucket key path) w in
    match bucket with
    | JStr b =>
        match download_may_fail svc b key path w with
        | Some (DownloadRaises e) => (Raise e, w1)
        | Some DownloadWritesNothing => (Ok tt, w1)
        | None =>
            match s3 w !! (b, key) with
            | Some content => (Ok tt, write_file path content w1)
            | None => (Raise not_found_404, w1)
            end
        end
    | _ => (Raise (param_validation "Bucket"), w1)
    end.

(** [s3_client.get_object(Bucket=bucket, Key=key)['Body'].read().decode('utf-8')]. *)
Definition get_object (bucket key : json) : M string :=
  fun w =>
    let w1 := log (CGetObject bucket key) w in
    match bucket, key with
    | JStr b, JStr k =>
        match get_may_fail svc b k w with
        | Some e => (Raise e, w1)
        | None =>
            match s3 w !! (b, k) with
            | Some content => (Ok content, w1)
            | None => (Raise no_such_key, w1)
            end
        end
    | JStr _, _ => (Raise (param_validation "Key"), w1)
    | _, _ => (Raise (param_validation "Bucket"), w1)
    end.

(** [s3_client.put_object(Bucket=bucket, Key=key, Body=body, ...)]. *)
Definition put_object (bucket : json) (key body : string) : M unit :=
  fun w =>
    let w1 := log (CPutObject bucket key body) w in
    match bucket with
    | JStr b =>
        match put_may_fail svc b key body w with
        | Some e => (Raise e, w1)
        | None => (Ok tt, store_object b key body w1)
        end
    | _ => (Raise (param_validation "Bucket"), w1)
    end.

(** [os.path.exists(path)]. *)
Definition path_exists (path : string) : M bool :=
  fun w => (Ok (bool_decide (is_Some (fs w !! path))), w).

(** [os.path.getsize(path)]. *)
Definition path_getsize (path : string) : M Z :=
  fun w => match fs w !! path with
           | Some content => (Ok (Py.len content), w)
           | None => (Raise (Exn "FileNotFoundError" ("No such file or directory: " +:+ path)), w)
           end.

(** [os.remove(path)]. *)
Definition os_remove (path : string) : M unit :=
  fun w =>
    let w1 := log (CRemove path) w in
    match fs w !! path with
    | Some _ => (Ok tt, World (delete path (fs w1)) (s3 w1) (calls w1))
    | None => (Raise (Exn "FileNotFoundError" ("No such file or directory: " +:+ path)), w1)
    end.

(** [whisper.load_model(name).to("cpu")]. *)
Definition whisper_load_model (name : string) : M unit :=
  fun w =>
    let w1 := log (CLoadModel name) w in
    match load_model svc name w with
    | Some e => (Raise e, w1)
    | None => (Ok tt, w1)
    end.

(** [model.transcribe(path, fp16=False, language='en', ...)]. *)
Definition model_transcribe (path : string) : M dict :=
  fun w => (transcribe svc path w, log (CTranscribe path) w).

(** [bedrock_runtime.invoke_model(modelId=..., body=...)['body'].read()]. *)
Definition bedrock_invoke (model_id : string) (req : request) : M string :=
  fun w => (invoke_model svc model_id req w, log (CInvoke model_id req) w).

(** [datetime.now().strftime("%Y%m%d_%H%M%S")]. *)
Definition datetime_now : M string :=
  fun w => (Ok (now svc w), w).

Definition loads (s : string) : M json := lift (json_loads svc s).

(** *** The analysis adapter ([services.analyze_with_claude]) *)

Definition INFERENCE_PROFILE_ARN : string :=
  "arn:aws:bedrock:us-east-1:010526276239:inference-profile/us.anthropic.claude-3-5-sonnet-20241022-v2:0".

(** [response_body['content'][0]['text']] of the parsed reply. *)
Definition reply_text (response : string) : result json :=
  response_body ← json_loads svc response;
  content ← subscript response_body "content";
  first ← index0 content;
  subscript first "text".

Definition degraded (analysis_text : string) : json :=
  JObj [("summary", JStr (Py.slice analysis_text None (Some 500)));
        ("error", JStr "Failed to parse structured response");
        ("raw_response", JStr analysis_text)].

(** The text handed to [json.loads]: from the first opening brace to the
    last closing one. *)
Definition json_substring (analysis_text : string) : string :=
  let json_start := Py.find "{" analysis_text in
  let json_end := Py.rfind "}" analysis_text + 1 in
  Py.slice analysis_text (Some json_start) (Some json_end).

(** The inner [try] of the adapter. *)
Definition extract_analysis (analysis_text : string) : M json :=
  try_except_class "JSONDecodeError"
    (loads (json_substring analysis_text))
    (fun _ => ret (degraded analysis_text)).

Definition analyze_with_claude (transcript_text : json) : M json :=
  try_except
    (when_ (negb (truthy (JStr INFERENCE_PROFILE_ARN)))
       (raise (Exn "ValueError" "INFERENCE_PROFILE_ARN environment variable is not set"));;
     response ← bedrock_invoke INFERENCE_PROFILE_ARN (AnalysisPrompt transcript_text);
     analysis_text ← lift (reply_text response);
     match analysis_text with
     | JStr t => extract_analysis t
     | v => raise (no_attribute v "find")
     end)
    (fun e => raise e).

(** *** The pipeline orchestrator ([services.process_audio_file]) *)

Definition complete_result (timestamp filename : string) (result : dict)
    (text analysis : json) : json :=
  JObj [("id", JStr timestamp);
        ("filename", JStr filename);
        ("metadata",
          JObj [("processed_at", JStr timestamp);
                ("audio_duration", Dict.get_default "duration" result (JNum 0));
                ("model_used", JStr "Claude 3.5");
                ("whisper_model", JStr "medium")]);
        ("original_transcript", text);
        ("analysis", analysis)].

Definition temp_path (filename : string) : string :=
  let temp_dir := if lambda_function_name svc then "/tmp" else "." in
  Py.path_join temp_dir filename.

(** Download, then the existence and the size check. *)
Definition fetch (bucket : json) (key temp_audio_path : string) : M unit :=
  download_file bucket key temp_audio_path;;
  present ← path_exists temp_audio_path;
  when_ (negb present)
    (raise (Exn "FileNotFoundError" ("File not found: " +:+ temp_audio_path)));;
  file_size ← path_getsize temp_audio_path;
  when_ (file_size =? 0) (raise (Exn "ValueError" "Downloaded file is empty")).

(** Assemble the document and store it. *)
Definition persist (bucket : json) (filename : string) (result : dict)
    (text analysis : json) : M json :=
  timestamp ← datetime_now;
  let document := complete_result timestamp filename result text analysis in
  let result_key := "transcripts/" +:+ timestamp +:+ ".json" in
  put_object bucket result_key (json_dumps svc (Some 2) document);;
  ret document.

(** The body of the [try]. *)
Definition pipeline (bucket : json) (key filename temp_audio_path : string) : M json :=
  fetch bucket key temp_audio_path;;
  whisper_load_model "medium";;
  result ← model_transcribe temp_audio_path;
  text ← lift (subscript (JObj result) "text");
  analysis ← analyze_with_claude text;
  persist bucket filename result text analysis.

(** The [finally] block. *)
Definition cleanup (temp_audio_path : string) : M unit :=
  present ← path_exists temp_audio_path;
  when_ present (os_remove temp_audio_path).

Definition process_audio_file (bucket : json) (key filename : string) : M json :=
  let temp_audio_path := temp_path filename in
  try_finally
    (try_except (pipeline bucket key filename temp_audio_path) (fun e => raise e))
    (cleanup temp_audio_path).

(** *** The question adapter and the transcript fetch ([lambda_handler.py]) *)

Definition qa_with_claude (transcript_text question : json) : M json :=
  try_except
    (when_ (negb (truthy (JStr INFERENCE_PROFILE_ARN)))
       (raise (Exn "ValueError" "INFERENCE_PROFILE_ARN environment variable is not set"));;
     response ← bedrock_invoke INFERENCE_PROFILE_ARN (QAPrompt transcript_text question);
     lift (reply_text response))
    (fun e => raise e).

(** The three field names, the first one that is there wins. *)
Definition transcript_field (transcript_data : dict) : json :=
  Dict.get_default "original_transcript" transcript_data
    (Dict.get_default "transcript" transcript_data
       (Dict.get_default "text" transcript_data (JStr ""))).

Definition get_transcript_from_s3 (bucket key : json) : M json :=
  try_except
    (content ← get_object bucket key;
     transcript_data ← loads content;
     match transcript_data with
     | JObj d =>
         let transcript := transcript_field d in
         if negb (truthy transcript) then ret JNull else ret transcript
     | v => raise (no_attribute v "get")
     end)
    (fun e => raise e).

(** *** The request router ([lambda_handler.lambda_handler]) *)

Record response : Type := Response {
  statusCode : Z;
  body : string;
  headers : list (string * string)
}.

Definition error_response (code : Z) (message : string) : response :=
  Response code (json_dumps svc None (JObj [("error", JStr message)])) [].

(** [record['s3']['bucket']['name']] and [record['s3']['object']['key']]. *)
Definition bucket_name (record : json) : result json :=
  s ← subscript record "s3";
  b ← subscript s "bucket";
  subscript b "name".

Definition object_key (record : json) : result json :=
  s ← subscript record "s3";
  o ← subscript s "object";
  subscript o "key".

Definition transcribe_operation (event : dict) : M response :=
  let records := Dict.get_default "Records" event (JArr []) in
  if negb (truthy records)
  then ret (error_response 400 "Missing S3 event records for transcription")
  else
    record ← lift (index0 records);
    bucket ← lift (bucket_name record);
    key ← lift (object_key record);
    match key with
    | JStr k =>
        let filename := Py.last_item (Py.split "/" k) in
        if negb (validate_audio_file k)
        then ret (error_response 400
                    "Invalid file type or location. Please upload audio files to the audio/ folder.")
        else
          result ← process_audio_file bucket k filename;
          ret (Response 200 (json_dumps svc None result) [])
    | v => raise (no_attribute v "split")
    end.

Definition q_n_a_operation (event : dict) : M response :=
  let transcript_file := Dict.get_default "transcript_file" event JNull in
  let transcript_bucket := Dict.get_default "transcript_bucket" event JNull in
  let question := Dict.get_default "question" event JNull in
  if negb (forallb truthy [transcript_file; transcript_bucket; question])
  then ret (error_response 400
              "Missing required parameters: transcript_file, transcript_bucket, and question")
  else
    try_except
      (transcript ← get_transcript_from_s3 transcript_bucket transcript_file;
       if negb (truthy transcript)
       then ret (error_response 404 "Transcript not found or empty")
       else
         answer ← qa_with_claude transcript question;
         ret (Response 200
                (json_dumps svc None
                   (JObj [("question", question);
                          ("answer", answer);
                          ("transcript_file", transcript_file)]))
                []))
      (fun e => ret (error_response 500 ("Error processing Q&A: " +:+ exn_msg e))).

Definition lambda_handler (event : dict) : M response :=
  try_except
    (let operation := Dict.get_default "operation" event (JStr "transcribe") in
     if eq_str operation "transcribe" then transcribe_operation event
     else if eq_str operation "q_n_a" then q_n_a_operation event
     else ret (error_response 400 ("Invalid operation: " +:+ py_str svc operation)))
    (fun e =>
       ret (Response 500 (json_dumps svc None (JObj [("error", JStr (exn_msg e))]))
              [("Content-Type", "application/json");
               ("Access-Control-Allow-Origin", "*")])).

(** [lambda_handler.handler]: [asyncio.run] of the router. *)
Definition handler (event : dict) : M response := lambda_handler event.

(** One warm process serving its events one after the other. *)
Fixpoint serve (events : list dict) : M (list response) :=
  match events with
  | [] => ret []
  | event :: rest =>
      r ← handler event;
      rs ← serve rest;
      ret (r :: rs)
  end.

End Program.

(** ** A concrete library and concrete services

    [json.loads], [json.dumps] and [str] on the fragment of JSON the model
    has: objects, arrays, strings, integers, [true], [false] and [null].
    The theorems below hold for any library; this one runs the program on
    concrete events. *)

Module Lite.

Definition dq : ascii := ascii_of_nat 34.
Definition backslash : ascii := ascii_of_nat 92.
Definition newline : ascii := ascii_of_nat 10.

Definition code (c : ascii) : Z := Z.of_N (N_of_ascii c).
Definition char_of (n : Z) : ascii := ascii_of_N (Z.to_N n).

Definition dec (n : Z) : string := NilZero.string_of_int (Z.to_int n).

Definition hex_digit (n : Z) : ascii :=
  if n <? 10 then char_of (48 + n) else char_of (87 + n).

Definition hex2 (c : ascii) : string :=
  String (hex_digit (code c / 16)) (String (hex_digit (code c mod 16)) EmptyString).

Fixpoint join (sep : string) (l : list string) : string :=
  match l with
  | [] => EmptyString
  | [x] => x
  | x :: r => x +:+ sep +:+ join sep r
  end.

Fixpoint spaces (n : nat) : string :=
  match n with
  | O => EmptyString
  | S n' => String " " (spaces n')
  end.

(** *** [json.dumps] *)

Definition escape_char (c : ascii) : string :=
  let n := code c in
  if n =? 34 then String backslash (String dq EmptyString)
  else if n =? 92 then String backslash (String backslash EmptyString)
  else if n =? 10 then String backslash "n"
  else if n =? 13 then String backslash "r"
  else if n =? 9 then String backslash "t"
  else if n =? 8 then String backslash "b"
  else if n =? 12 then String backslash "f"
  else if (n <? 32) || (126 <? n) then String backslash ("u00" +:+ hex2 c)
  else String c EmptyString.

Fixpoint escape (s : string) : string :=
  match s with
  | EmptyString => EmptyString
  | String c r => escape_char c +:+ escape r
  end.

Definition quote (s : string) : string :=
  String dq (escape s +:+ String dq EmptyString).

Fixpoint dumps_at (indent : option Z) (level : nat) (v : json) : string :=
  let line lvl :=
    match indent with
    | None => EmptyString
    | Some k => String newline (spaces (Z.to_nat k * lvl))
    end in
  let item_separator := match indent with None => ", " | Some _ => "," end in
  match v with
  | JNull => "null"
  | JBool true => "true"
  | JBool false => "false"
  | JNum n => dec n
  | JStr s => quote s
  | JArr [] => "[]"
  | JArr l =>
      "[" +:+ line (S level)
      +:+ join (item_separator +:+ line (S level)) (map (dumps_at indent (S level)) l)
      +:+ line level +:+ "]"
  | JObj [] => "{}"
  | JObj d =>
      "{" +:+ line (S level)
      +:+ join (item_separator +:+ line (S level))
            (map (fun kv => quote (fst kv) +:+ ": " +:+ dumps_at indent (S level) (snd kv)) d)
      +:+ line level +:+ "}"
  end.

Definition dumps (indent : option Z) (v : json) : string := dumps_at indent 0 v.

(** *** [str] and [repr] *)

Definition repr_char (q c : ascii) : string :=
  let n := code c in
  if Ascii.eqb c q || (n =? 92) then String backslash (String c EmptyString)
  else if n =? 10 then String backslash "n"
  else if n =? 13 then String backslash "r"
  else if n =? 9 then String backslash "t"
  else if (n <? 32) || ((126 <? n) && (n <? 161)) || (n =? 173)
  then String backslash ("x" +:+ hex2 c)
  else String c EmptyString.

Fixpoint repr_body (q : ascii) (s : string) : string :=
  match s with
  | EmptyString => EmptyString
  | String c r => repr_char q c +:+ repr_body q r
  end.

Definition repr_str (s : string) : string :=
  let q := if Py.contains "'" s && negb (Py.contains dq s) then dq else "'"%char in
  String q (repr_body q s +:+ String q EmptyString).

Fixpoint repr (v : json) : string :=
  match v with
  | JNull => "None"
  | JBool true => "True"
  | JBool false => "False"
  | JNum n => dec n
  | JStr s => repr_str s
  | JArr l => "[" +:+ join ", " (map repr l) +:+ "]"
  | JObj d =>
      "{" +:+ join ", " (map (fun kv => repr_str (fst kv) +:+ ": " +:+ repr (snd kv)) d) +:+ "}"
  end.

Definition str (v : json) : string :=
  match v with
  | JStr s => s
  | _ => repr v
  end.

(** *** [json.loads] *)

Definition is_ws (c : ascii) : bool :=
  let n := code c in (n =? 32) || (n =? 9) || (n =? 10) || (n =? 13).

Fixpoint skip_ws (s : string) : string :=
  match s with
  | EmptyString => EmptyString
  | String c r => if is_ws c then skip_ws r else s
  end.

Definition digit_of (c : ascii) : option Z :=
  let n := code c in
  if (48 <=? n) && (n <=? 57) then Some (n - 48) else None.

Definition hex_of (c : ascii) : option Z :=
  let n := code c in
  if (48 <=? n) && (n <=? 57) then Some (n - 48)
  else if (97 <=? n) && (n <=? 102) then Some (n - 87)
  else if (65 <=? n) && (n <=? 70) then Some (n - 55)
  else None.

Fixpoint digits (s : string) (acc : Z) : Z * string :=
  match s with
  | EmptyString => (acc, EmptyString)
  | String c r =>
      match digit_of c with
      | Some d => digits r (10 * acc + d)
      | None => (acc, s)
      end
  end.

(** An integer literal; a fraction or an exponent is outside the fragment. *)
Definition number (s : string) : option (Z * string) :=
  let whole :=
    match s with
    | String c r =>
        match digit_of c with
        | Some 0 => Some (0, r)
        | Some d => Some (digits r d)
        | None => None
        end
    | EmptyString => None
    end in
  match whole with
  | Some (n, String c r) =>
      if (code c =? 46) || (code c =? 101) || (code c =? 69) || bool_decide (is_Some (digit_of c))
      then None else Some (n, String c r)
  | other => other
  end.

Definition unescape (c : ascii) : option ascii :=
  let n := code c in
  if (n =? 34) || (n =? 92) || (n =? 47) then Some c
  else if n =? 110 then Some (char_of 10)
  else if n =? 114 then Some (char_of 13)
  else if n =? 116 then Some (char_of 9)
  else if n =? 98 then Some (char_of 8)
  else if n =? 102 then Some (char_of 12)
  else None.

Definition cons_to (c : ascii) (r : option (string * string)) : option (string * string) :=
  match r with
  | Some (t, rest) => Some (String c t, rest)
  | None => None
  end.

(** The characters of a string literal after its opening quote. *)
Fixpoint string_body (s : string) : option (string * string) :=
  match s with
  | EmptyString => None
  | String c r =>
      if code c =? 34 then Some (EmptyString, r)
      else if code c <? 32 then None
      else if code c =? 92 then
        match r with
        | String e r' =>
            match unescape e with
            | Some x => cons_to x (string_body r')
            | None =>
                match r' with
                | String h1 (String h2 (String h3 (String h4 r''))) =>
                    match code e =? 117, hex_of h1, hex_of h2, hex_of h3, hex_of h4 with
                    | true, Some 0, Some 0, Some a, Some b =>
                        cons_to (char_of (16 * a + b)) (string_body r'')
                    | _, _, _, _, _ => None
                    end
                | _ => None
                end
            end
        | EmptyString => None
        end
      else cons_to c (string_body r)
  end.

Definition literal (word : string) (v : json) (s : string) : option (json * string) :=
  if String.prefix word s
  then Some (v, substring (String.length word) (String.length s) s)
  else None.

Fixpoint value (fuel : nat) (s : string) : option (json * string) :=
  match fuel with
  | O => None
  | S fuel' =>
      match skip_ws s with
      | EmptyString => None
      | String c r =>
          let n := code c in
          if n =? 123 then
            match skip_ws r with
            | String c' r' =>
                if code c' =? 125 then Some (JObj [], r') else members fuel' (String c' r') []
            | EmptyString => None
            end
          else if n =? 91 then
            match skip_ws r with
            | String c' r' =>
                if code c' =? 93 then Some (JArr [], r') else elements fuel' (String c' r') []
            | EmptyString => None
            end
          else if n =? 34 then
            match string_body r with
            | Some (t, rest) => Some (JStr t, rest)
            | None => None
            end
          else if n =? 45 then
            match number r with
            | Some (k, rest) => Some (JNum (- k), rest)
            | None => None
            end
          else if n =? 116 then literal "true" (JBool true) (String c r)
          else if n =? 102 then literal "false" (JBool false) (String c r)
          else if n =? 110 then literal "null" JNull (String c r)
          else
            match number (String c r) with
            | Some (k, rest) => Some (JNum k, rest)
            | None => None
            end
      end
  end
with elements (fuel : nat) (s : string) (acc : list json) : option (json * string) :=
  match fuel with
  | O => None
  | S fuel' =>
      match value fuel' s with
      | Some (v, rest) =>
          match skip_ws rest with
          | String c r =>
              if code c =? 44 then elements fuel' r (acc ++ [v])
              else if code c =? 93 then Some (JArr (acc ++ [v]), r)
              else None
          | EmptyString => None
          end
      | None => None
      end
  end
with members (fuel : nat) (s : string) (acc : dict) : option (json * string) :=
  match fuel with
  | O => None
  | S fuel' =>
      match skip_ws s with
      | String q r =>
          if code q =? 34 then
            match string_body r with
            | Some (k, rest) =>
                match skip_ws rest with
                | String colon r' =>
                    if code colon =? 58 then
                      match value fuel' r' with
                      | Some (v, rest') =>
                          match skip_ws rest' with
                          | String c r'' =>
                              if code c =? 44 then members fuel' r'' (Dict.set k v acc)
                              else if code c =? 125 then Some (JObj (Dict.set k v acc), r'')
                              else None
                          | EmptyString => None
                          end
                      | None => None
                      end
                    else None
                | EmptyString => None
                end
            | None => None
            end
          else None
      | EmptyString => None
      end
  end.

Definition loads (s : string) : result json :=
  match value (2 * String.length s + 2) s with
  | Some (v, rest) =>
      match skip_ws rest with
      | EmptyString => Ok v
      | _ => Raise (Exn "JSONDecodeError" "Extra data")
      end
  | None => Raise (Exn "JSONDecodeError" "Expecting value")
  end.

End Lite.

Module Demo.

Definition lead_analysis : json :=
  JObj [("leadAnalysis",
          JObj [("interestLevel", JStr "High");
                ("needsOrPainPoints", JStr "Wants a Python course");
                ("budget", JStr "Not discussed");
                ("decisionAuthority", JBool true);
                ("decisionTimeline", JStr "This month");
                ("objections", JArr []);
                ("nextSteps", JStr "Send the syllabus")]);
        ("leadScore", JNum 80);
        ("status", JStr "COMPLETE");
        ("ambiguities", JArr [JStr "Budget"])].

Definition analysis_reply : string :=
  "<thinking>Interest is high.</thinking><json>"
  +:+ Lite.dumps (Some 2) lead_analysis +:+ "</json>".

(** The body of a reply of the hosted model that carries [text]. *)
Definition model_response (text : string) : string :=
  Lite.dumps None
    (JObj [("content", JArr [JObj [("type", JStr "text"); ("text", JStr text)]])]).

Definition speech : dict :=
  [("text", JStr "I want a Python course"); ("language", JStr "en")].

(** Services with the concrete library, each external call answering the
    same way every time. *)
Definition make (download : option download_fault) (load : option exn)
    (heard : result dict) (reply : request -> result string) : services :=
  {| json_loads := Lite.loads;
     json_dumps := Lite.dumps;
     py_str := Lite.str;
     lambda_function_name := true;
     download_may_fail := fun _ _ _ _ => download;
     get_may_fail := fun _ _ _ => None;
     put_may_fail := fun _ _ _ _ => None;
     load_model := fun _ _ => load;
     transcribe := fun _ _ => heard;
     invoke_model := fun _ req _ => reply req;
     now := fun _ => "20240101_000000" |}.

Definition replies (req : request) : result string :=
  match req with
  | AnalysisPrompt _ => Ok (model_response analysis_reply)
  | QAPrompt _ _ => Ok (model_response "The client wants a Python course.")
  end.

Definition svc : services := make None None (Ok speech) replies.

(** A reply without any JSON, one that is a lone object in tags, and one
    with a brace in its prose. *)
Definition plain_reply : string := "Sorry, no analysis today.".
Definition tagged_reply : string := "<json>{}</json>".
Definition stray_reply : string := "note {x} <json>{}</json>".

Definition replying (text : string) : services :=
  make None None (Ok speech) (fun _ => Ok (model_response text)).

Definition stored_transcript : string :=
  Lite.dumps (Some 2) (JObj [("original_transcript", JStr "I want a Python course")]).

Definition world0 : world :=
  World ∅
        (<[("b", "audio/call1.mp3") := "RIFF-WAVE"]>
           (<[("b", "audio/empty.mp3") := ""]>
              (<[("b", "transcripts/20240101_000000.json") := stored_transcript]> ∅)))
        [].

Definition record_of (bucket key : string) : json :=
  JObj [("s3", JObj [("bucket", JObj [("name", JStr bucket)]);
                     ("object", JObj [("key", JStr key)])])].

Definition transcribe_event (key : string) : dict :=
  [("Records", JArr [record_of "b" key])].

Definition q_n_a_event (file question : string) : dict :=
  [("operation", JStr "q_n_a");
   ("transcript_bucket", JStr "b");
   ("transcript_file", JStr file);
   ("question", JStr question)].

(** The world after one successful run, and more events and objects. *)
Definition warm : world :=
  snd (handler svc (transcribe_event "audio/call1.mp3") world0).

Definition two_records (key other : string) : dict :=
  [("Records", JArr [record_of "b" key; record_of "elsewhere" other])].

Definition text_only : string :=
  Lite.dumps None (JObj [("text", JStr "I want a Python course")]).

Definition empty_transcript : string :=
  Lite.dumps None (JObj [("original_transcript", JStr "");
                         ("text", JStr "I want a Python course")]).

Definition no_transcript : string :=
  Lite.dumps None (JObj [("id", JStr "20240101_000000")]).

Definition world1 : world :=
  World ∅
        (<[("b", "transcripts/text.json") := text_only]>
           (<[("b", "transcripts/empty.json") := empty_transcript]>
              (<[("b", "transcripts/other.json") := no_transcript]> (s3 world0))))
        [].

End Demo.

(** ** The statements of the specification *)

(** The extension of a key: what follows the last dot of the last path
    component, when that component has a character other than the dot
    before it. *)
Definition has_extension (key ext : string) : Prop :=
  ∃ dir name,
    key = dir +:+ name +:+ "." +:+ ext
    ∧ (dir = "" ∨ ∃ d, dir = d +:+ "/")
    ∧ Py.contains "/" name = false
    ∧ Py.only "." name = false
    ∧ Py.contains "/" ext = false
    ∧ Py.contains "." ext = false.

Definition allowed_names : list string :=
  ["mp3"; "wav"; "m4a"; "flac"; "ogg"; "aac"].

(** The first [n] characters of a text. *)
Fixpoint first_chars (n : nat) (s : string) : string :=
  match n, s with
  | S n', String c r => String c (first_chars n' r)
  | _, _ => EmptyString
  end.

(** The first of the names that is a field of the object. *)
Fixpoint first_present (names : list string) (d : dict) : option json :=
  match names with
  | [] => None
  | name :: rest =>
      match Dict.get name d with
      | Some v => Some v
      | None => first_present rest d
      end
  end.

(** The well-formed JSON objects of a reply: the pairs (start, length) of
    the substrings that open with a brace, close with one and parse to an
    object; the top-level ones lie in no other. *)
Definition spans (n : nat) : list (nat * nat) :=
  flat_map (fun i => map (fun k => (i, k)) (seq 1 (n - i))) (seq 0 n).

Definition braced (t : string) : bool :=
  Py.startswith t "{" && String.eqb (Py.slice t (Some (-1)) None) "}".

Definition is_object (svc : services) (t : string) : bool :=
  braced t && match json_loads svc t with Ok (JObj _) => true | _ => false end.

Definition objects (svc : services) (reply : string) : list (nat * nat) :=
  List.filter (fun a => is_object svc (substring (fst a) (snd a) reply))
         (spans (String.length reply)).

Definition inside (a b : nat * nat) : bool :=
  (fst b <=? fst a)%nat && (fst a + snd a <=? fst b + snd b)%nat
  && negb ((fst a =? fst b)%nat && (snd a =? snd b)%nat).

Definition top_level_objects (svc : services) (reply : string) : list (nat * nat) :=
  let all := objects svc reply in
  List.filter (fun a => negb (existsb (inside a) all)) all.

Definition single_object (svc : services) (reply : string) (start size : nat) : Prop :=
  top_level_objects svc reply = [(start, size)].

(** The loads of the speech model and the writes to the object store that
    the log of a world records. *)
Definition is_load (c : call) : bool :=
  match c with CLoadModel _ => true | _ => false end.

Definition is_put (c : call) : bool :=
  match c with CPutObject _ _ _ => true | _ => false end.

Definition loads_of (w : world) : list call := List.filter is_load (calls w).
Definition model_loads (w : world) : nat := List.length (loads_of w).
Definition puts (w : world) : list call := List.filter is_put (calls w).

(** The world after the [finally] block of the orchestrator. *)
Definition cleaned (path : string) (w : world) : world :=
  match fs w !! path with
  | Some _ => World (delete path (fs w)) (s3 w) (calls w ++ [CRemove path])
  | None => w
  end.

(** A run of the orchestrator that fails in one of its steps before the
    document is stored: the exception, and the world the failing step
    leaves. *)
Inductive fails_in (svc : services) (bucket : json) (key filename : string) (w : world)
  : exn -> world -> Prop :=
| fails_in_fetch e w1 :
    fetch svc bucket key (temp_path svc filename) w = (Raise e, w1) ->
    fails_in svc bucket key filename w e w1
| fails_in_load e w1 w2 :
    fetch svc bucket key (temp_path svc filename) w = (Ok tt, w1) ->
    whisper_load_model svc "medium" w1 = (Raise e, w2) ->
    fails_in svc bucket key filename w e w2
| fails_in_transcribe e w1 w2 w3 :
    fetch svc bucket key (temp_path svc filename) w = (Ok tt, w1) ->
    whisper_load_model svc "medium" w1 = (Ok tt, w2) ->
    model_transcribe svc (temp_path svc filename) w2 = (Raise e, w3) ->
    fails_in svc bucket key filename w e w3
| fails_in_text e w1 w2 w3 result :
    fetch svc bucket key (temp_path svc filename) w = (Ok tt, w1) ->
    whisper_load_model svc "medium" w1 = (Ok tt, w2) ->
    model_transcribe svc (temp_path svc filename) w2 = (Ok result, w3) ->
    subscript (JObj result) "text" = Raise e ->
    fails_in svc bucket key filename w e w3
| fails_in_analyze e w1 w2 w3 w4 result text :
    fetch svc bucket key (temp_path svc filename) w = (Ok tt, w1) ->
    whisper_load_model svc "medium" w1 = (Ok tt, w2) ->
    model_transcribe svc (temp_path svc filename) w2 = (Ok result, w3) ->
    subscript (JObj result) "text" = Ok text ->
    analyze_with_claude svc text w3 = (Raise e, w4) ->
    fails_in svc bucket key filename w e w4.

(** A run in which every step before the store succeeds: the transcription
    result, its text, the analysis and the world before the store. *)
Definition reaches_persist (svc : services) (bucket : json) (key filename : string)
    (w : world) (result : dict) (text analysis : json) (w4 : world) : Prop :=
  exists w1 w2 w3,
    fetch svc bucket key (temp_path svc filename) w = (Ok tt, w1)
    /\ whisper_load_model svc "medium" w1 = (Ok tt, w2)
    /\ model_transcribe svc (temp_path svc filename) w2 = (Ok result, w3)
    /\ subscript (JObj result) "text" = Ok text
    /\ analyze_with_claude svc text w3 = (Ok analysis, w4).

(** [document['metadata']['audio_duration']]. *)
Definition audio_duration (document : json) : result json :=
  metadata ← subscript document "metadata";
  subscript metadata "audio_duration".


(** An event of the [transcribe] operation: the field is [transcribe] or
    absent. *)
Definition is_transcribe (event : dict) : Prop :=
  Dict.get "operation" event = None
  \/ Dict.get "operation" event = Some (JStr "transcribe").

(** The names under which a stored document may hold the transcript, in
    the order of their priority. *)
Definition transcript_names : list string :=
  ["original_transcript"; "transcript"; "text"].


(** The status of the answer of the router. *)
Definition status (svc : services) (event : dict) (w : world) : option Z :=
  match fst (lambda_handler svc event w) with
  | Ok r => Some (statusCode r)
  | Raise _ => None
  end.

(** A [q_n_a] event with its three parameters. *)
Definition q_n_a_request (event : dict) (transcript_file transcript_bucket question : json)
  : Prop :=
  Dict.get "operation" event = Some (JStr "q_n_a")
  /\ Dict.get "transcript_file" event = Some transcript_file
  /\ Dict.get "transcript_bucket" event = Some transcript_bucket
  /\ Dict.get "question" event = Some question
  /\ truthy transcript_file = true
  /\ truthy transcript_bucket = true
  /\ truthy question = true.

(** ** The transcript helpers ([services.get_all_transcripts],
    [services.get_transcript], [services.export_transcript])

    These three functions read the names [s3], [BUCKET_NAME], [TEMP_DIR]
    and [ClientError] from the globals of the module [services], and the
    module binds none of them.  A global name is looked up when the
    expression that reads it is evaluated, and the look-up of an unbound name
    raises [NameError].  The globals are a parameter here: a name is
    unbound, or bound to a value of the kind its use expects, [s3] to a
    client of the object store of the world and [ClientError] to the class
    of botocore. *)

(** What a client bound to [s3] answers besides [get_object]. *)
Record client : Type := Client {
  (* [s3.list_objects_v2(Bucket=..., Prefix=...)]: the response *)
  list_objects_v2 : string -> string -> world -> result dict;
  upload_may_fail : string -> string -> string -> world -> option exn;
  (* [s3.generate_presigned_url('get_object', Params=..., ExpiresIn=...)] *)
  generate_presigned_url : string -> string -> Z -> world -> result string
}.

Record globals : Type := Globals {
  s3_global : option client;
  BUCKET_NAME : option string;
  TEMP_DIR : option string;
  (* whether the name [ClientError] is bound *)
  ClientError : bool
}.

(** The globals as [services.py] leaves them. *)
Definition module_globals : globals := Globals None None None false.

Definition name_error (name : string) : exn :=
  Exn "NameError" ("name '" +:+ name +:+ "' is not defined").

Definition read_global {A} (name : string) (binding : option A) : M A :=
  match binding with
  | Some v => ret v
  | None => raise (name_error name)
  end.

(** [e.response['Error']['Code']]: botocore writes the code into the message
    of a [ClientError], "An error occurred (<code>) when calling ...". *)
Definition error_code (e : exn) : string :=
  let message := exn_msg e in
  let rest := Py.slice message (Some (Py.find "(" message + 1)) None in
  Py.slice rest None (Some (Py.find ")" rest)).

(** [for x in v]: the items a loop over [v] visits. *)
Fixpoint characters (s : string) : list json :=
  match s with
  | EmptyString => []
  | String c r => JStr (String c EmptyString) :: characters r
  end.

Definition iterate (v : json) : result (list json) :=
  match v with
  | JArr l => Ok l
  | JObj d => Ok (map (fun kv => JStr (fst kv)) d)
  | JStr s => Ok (characters s)
  | _ => Raise (Exn "TypeError" ("'" +:+ type_name v +:+ "' object is not iterable"))
  end.

Definition unbound_export_path : exn :=
  Exn "UnboundLocalError"
      "cannot access local variable 'export_path' where it is not associated with a value".

Definition list_objects (s3 : client) (bucket prefix : string) : M dict :=
  fun w => (list_objects_v2 s3 bucket prefix w, w).

Definition presigned_url (s3 : client) (bucket key : string) (expires : Z) : M string :=
  fun w => (generate_presigned_url s3 bucket key expires w, w).

(** [with open(path, 'w') as f: f.write(text)]: the file is there, empty,
    before [text] is evaluated.  The directory of the path is taken to be
    there, so that the file can be made. *)
Definition open_for_writing (path : string) : M unit :=
  fun w => (Ok tt, write_file path "" w).

Definition file_write (path : string) (text : json) : M unit :=
  match text with
  | JStr s => fun w => (Ok tt, write_file path s w)
  | v => raise (Exn "TypeError" ("write() argument must be str, not " +:+ type_name v))
  end.

(** [s3.upload_file(path, bucket, key)]: one put of the content of the
    file. *)
Definition upload_file (s3 : client) (path bucket key : string) : M unit :=
  fun w =>
    match fs w !! path with
    | None => (Raise (Exn "FileNotFoundError" ("No such file or directory: " +:+ path)), w)
    | Some content =>
        let w1 := log (CPutObject (JStr bucket) key content) w in
        match upload_may_fail s3 path bucket key w with
        | Some e => (Raise e, w1)
        | None => (Ok tt, store_object bucket key content w1)
        end
    end.

(** The [finally] block of [export_transcript]: [export_path] has no value
    when the [try] has raised before its second statement has ended. *)
Definition export_cleanup (export_path : option string) : M unit :=
  match export_path with
  | None => raise unbound_export_path
  | Some path => cleanup path
  end.

Section Transcripts.

Variable svc : services.
Variable g : globals.

(** The body of the loop of [get_all_transcripts], over the objects left
    to visit; the two names it reads again are bound when it is reached. *)
Fixpoint collect_transcripts (bucket : string) (objects : list json)
    (transcripts : list json) : M (list json) :=
  match objects with
  | [] => ret transcripts
  | obj :: rest =>
      key ← lift (subscript obj "Key");
      content ← get_object svc (JStr bucket) key;
      transcript ← loads svc content;
      collect_transcripts bucket rest (transcripts ++ [transcript])
  end.

Definition get_all_transcripts : M (list json) :=
  try_except
    (s3 ← read_global "s3" (s3_global g);
     bucket ← read_global "BUCKET_NAME" (BUCKET_NAME g);
     response ← list_objects s3 bucket "transcripts/";
     objects ← lift (iterate (Dict.get_default "Contents" response (JArr [])));
     collect_transcripts bucket objects [])
    (fun _ => ret []).

(** [try: body except ClientError as e: handler(e)]: the name of the class
    is read when the body has raised, not before. *)
Definition try_except_ClientError {A} (body : M A) (handler : exn -> M A) : M A :=
  fun w => match body w with
           | (Ok a, w') => (Ok a, w')
           | (Raise e, w') =>
               if ClientError g
               then if is_instance e "ClientError" then handler e w' else (Raise e, w')
               else (Raise (name_error "ClientError"), w')
           end.

Definition get_transcript (transcript_id : json) : M json :=
  try_except_ClientError
    (let transcript_key := "transcripts/" +:+ py_str svc transcript_id +:+ ".json" in
     _ ← read_global "s3" (s3_global g);
     bucket ← read_global "BUCKET_NAME" (BUCKET_NAME g);
     content ← get_object svc (JStr bucket) (JStr transcript_key);
     loads svc content)
    (fun e => if String.eqb (error_code e) "NoSuchKey" then ret JNull else raise e).

Definition export_transcript (transcript : json) : M string :=
  match subscript transcript "id" with
  | Raise e => try_finally (raise e) (export_cleanup None)
  | Ok id =>
      let export_filename := "export_" +:+ py_str svc id +:+ ".txt" in
      match TEMP_DIR g with
      | None => try_finally (raise (name_error "TEMP_DIR")) (export_cleanup None)
      | Some dir =>
          let export_path := Py.path_join dir export_filename in
          try_finally
            (open_for_writing export_path;;
             text ← lift (subscript transcript "text");
             file_write export_path text;;
             let export_key := "exports/" +:+ export_filename in
             s3 ← read_global "s3" (s3_global g);
             bucket ← read_global "BUCKET_NAME" (BUCKET_NAME g);
             upload_file s3 export_path bucket export_key;;
             presigned_url s3 bucket export_key 3600)
            (export_cleanup (Some export_path))
      end
  end.

End Transcripts.

(** ** Directories in the local file system

    The map [fs] of a world holds regular files, which [os.remove] removes,
    and the definitions of the program above read and write these.  A path
    can also name a directory.  The scratch path of the orchestrator is one
    for the file name [''], for which [os.path.join] gives the temporary
    directory itself, [/tmp/] or [./], and whenever the temporary directory
    holds a directory of the name of the file.  [os.path.exists] is true of
    a directory, [os.path.getsize] gives the size the system keeps for it,
    nothing can be downloaded to it, and [os.remove] raises
    [IsADirectoryError] on it and leaves it there.

    The orchestrator over the files of [fs] and the directories [dirs],
    which map a path to its size.  Where the scratch path is no directory it
    is the orchestrator above. *)

Definition is_a_directory (path : string) : exn :=
  Exn "IsADirectoryError" ("[Errno 21] Is a directory: '" +:+ path +:+ "'").

Module Directories.

Section Program.

Variable svc : services.
Variable dirs : gmap string Z.

(** [s3_client.download_file(bucket, key, path)]. *)
Definition download_file (bucket : json) (key path : string) : M unit :=
  fun w =>
    let w1 := log (CDownload bucket key path) w in
    match bucket with
    | JStr b =>
        match download_may_fail svc b key path w with
        | Some (DownloadRaises e) => (Raise e, w1)
        | Some DownloadWritesNothing => (Ok tt, w1)
        | None =>
            match s3 w !! (b, key) with
            | Some content =>
                match dirs !! path with
                | Some _ => (Raise (is_a_directory path), w1)
                | None => (Ok tt, write_file path content w1)
                end
            | None => (Raise not_found_404, w1)
            end
        end
    | _ => (Raise (param_validation "Bucket"), w1)
    end.

(** [os.path.exists(path)]. *)
Definition path_exists (path : string) : M bool :=
  fun w => (Ok (bool_decide (is_Some (dirs !! path))
                || bool_decide (is_Some (fs w !! path))), w).

(** [os.path.getsize(path)]. *)
Definition path_getsize (path : string) : M Z :=
  match dirs !! path with
  | Some size => ret size
  | None => path_getsize path
  end.

(** [os.remove(path)]. *)
Definition os_remove (path : string) : M unit :=
  match dirs !! path with
  | Some _ => fun w => (Raise (is_a_directory path), log (CRemove path) w)
  | None => os_remove path
  end.

(** Download, then the existence and the size check. *)
Definition fetch (bucket : json) (key temp_audio_path : string) : M unit :=
  download_file bucket key temp_audio_path;;
  present ← path_exists temp_audio_path;
  when_ (negb present)
    (raise (Exn "FileNotFoundError" ("File not found: " +:+ temp_audio_path)));;
  file_size ← path_getsize temp_audio_path;
  when_ (file_size =? 0) (raise (Exn "ValueError" "Downloaded file is empty")).

(** The body of the [try]. *)
Definition pipeline (bucket : json) (key filename temp_audio_path : string) : M json :=
  fetch bucket key temp_audio_path;;
  whisper_load_model svc "medium";;
  result ← model_transcribe svc temp_audio_path;
  text ← lift (subscript (JObj result) "text");
  analysis ← analyze_with_claude svc text;
  persist svc bucket filename result text analysis.

(** The [finally] block. *)
Definition cleanup (temp_audio_path : string) : M unit :=
  present ← path_exists temp_audio_path;
  when_ present (os_remove temp_audio_path).

Definition process_audio_file (bucket : json) (key filename : string) : M json :=
  let temp_audio_path := temp_path svc filename in
  try_finally
    (try_except (pipeline bucket key filename temp_audio_path) (fun e => raise e))
    (cleanup temp_audio_path).

End Program.

End Directories.

(** More concrete objects, events and parameters. *)
Module Fixtures.

Definition sign (bucket key : string) (expires : Z) (w : world) : result string :=
  Ok ("https://" +:+ bucket +:+ ".s3.amazonaws.com/" +:+ key +:+ "?X-Amz-Expires="
      +:+ Lite.dec expires).

(** The response of a listing: the keys of the bucket under the prefix, as
    the world has them in the given order. *)
Definition listing (keys : list string) (bucket pre : string) (w : world) : result dict :=
  match keys with
  | [] => Ok [("KeyCount", JNum 0)]
  | _ => Ok [("KeyCount", JNum (Z.of_nat (List.length keys)));
             ("Contents", JArr (map (fun k => JObj [("Key", JStr k)]) keys))]
  end.

(** Globals with every name bound: a client that lists [keys], the bucket
    [b] and the directory [/tmp]. *)
Definition bound (keys : list string) : globals :=
  {| s3_global := Some {| list_objects_v2 := listing keys;
                          upload_may_fail := fun _ _ _ _ => None;
                          generate_presigned_url := sign |};
     BUCKET_NAME := Some "b";
     TEMP_DIR := Some "/tmp";
     ClientError := true |}.

(** The same globals without the class of the [except] clause. *)
Definition no_class (keys : list string) : globals :=
  {| s3_global := s3_global (bound keys);
     BUCKET_NAME := Some "b";
     TEMP_DIR := Some "/tmp";
     ClientError := false |}.

Definition broken_transcript : string := "{not json".
Definition list_transcript : string := Lite.dumps None (JArr [JStr "I want a Python course"]).

Definition world2 : world :=
  World (<["/tmp/notes.txt" := "keep me"]> ∅)
        (<[("b", "transcripts/broken.json") := broken_transcript]>
           (<[("b", "transcripts/list.json") := list_transcript]> (s3 Demo.world1)))
        [].

(** The world after one successful run on [world2]. *)
Definition after_run : world :=
  snd (process_audio_file Demo.svc (JStr "b") "audio/call1.mp3" "call1.mp3" world2).

Definition exportable : json :=
  JObj [("id", JStr "20240101_000000"); ("text", JStr "I want a Python course")].

(** Services whose transcription result has no text, and whose hosted
    model is out of reach. *)
Definition mute : services :=
  Demo.make None None (Ok [("language", JStr "en")]) Demo.replies.

Definition offline : services :=
  Demo.make None None (Ok Demo.speech)
    (fun _ => Raise (Exn "EndpointConnectionError" "Could not connect to the endpoint URL")).

(** Services whose hosted model answers with a body that is no JSON. *)
Definition garbled : services :=
  Demo.make None None (Ok Demo.speech) (fun _ => Ok "<html>502 Bad Gateway</html>").

(** Services whose store refuses every read, and globals whose client
    refuses the listing. *)
Definition access_denied : exn :=
  Exn "ClientError"
      "An error occurred (AccessDenied) when calling the GetObject operation: Access Denied".

Definition denied : services :=
  {| json_loads := Lite.loads;
     json_dumps := Lite.dumps;
     py_str := Lite.str;
     lambda_function_name := true;
     download_may_fail := fun _ _ _ _ => None;
     get_may_fail := fun _ _ _ => Some access_denied;
     put_may_fail := fun _ _ _ _ => None;
     load_model := fun _ _ => None;
     transcribe := fun _ _ => Ok Demo.speech;
     invoke_model := fun _ req _ => Demo.replies req;
     now := fun _ => "20240101_000000" |}.

Definition unlisted : globals :=
  {| s3_global := Some {| list_objects_v2 := fun _ _ _ => Raise access_denied;
                          upload_may_fail := fun _ _ _ _ => None;
                          generate_presigned_url := sign |};
     BUCKET_NAME := Some "b";
     TEMP_DIR := Some "/tmp";
     ClientError := true |}.

(** The deepest nesting of the brackets of a text, outside its string
    literals, and a parser that gives up beyond a depth. *)
Fixpoint nesting (s : string) (in_string escaped : bool) (depth deepest : nat) : nat :=
  match s with
  | EmptyString => deepest
  | String c r =>
      let n := Lite.code c in
      if in_string then
        if escaped then nesting r true false depth deepest
        else if n =? 92 then nesting r true true depth deepest
        else if n =? 34 then nesting r false false depth deepest
        else nesting r true false depth deepest
      else if n =? 34 then nesting r true false depth deepest
      else if (n =? 91) || (n =? 123)
      then nesting r false false (S depth) (Nat.max deepest (S depth))
      else if (n =? 93) || (n =? 125) then nesting r false false (Nat.pred depth) deepest
      else nesting r false false depth deepest
  end.

Definition bounded_loads (limit : nat) (s : string) : result json :=
  if (limit <? nesting s false false 0 0)%nat
  then Raise (Exn "RecursionError" "maximum recursion depth exceeded while decoding a JSON array")
  else Lite.loads s.

Definition deep_reply : string :=
  Lite.dumps None (JObj [("a", JArr [JArr [JArr [JArr [JNum 1]]]])]).

Definition limited : services :=
  {| json_loads := bounded_loads 3;
     json_dumps := Lite.dumps;
     py_str := Lite.str;
     lambda_function_name := true;
     download_may_fail := fun _ _ _ _ => None;
     get_may_fail := fun _ _ _ => None;
     put_may_fail := fun _ _ _ _ => None;
     load_model := fun _ _ => None;
     transcribe := fun _ _ => Ok Demo.speech;
     invoke_model := fun _ _ _ => Ok (Demo.model_response deep_reply);
     now := fun _ => "20240101_000000" |}.


(** A text that opens two thousand lists and closes none, and services
    whose parser gives up beyond a nesting of a thousand, as the parser of
    Python does, and whose hosted model replies with that text. *)
Fixpoint opening (n : nat) : string :=
  match n with
  | O => EmptyString
  | S m => "[" +:+ opening m
  end.

Definition unclosed_reply : string :=
  "{" +:+ Lite.quote "a" +:+ ": " +:+ opening 2000 +:+ "1}".

Definition unclosing : services :=
  {| json_loads := bounded_loads 1000;
     json_dumps := Lite.dumps;
     py_str := Lite.str;
     lambda_function_name := true;
     download_may_fail := fun _ _ _ _ => None;
     get_may_fail := fun _ _ _ => None;
     put_may_fail := fun _ _ _ _ => None;
     load_model := fun _ _ => None;
     transcribe := fun _ _ => Ok Demo.speech;
     invoke_model := fun _ _ _ => Ok (Demo.model_response unclosed_reply);
     now := fun _ => "20240101_000000" |}.

End Fixtures.

(** * Properties *)

(** ** Strings *)

Section Strings.

Implicit Types (s t a b : string) (c : ascii).

Lemma append_nil_l s : "" +:+ s = s.
Proof. reflexivity. Qed.

Lemma append_cons c s t : String c s +:+ t = String c (s +:+ t).
Proof. reflexivity. Qed.

Lemma append_nil_r s : s +:+ "" = s.
Proof. induction s as [|x s IH]; [reflexivity | now rewrite append_cons, IH]. Qed.

Lemma append_assoc a b t : (a +:+ b) +:+ t = a +:+ b +:+ t.
Proof. induction a as [|x a IH]; [reflexivity | now rewrite !append_cons, IH]. Qed.

Lemma len_nil : Py.len "" = 0.
Proof. reflexivity. Qed.

Lemma len_cons c s : Py.len (String c s) = Py.len s + 1.
Proof. unfold Py.len; simpl String.length; lia. Qed.

Lemma len_nonneg s : 0 <= Py.len s.
Proof. unfold Py.len; lia. Qed.

Lemma len_app a b : Py.len (a +:+ b) = Py.len a + Py.len b.
Proof.
  induction a as [|x a IH].
  - rewrite append_nil_l, len_nil; lia.
  - rewrite append_cons, !len_cons, IH; lia.
Qed.

Lemma contains_app c a b :
  Py.contains c (a +:+ b) = Py.contains c a || Py.contains c b.
Proof.
  induction a as [|x a IH]; [reflexivity|].
  rewrite append_cons. cbn [Py.contains]. rewrite IH; now rewrite orb_assoc.
Qed.

Lemma rfind_absent c s : Py.contains c s = false -> Py.rfind c s = -1.
Proof.
  induction s as [|x s IH]; simpl; [reflexivity|].
  intros H; apply orb_false_elim in H as [Hx Hs].
  rewrite (IH Hs), Hx; reflexivity.
Qed.

Lemma rfind_present c s : Py.contains c s = true -> 0 <= Py.rfind c s.
Proof.
  induction s as [|x s IH]; simpl; [discriminate|].
  destruct (Py.contains c s) eqn:Hs.
  - intros _. specialize (IH eq_refl).
    destruct (0 <=? Py.rfind c s) eqn:E; [lia | apply Z.leb_gt in E; lia].
  - rewrite orb_false_r; intros ->.
    rewrite (rfind_absent _ _ Hs); simpl; lia.
Qed.

Lemma rfind_app c s t :
  Py.rfind c (s +:+ t) =
  if Py.contains c t then Py.len s + Py.rfind c t else Py.rfind c s.
Proof.
  induction s as [|x s IH].
  - rewrite append_nil_l. destruct (Py.contains c t) eqn:Ht; [rewrite len_nil; lia|].
    now rewrite rfind_absent.
  - rewrite append_cons. cbn [Py.rfind]. rewrite IH.
    destruct (Py.contains c t) eqn:Ht; [|reflexivity].
    pose proof (rfind_present _ _ Ht). pose proof (len_nonneg s).
    rewrite len_cons.
    destruct (0 <=? Py.len s + Py.rfind c t) eqn:E; [lia | apply Z.leb_gt in E; lia].
Qed.

Lemma rfind_last c s t :
  Py.contains c t = false -> Py.rfind c (s +:+ String c t) = Py.len s.
Proof.
  intros Ht. rewrite rfind_app. cbn [Py.contains Py.rfind].
  rewrite Ascii.eqb_refl, (rfind_absent _ _ Ht); simpl; lia.
Qed.

(** Where the last occurrence stands. *)
Lemma rfind_split c s :
  Py.contains c s = true ->
  exists a b, s = a +:+ String c b /\ Py.contains c b = false /\ Py.rfind c s = Py.len a.
Proof.
  induction s as [|x s IH]; simpl Py.contains; [discriminate|].
  destruct (Py.contains c s) eqn:Hs.
  - intros _. destruct (IH eq_refl) as (a & b & -> & Hb & Hr).
    exists (String x a), b. repeat split; [assumption|].
    cbn [Py.rfind]. rewrite Hr, len_cons. pose proof (len_nonneg a).
    destruct (0 <=? Py.len a) eqn:E; [lia | apply Z.leb_gt in E; lia].
  - rewrite orb_false_r. intros Hx. apply Ascii.eqb_eq in Hx as ->.
    exists "", s. repeat split; [assumption|].
    cbn [Py.rfind]. rewrite (rfind_absent _ _ Hs), Ascii.eqb_refl; reflexivity.
Qed.

(** Slices of a concatenation. *)
Lemma substring_all s : substring 0 (String.length s) s = s.
Proof. induction s as [|x s IH]; simpl; [reflexivity | now rewrite IH]. Qed.

Lemma substring_prefix a b : substring 0 (String.length a) (a +:+ b) = a.
Proof.
  induction a as [|x a IH]; [now destruct b|].
  rewrite append_cons. cbn [String.length substring]. now rewrite IH.
Qed.

Lemma substring_skip a b n m :
  n = String.length a -> substring n m (a +:+ b) = substring 0 m b.
Proof.
  intros ->. induction a as [|x a IH]; [reflexivity|].
  rewrite append_cons. cbn [String.length substring]. exact IH.
Qed.

Lemma slice_prefix a b : Py.slice (a +:+ b) None (Some (Py.len a)) = a.
Proof.
  unfold Py.slice, Py.clamp_index. rewrite len_app.
  pose proof (len_nonneg a). pose proof (len_nonneg b).
  destruct (Py.len a <? 0) eqn:E; [apply Z.ltb_lt in E; lia|].
  rewrite Z.min_l by lia. rewrite Z.sub_0_r. unfold Py.len at 1.
  rewrite Nat2Z.id. apply substring_prefix.
Qed.

Lemma slice_suffix a b : Py.slice (a +:+ b) (Some (Py.len a)) None = b.
Proof.
  unfold Py.slice, Py.clamp_index. rewrite len_app.
  pose proof (len_nonneg a). pose proof (len_nonneg b).
  destruct (Py.len a <? 0) eqn:E; [apply Z.ltb_lt in E; lia|].
  rewrite Z.min_l by lia.
  replace (Py.len a + Py.len b - Py.len a) with (Py.len b) by lia.
  unfold Py.len. rewrite !Nat2Z.id.
  rewrite substring_skip by reflexivity. apply substring_all.
Qed.

Lemma slice_char a c b :
  Py.slice (a +:+ String c b) (Some (Py.len a)) (Some (Py.len a + 1)) = String c "".
Proof.
  unfold Py.slice, Py.clamp_index. rewrite len_app, len_cons.
  pose proof (len_nonneg a). pose proof (len_nonneg b).
  destruct (Py.len a <? 0) eqn:E; [apply Z.ltb_lt in E; lia|].
  destruct (Py.len a + 1 <? 0) eqn:E'; [apply Z.ltb_lt in E'; lia|].
  rewrite !Z.min_l by lia.
  replace (Py.len a + 1 - Py.len a) with 1 by lia.
  unfold Py.len. rewrite Nat2Z.id.
  rewrite substring_skip by reflexivity.
  change (Z.to_nat 1) with 1%nat. cbn [substring]. now destruct b.
Qed.

(** The loop over the last component finds a character that is no dot
    exactly when the component is not made of dots. *)
Lemma skip_leading_dots_spec name : forall a rest,
  Py.skip_leading_dots (a +:+ name +:+ rest) (Py.len a) (String.length name)
  = negb (Py.only "." name).
Proof.
  induction name as [|c name IH]; intros a rest; [reflexivity|].
  cbn [String.length Py.skip_leading_dots Py.only]. rewrite append_cons.
  rewrite slice_char.
  destruct (Ascii.eqb c ".") eqn:Hc.
  - apply Ascii.eqb_eq in Hc as ->. cbn [String.eqb Ascii.eqb negb andb].
    simpl (negb (String.eqb "." ".")). cbv iota.
    specialize (IH (a +:+ ".") rest).
    rewrite append_assoc, append_cons, append_nil_l in IH.
    rewrite len_app in IH. exact IH.
  - replace (String.eqb (String c "") ".") with false; [reflexivity|].
    symmetry. apply String.eqb_neq. intros [= ->].
    now rewrite Ascii.eqb_refl in Hc.
Qed.


(** *** [splitext] against the extension of the specification *)

Lemma splitext_extension p ext :
  has_extension p ext ->
  exists root, Py.splitext p = (root, "." +:+ ext).
Proof.
  intros (dir & name & -> & Hdir & Hn & Hdots & He & Hd).
  assert (Hsep : Py.rfind "/" (dir +:+ name +:+ "." +:+ ext) + 1 = Py.len dir).
  { rewrite rfind_app, !contains_app, Hn, He. cbn [Py.contains Ascii.eqb orb].
    simpl (Ascii.eqb "." "/"). cbn [orb].
    destruct Hdir as [-> | [d ->]]; [reflexivity|].
    rewrite rfind_last by reflexivity. rewrite len_app. reflexivity. }
  assert (Hdot : Py.rfind "." (dir +:+ name +:+ "." +:+ ext) = Py.len dir + Py.len name).
  { rewrite <- append_assoc. rewrite append_cons, append_nil_l.
    rewrite rfind_last by assumption. apply len_app. }
  exists (dir +:+ name). unfold Py.splitext. rewrite Hdot.
  replace (Py.rfind "/" (dir +:+ name +:+ "." +:+ ext)) with (Py.len dir - 1) by lia.
  replace (Py.len dir - 1 + 1) with (Py.len dir) by lia.
  replace (Z.to_nat (Py.len dir + Py.len name - Py.len dir)) with (String.length name)
    by (unfold Py.len; lia).
  rewrite skip_leading_dots_spec, Hdots.
  pose proof (len_nonneg name).
  destruct (Py.len dir - 1 <? Py.len dir + Py.len name) eqn:E;
    [|apply Z.ltb_ge in E; lia].
  cbn [andb negb]. rewrite <- len_app, <- append_assoc.
  now rewrite slice_prefix, slice_suffix.
Qed.

Lemma extension_splitext p root x :
  Py.splitext p = (root, x) -> x <> "" ->
  exists ext, x = "." +:+ ext /\ has_extension p ext.
Proof.
  unfold Py.splitext.
  destruct (Py.rfind "/" p <? Py.rfind "." p) eqn:Hlt; cbn [andb];
    [|intros [= _ <-] Hx; now elim Hx].
  destruct (Py.skip_leading_dots _ _ _) eqn:Hskip;
    [|intros [= _ <-] Hx; now elim Hx].
  intros [= _ <-] _. apply Z.ltb_lt in Hlt.
  destruct (Py.contains "." p) eqn:Hdot.
  2:{ rewrite (rfind_absent _ _ Hdot) in Hlt.
      destruct (Py.contains "/" p) eqn:Hs;
        [pose proof (rfind_present _ _ Hs) | rewrite (rfind_absent _ _ Hs) in Hlt]; lia. }
  destruct (rfind_split _ _ Hdot) as (a & b & -> & Hb & Hr).
  rewrite Hr in *. rewrite slice_suffix.
  exists b. split; [reflexivity|].
  assert (Hsb : Py.contains "/" b = false).
  { destruct (Py.contains "/" b) eqn:Hsb; [|reflexivity].
    rewrite rfind_app in Hlt. cbn [Py.contains] in Hlt. rewrite Hsb, orb_true_r in Hlt.
    cbn [Py.rfind] in Hlt. pose proof (rfind_present _ _ Hsb) as Hp.
    destruct (0 <=? Py.rfind "/" b) eqn:E; [lia | apply Z.leb_gt in E; lia]. }
  assert (Hsa : Py.rfind "/" (a +:+ String "." b) = Py.rfind "/" a).
  { rewrite rfind_app. cbn [Py.contains]. now rewrite Hsb. }
  rewrite Hsa in *.
  destruct (Py.contains "/" a) eqn:Ha.
  - destruct (rfind_split _ _ Ha) as (d & n & -> & Hn & Hrd).
    rewrite Hrd in *.
    exists (d +:+ "/"), n. rewrite !append_assoc, !append_cons, !append_nil_l.
    repeat split; try assumption; [right; now exists d|].
    rewrite len_app, len_cons in Hskip.
    replace (Z.to_nat (Py.len d + (Py.len n + 1) - (Py.len d + 1))) with (String.length n)
      in Hskip by (unfold Py.len; lia).
    replace (Py.len d + 1) with (Py.len (d +:+ "/")) in Hskip
      by (rewrite len_app; reflexivity).
    replace ((d +:+ String "/" n) +:+ String "." b)
      with ((d +:+ "/") +:+ n +:+ String "." b) in Hskip
      by (now rewrite !append_assoc, !append_cons, !append_nil_l).
    rewrite skip_leading_dots_spec in Hskip. now destruct (Py.only "." n).
  - rewrite (rfind_absent _ _ Ha) in Hskip.
    exists "", a. rewrite !append_nil_l.
    repeat split; try assumption; [now left|].
    replace (Z.to_nat (Py.len a - (-1 + 1))) with (String.length a) in Hskip
      by (unfold Py.len; lia).
    change (-1 + 1) with (Py.len "") in Hskip.
    change (a +:+ String "." b) with ("" +:+ a +:+ String "." b) in Hskip.
    rewrite skip_leading_dots_spec in Hskip. now destruct (Py.only "." a).
Qed.

(** *** Lower case keeps the dots and the slashes where they are *)

Lemma lower_char_keeps c x :
  (x = "."%char \/ x = "/"%char) -> (Py.lower_char c = x <-> c = x).
Proof.
  intros Hx.
  destruct c as [[] [] [] [] [] [] [] []];
    destruct Hx as [-> | ->]; vm_compute; split; intros H; solve [discriminate H | reflexivity].
Qed.

Lemma lower_app a b : Py.lower (a +:+ b) = Py.lower a +:+ Py.lower b.
Proof.
  induction a as [|x a IH]; [reflexivity|].
  rewrite append_cons. cbn [Py.lower]. now rewrite append_cons, IH.
Qed.

Lemma lower_split s : forall x y,
  Py.lower s = x +:+ y -> exists a b, s = a +:+ b /\ Py.lower a = x /\ Py.lower b = y.
Proof.
  induction s as [|c s IH]; intros x y H.
  - destruct x; [|discriminate H]. exists "", "". now rewrite append_nil_l in H.
  - destruct x as [|c' x].
    + exists "", (String c s). now rewrite append_nil_l in H.
    + rewrite append_cons in H. cbn [Py.lower] in H. injection H as Hc Hs.
      destruct (IH _ _ Hs) as (a & b & -> & Ha & Hb).
      exists (String c a), b. cbn [Py.lower]. now rewrite Hc, Ha.
Qed.

Lemma lower_nil s : Py.lower s = "" -> s = "".
Proof. now destruct s. Qed.

Lemma lower_cons s x y :
  (x = "."%char \/ x = "/"%char) ->
  Py.lower s = String x y -> exists t, s = String x t /\ Py.lower t = y.
Proof.
  intros Hx H. destruct s as [|c s]; [discriminate H|].
  cbn [Py.lower] in H. injection H as Hc Hs.
  apply (lower_char_keeps _ _ Hx) in Hc as ->. now exists s.
Qed.

Lemma contains_lower x s :
  (x = "."%char \/ x = "/"%char) -> Py.contains x (Py.lower s) = Py.contains x s.
Proof.
  intros Hx. induction s as [|c s IH]; [reflexivity|].
  cbn [Py.lower Py.contains]. rewrite IH. f_equal.
  destruct (Ascii.eqb c x) eqn:E.
  - apply Ascii.eqb_eq in E. apply Ascii.eqb_eq. now apply lower_char_keeps.
  - apply Ascii.eqb_neq in E. apply Ascii.eqb_neq.
    intros H. apply E. now apply (lower_char_keeps _ _ Hx).
Qed.

Lemma only_lower s : Py.only "." (Py.lower s) = Py.only "." s.
Proof.
  induction s as [|c s IH]; [reflexivity|].
  cbn [Py.lower Py.only]. rewrite IH. f_equal.
  destruct (Ascii.eqb c ".") eqn:E.
  - apply Ascii.eqb_eq in E. apply Ascii.eqb_eq. apply lower_char_keeps; auto.
  - apply Ascii.eqb_neq in E. apply Ascii.eqb_neq.
    intros H. apply E. apply (lower_char_keeps c "."); auto.
Qed.

Lemma has_extension_lower key ext' :
  has_extension (Py.lower key) ext' <->
  exists ext, has_extension key ext /\ Py.lower ext = ext'.
Proof.
  split.
  - intros (dir' & name' & Hkey & Hdir & Hn & Hdots & He & Hd).
    apply lower_split in Hkey as (dir & r1 & -> & Hldir & Hr1).
    apply lower_split in Hr1 as (name & r2 & -> & Hlname & Hr2).
    rewrite append_cons, append_nil_l in Hr2.
    apply lower_cons in Hr2 as (ext & -> & Hlext); [|now left].
    subst dir' name' ext'.
    exists ext. split; [|reflexivity].
    exists dir, name. rewrite append_cons, append_nil_l.
    rewrite !contains_lower in * by auto. rewrite only_lower in Hdots.
    repeat split; try assumption.
    destruct Hdir as [Hdir | [d' Hdir]].
    + left. now apply lower_nil.
    + right. apply lower_split in Hdir as (d & x & -> & _ & Hx).
      apply lower_cons in Hx as (t & -> & Ht); [|now right].
      apply lower_nil in Ht as ->. now exists d.
  - intros (ext & (dir & name & -> & Hdir & Hn & Hdots & He & Hd) & <-).
    exists (Py.lower dir), (Py.lower name).
    rewrite !lower_app. rewrite !contains_lower by auto. rewrite only_lower.
    repeat split; try assumption.
    destruct Hdir as [-> | [d ->]]; [now left|].
    right. exists (Py.lower d). now rewrite lower_app.
Qed.

End Strings.

(** ** The input validator *)

Example validate_mp3 : validate_audio_file "audio/call1.mp3" = true.
Proof. reflexivity. Qed.
Example validate_upper : validate_audio_file "audio/Call.WAV" = true.
Proof. reflexivity. Qed.
Example validate_xyz : validate_audio_file "audio/call.xyz" = false.
Proof. reflexivity. Qed.
Example validate_dotfile : validate_audio_file "audio/.mp3" = false.
Proof. reflexivity. Qed.
Example validate_prefix : validate_audio_file "video/call.mp3" = false.
Proof. reflexivity. Qed.
Example validate_dir : validate_audio_file "audio/a.mp3/b" = false.
Proof. reflexivity. Qed.

Lemma allowed_extension_name x :
  str_in x allowed_extensions = true <->
  exists name, x = "." +:+ name /\ In name allowed_names.
Proof.
  unfold str_in, allowed_extensions, allowed_names. split.
  - intros H. apply existsb_exists in H as (y & Hy & E).
    apply String.eqb_eq in E as <-.
    cbn [In] in Hy.
    destruct Hy as [<-|[<-|[<-|[<-|[<-|[<-|[]]]]]]];
      eexists; (split; [reflexivity|]); cbn [In]; tauto.
  - intros (name & -> & Hn). apply existsb_exists.
    exists ("." +:+ name). split; [|apply String.eqb_refl].
    cbn [In] in Hn.
    destruct Hn as [<-|[<-|[<-|[<-|[<-|[<-|[]]]]]]]; cbn [In]; tauto.
Qed.

Lemma validate_audio_file_true key :
  validate_audio_file key = true <->
  Py.startswith key "audio/" = true
  /\ exists ext, has_extension key ext /\ In (Py.lower ext) allowed_names.
Proof.
  unfold validate_audio_file.
  destruct (Py.startswith key "audio/"); cbn [negb]; [|split; [discriminate | intros [[=] _]]].
  destruct (str_in _ allowed_extensions) eqn:Hin; cbn [negb].
  - split; [intros _ | reflexivity]. split; [reflexivity|].
    apply allowed_extension_name in Hin as (name & Hx & Hname).
    destruct (Py.splitext (Py.lower key)) as [root x] eqn:Hsplit. cbn [snd] in Hx.
    destruct (extension_splitext _ _ _ Hsplit) as (ext' & Hx' & Hext).
    { rewrite Hx. discriminate. }
    rewrite Hx in Hx'. change (String "." name = String "." ext') in Hx'.
    injection Hx' as <-.
    apply has_extension_lower in Hext as (ext & Hext & <-). now exists ext.
  - split; [discriminate|]. intros [_ (ext & Hext & Hname)].
    assert (H : has_extension (Py.lower key) (Py.lower ext))
      by (apply has_extension_lower; now exists ext).
    apply splitext_extension in H as [root Hsplit].
    rewrite Hsplit in Hin. cbn [snd] in Hin.
    assert (str_in ("." +:+ Py.lower ext) allowed_extensions = true)
      by (apply allowed_extension_name; eauto).
    congruence.
Qed.

(** C1: the validator answers true exactly for the keys that begin with
    [audio/] and whose extension, in lower case, is one of mp3, wav, m4a,
    flac, ogg and aac; a key without the prefix, and a key whose extension
    is another one, get false. *)
Theorem validate_audio_file_spec key :
  (validate_audio_file key = true <->
   Py.startswith key "audio/" = true
   /\ exists ext, has_extension key ext /\ In (Py.lower ext) allowed_names)
  /\ (Py.startswith key "audio/" = false -> validate_audio_file key = false)
  /\ (forall ext, has_extension key ext -> ~ In (Py.lower ext) allowed_names ->
      validate_audio_file key = false).
Proof.
  split; [apply validate_audio_file_true|]. split.
  - intros H. unfold validate_audio_file. now rewrite H.
  - intros ext Hext Hout.
    destruct (validate_audio_file key) eqn:E; [|reflexivity].
    apply validate_audio_file_true in E as [_ (ext' & Hext' & Hin)].
    assert (H : has_extension (Py.lower key) (Py.lower ext))
      by (apply has_extension_lower; now exists ext).
    assert (H' : has_extension (Py.lower key) (Py.lower ext'))
      by (apply has_extension_lower; now exists ext').
    apply splitext_extension in H as [r Hs]. apply splitext_extension in H' as [r' Hs'].
    rewrite Hs in Hs'. injection Hs' as _ Heq.
    change (Py.lower ext = Py.lower ext') in Heq.
    rewrite Heq in Hout. contradiction.
Qed.

Lemma has_extension_intro dir name ext :
  (dir = "" \/ exists d, dir = d +:+ "/") ->
  Py.contains "/" name = false -> Py.only "." name = false ->
  Py.contains "/" ext = false -> Py.contains "." ext = false ->
  has_extension (dir +:+ name +:+ "." +:+ ext) ext.
Proof. intros. exists dir, name. repeat split; assumption. Qed.

Lemma validate_audio_file_witness :
  validate_audio_file "audio/Call.WAV" = true
  /\ validate_audio_file "video/call.mp3" = false
  /\ validate_audio_file "audio/call.xyz" = false.
Proof.
  split; [|split].
  - apply (proj1 (validate_audio_file_spec "audio/Call.WAV")).
    split; [reflexivity|]. exists "WAV". split.
    + apply (has_extension_intro "audio/" "Call" "WAV"); try reflexivity.
      right. now exists "audio".
    + vm_compute. tauto.
  - apply (proj1 (proj2 (validate_audio_file_spec "video/call.mp3"))). reflexivity.
  - apply (proj2 (proj2 (validate_audio_file_spec "audio/call.xyz")) "xyz").
    + apply (has_extension_intro "audio/" "call" "xyz"); try reflexivity.
      right. now exists "audio".
    + vm_compute. intros H. decompose [or] H; [discriminate.. | assumption].
Defined.

(** ** The analysis adapter *)

Section Analysis.

Variable svc : services.

Lemma find_absent c s : Py.contains c s = false -> Py.find c s = -1.
Proof.
  induction s as [|x s IH]; [reflexivity|].
  cbn [Py.contains Py.find]. intros H. apply orb_false_elim in H as [-> Hs].
  now rewrite (IH Hs).
Qed.

Lemma find_first c a t :
  Py.contains c a = false -> Py.find c (a +:+ String c t) = Py.len a.
Proof.
  induction a as [|x a IH]; intros H.
  - rewrite append_nil_l. cbn [Py.find]. now rewrite Ascii.eqb_refl.
  - cbn [Py.contains] in H. apply orb_false_elim in H as [Hx Ha].
    rewrite append_cons. cbn [Py.find]. rewrite Hx, (IH Ha), len_cons.
    pose proof (len_nonneg a).
    destruct (Py.len a <? 0) eqn:E; [apply Z.ltb_lt in E; lia | reflexivity].
Qed.

Lemma slice_middle a x b :
  Py.slice (a +:+ x +:+ b) (Some (Py.len a)) (Some (Py.len a + Py.len x)) = x.
Proof.
  unfold Py.slice, Py.clamp_index. rewrite !len_app.
  pose proof (len_nonneg a). pose proof (len_nonneg x). pose proof (len_nonneg b).
  destruct (Py.len a <? 0) eqn:E; [apply Z.ltb_lt in E; lia|].
  destruct (Py.len a + Py.len x <? 0) eqn:E'; [apply Z.ltb_lt in E'; lia|].
  rewrite !Z.min_l by lia.
  replace (Py.len a + Py.len x - Py.len a) with (Py.len x) by lia.
  unfold Py.len. rewrite !Nat2Z.id.
  rewrite substring_skip by reflexivity. apply substring_prefix.
Qed.

(** The text between the first opening and the last closing brace. *)
Lemma json_substring_braces pre mid post :
  Py.contains "{" pre = false -> Py.contains "}" post = false ->
  json_substring (pre +:+ "{" +:+ mid +:+ "}" +:+ post) = "{" +:+ mid +:+ "}".
Proof.
  intros Hpre Hpost. unfold json_substring.
  change (pre +:+ "{" +:+ mid +:+ "}" +:+ post)
    with (pre +:+ String "{" (mid +:+ String "}" post)).
  change ("{" +:+ mid +:+ "}") with (String "{" (mid +:+ "}")).
  rewrite (find_first _ _ _ Hpre).
  assert (E : pre +:+ String "{" (mid +:+ String "}" post)
              = (pre +:+ String "{" mid) +:+ String "}" post)
    by (now rewrite append_assoc, append_cons).
  replace (Py.rfind "}" (pre +:+ String "{" (mid +:+ String "}" post)))
    with (Py.len (pre +:+ String "{" mid))
    by (now rewrite E, (rfind_last _ _ _ Hpost)).
  clear E.
  replace (Py.len (pre +:+ String "{" mid) + 1)
    with (Py.len pre + Py.len (String "{" (mid +:+ "}")))
    by (rewrite !len_app, !len_cons, len_app, len_cons, len_nil; lia).
  replace (pre +:+ String "{" (mid +:+ String "}" post))
    with (pre +:+ String "{" (mid +:+ "}") +:+ post).
  - apply slice_middle.
  - now rewrite !append_cons, append_assoc.
Qed.

Lemma substring_first_chars n s : substring 0 n s = first_chars n s.
Proof.
  revert s. induction n as [|n IH]; intros [|c s]; cbn [substring first_chars];
    try reflexivity. now rewrite IH.
Qed.

Lemma first_chars_all n s : (String.length s <= n)%nat -> first_chars n s = s.
Proof.
  revert s. induction n as [|n IH]; intros [|c s] H; cbn [first_chars];
    try reflexivity; cbn [String.length] in H; [lia|].
  rewrite IH by lia. reflexivity.
Qed.

Lemma first_chars_length n s : (String.length (first_chars n s) <= n)%nat.
Proof.
  revert s. induction n as [|n IH]; intros [|c s]; cbn [first_chars String.length];
    try lia. specialize (IH s). lia.
Qed.

Lemma first_chars_prefix n s : exists rest, s = first_chars n s +:+ rest.
Proof.
  revert s. induction n as [|n IH]; intros [|c s]; cbn [first_chars].
  - now exists "".
  - now exists (String c s).
  - now exists "".
  - destruct (IH s) as [rest Hr]. exists rest. now rewrite append_cons, <- Hr.
Qed.

Lemma slice_first n s :
  0 <= n -> Py.slice s None (Some n) = first_chars (Z.to_nat n) s.
Proof.
  intros Hn. unfold Py.slice, Py.clamp_index.
  destruct (n <? 0) eqn:E; [apply Z.ltb_lt in E; lia|].
  rewrite Z.sub_0_r. change (Z.to_nat 0) with 0%nat. rewrite substring_first_chars.
  destruct (Z.le_ge_cases n (Py.len s)) as [H|H].
  - now rewrite Z.min_l.
  - rewrite Z.min_r by lia. unfold Py.len. rewrite Nat2Z.id.
    rewrite !first_chars_all; [reflexivity | unfold Py.len in H; lia | lia].
Qed.

Lemma degraded_summary text :
  degraded text =
  JObj [("summary", JStr (first_chars 500 text));
        ("error", JStr "Failed to parse structured response");
        ("raw_response", JStr text)].
Proof. unfold degraded. now rewrite slice_first. Qed.

(** The three outcomes of the inner [try]. *)
Lemma extract_analysis_parsed text v w :
  json_loads svc (json_substring text) = Ok v ->
  extract_analysis svc text w = (Ok v, w).
Proof.
  intros H. unfold extract_analysis, try_except_class, loads, lift. now rewrite H.
Qed.

Lemma extract_analysis_degraded text e w :
  json_loads svc (json_substring text) = Raise e ->
  is_instance e "JSONDecodeError" = true ->
  extract_analysis svc text w = (Ok (degraded text), w).
Proof.
  intros H He. unfold extract_analysis, try_except_class, loads, lift.
  now rewrite H, He.
Qed.

Lemma extract_analysis_raises text e w :
  json_loads svc (json_substring text) = Raise e ->
  is_instance e "JSONDecodeError" = false ->
  extract_analysis svc text w = (Raise e, w).
Proof.
  intros H He. unfold extract_analysis, try_except_class, loads, lift.
  now rewrite H, He.
Qed.

(** The adapter, call by call. *)
Lemma analyze_with_claude_unfold transcript_text w :
  analyze_with_claude svc transcript_text w =
  let w1 := log (CInvoke INFERENCE_PROFILE_ARN (AnalysisPrompt transcript_text)) w in
  match invoke_model svc INFERENCE_PROFILE_ARN (AnalysisPrompt transcript_text) w with
  | Raise e => (Raise e, w1)
  | Ok response =>
      match reply_text svc response with
      | Raise e => (Raise e, w1)
      | Ok (JStr t) => extract_analysis svc t w1
      | Ok v => (Raise (no_attribute v "find"), w1)
      end
  end.
Proof.
  unfold analyze_with_claude.
  change (negb (truthy (JStr INFERENCE_PROFILE_ARN))) with false.
  unfold try_except, mbind, M_bind, bind, bedrock_invoke, lift, raise, when_, ret.
  cbv beta iota zeta.
  destruct (invoke_model svc _ _ w) as [response|e]; [|reflexivity].
  destruct (reply_text svc response) as [[| | |t| |]|e]; try reflexivity.
  unfold extract_analysis, try_except_class, loads, lift.
  destruct (json_loads svc (json_substring t)) as [v|e]; [reflexivity|].
  destruct (is_instance e "JSONDecodeError"); reflexivity.
Qed.


(** C4: when the parse of the text between the braces of a reply raises
    [JSONDecodeError], the adapter does not raise: it returns the degraded
    document, with the error marker, the whole reply under [raw_response]
    and the first 500 characters of the reply, hence at most 500, under
    [summary]. *)
Theorem analysis_degrades_on_parse_failure transcript_text response text e w :
  invoke_model svc INFERENCE_PROFILE_ARN (AnalysisPrompt transcript_text) w = Ok response ->
  reply_text svc response = Ok (JStr text) ->
  json_loads svc (json_substring text) = Raise e ->
  is_instance e "JSONDecodeError" = true ->
  exists document,
    fst (analyze_with_claude svc transcript_text w) = Ok document
    /\ document = degraded text
    /\ subscript document "error" = Ok (JStr "Failed to parse structured response")
    /\ subscript document "raw_response" = Ok (JStr text)
    /\ subscript document "summary" = Ok (JStr (first_chars 500 text))
    /\ (exists rest, text = first_chars 500 text +:+ rest)
    /\ (String.length (first_chars 500 text) <= 500)%nat.
Proof.
  intros Hinvoke Htext Hloads Hclass.
  exists (degraded text). rewrite analyze_with_claude_unfold. cbv zeta.
  rewrite Hinvoke, Htext, (extract_analysis_degraded _ _ _ Hloads Hclass).
  split; [reflexivity|]. split; [reflexivity|].
  rewrite degraded_summary.
  repeat split; try reflexivity;
    [apply first_chars_prefix | apply first_chars_length].
Qed.

(** C5, amended: for a reply made of a text without an opening brace, a
    well-formed JSON object and a text without a closing brace, the adapter
    hands exactly the object, from the first opening to the last closing
    brace, to the parser and returns what the parser returns. *)
Theorem analysis_parses_the_braced_object transcript_text response pre mid post v w :
  invoke_model svc INFERENCE_PROFILE_ARN (AnalysisPrompt transcript_text) w = Ok response ->
  reply_text svc response = Ok (JStr (pre +:+ "{" +:+ mid +:+ "}" +:+ post)) ->
  Py.contains "{" pre = false ->
  Py.contains "}" post = false ->
  json_loads svc ("{" +:+ mid +:+ "}") = Ok v ->
  json_substring (pre +:+ "{" +:+ mid +:+ "}" +:+ post) = "{" +:+ mid +:+ "}"
  /\ fst (analyze_with_claude svc transcript_text w) = Ok v.
Proof.
  intros Hinvoke Htext Hpre Hpost Hloads.
  pose proof (json_substring_braces _ mid _ Hpre Hpost) as Hsub.
  split; [exact Hsub|].
  rewrite analyze_with_claude_unfold. cbv zeta. rewrite Hinvoke, Htext.
  rewrite (extract_analysis_parsed _ v); [reflexivity|].
  now rewrite Hsub.
Qed.

End Analysis.

Example degraded_keeps_500 :
  subscript (degraded "plain text") "summary" = Ok (JStr "plain text").
Proof. reflexivity. Qed.

Example json_substring_no_braces : json_substring "no braces" = "".
Proof. reflexivity. Qed.

Example json_substring_reversed : json_substring "} and {" = "".
Proof. reflexivity. Qed.

Lemma analysis_degrades_on_parse_failure_witness :
  exists document,
    fst (analyze_with_claude (Demo.replying Demo.plain_reply) (JStr "hello") Demo.world0)
    = Ok document
    /\ document = degraded Demo.plain_reply
    /\ subscript document "error" = Ok (JStr "Failed to parse structured response")
    /\ subscript document "raw_response" = Ok (JStr Demo.plain_reply)
    /\ subscript document "summary" = Ok (JStr (first_chars 500 Demo.plain_reply))
    /\ (exists rest, Demo.plain_reply = first_chars 500 Demo.plain_reply +:+ rest)
    /\ (String.length (first_chars 500 Demo.plain_reply) <= 500)%nat.
Proof.
  apply (analysis_degrades_on_parse_failure (Demo.replying Demo.plain_reply)
           (JStr "hello") (Demo.model_response Demo.plain_reply) Demo.plain_reply
           (Exn "JSONDecodeError" "Expecting value") Demo.world0);
    vm_compute; reflexivity.
Defined.

Lemma analysis_parses_the_braced_object_witness :
  json_substring ("<json>" +:+ "{" +:+ "" +:+ "}" +:+ "</json>") = "{" +:+ "" +:+ "}"
  /\ fst (analyze_with_claude (Demo.replying Demo.tagged_reply) (JStr "hello") Demo.world0)
     = Ok (JObj []).
Proof.
  apply (analysis_parses_the_braced_object (Demo.replying Demo.tagged_reply)
           (JStr "hello") (Demo.model_response Demo.tagged_reply)
           "<json>" "" "</json>" (JObj []) Demo.world0);
    vm_compute; reflexivity.
Defined.

(** C5, as the specification states it, fails on a reply with a brace in
    the prose: the reply below holds one well-formed JSON object, at offset
    15, and the adapter answers with the degraded document. *)
Lemma stray_brace_is_not_parsed :
  single_object Demo.svc Demo.stray_reply 15 2
  /\ json_loads Demo.svc (substring 15 2 Demo.stray_reply) = Ok (JObj [])
  /\ json_substring Demo.stray_reply = "{x} <json>{}"
  /\ fst (extract_analysis Demo.svc Demo.stray_reply Demo.world0)
     = Ok (degraded Demo.stray_reply)
  /\ fst (analyze_with_claude (Demo.replying Demo.stray_reply) (JStr "hello") Demo.world0)
     <> Ok (JObj []).
Proof.
  repeat split; try (vm_compute; reflexivity).
  vm_compute. discriminate.
Qed.

(** C4, as the specification states it, fails on a reply whose braced text
    opens two thousand lists and closes none: the text is no JSON, the
    parser gives up with [RecursionError], which is no [JSONDecodeError],
    and the adapter raises it. *)
Lemma unclosed_nesting_is_raised :
  reply_text Fixtures.unclosing (Demo.model_response Fixtures.unclosed_reply)
  = Ok (JStr Fixtures.unclosed_reply)
  /\ json_substring Fixtures.unclosed_reply = Fixtures.unclosed_reply
  /\ Lite.loads (json_substring Fixtures.unclosed_reply)
     = Raise (Exn "JSONDecodeError" "Expecting value")
  /\ json_loads Fixtures.unclosing (json_substring Fixtures.unclosed_reply)
     = Raise (Exn "RecursionError"
                "maximum recursion depth exceeded while decoding a JSON array")
  /\ fst (analyze_with_claude Fixtures.unclosing (JStr "hello") Demo.world0)
     = Raise (Exn "RecursionError"
                "maximum recursion depth exceeded while decoding a JSON array").
Proof. repeat split; vm_compute; reflexivity. Qed.

(** ** The pipeline orchestrator *)

Section Orchestrator.

Variable svc : services.

(** Unfold one sequencing step. *)
Ltac step := unfold when_, mbind, M_bind, bind, mret, M_ret, ret, raise, lift.

Lemma bind_ok {A B} (m : M A) (k : A -> M B) w a w1 :
  m w = (Ok a, w1) -> (m ≫= k) w = k a w1.
Proof. intros H. step. now rewrite H. Qed.

Lemma bind_raise {A B} (m : M A) (k : A -> M B) w e w1 :
  m w = (Raise e, w1) -> (m ≫= k) w = (Raise e, w1).
Proof. intros H. step. now rewrite H. Qed.

Lemma try_except_reraise {A} (m : M A) w :
  try_except m (fun e => raise e) w = m w.
Proof. unfold try_except, raise. now destruct (m w) as [[a|e] w1]. Qed.

Lemma puts_log c w : is_put c = false -> puts (log c w) = puts w.
Proof.
  intros H. unfold puts, log. cbn [calls].
  rewrite List.filter_app. cbn [List.filter]. rewrite H. apply List.app_nil_r.
Qed.

Lemma loads_of_log c w :
  loads_of (log c w) = (loads_of w ++ if is_load c then [c] else [])%list.
Proof.
  unfold loads_of, log. cbn [calls].
  rewrite List.filter_app. cbn [List.filter]. now destruct (is_load c).
Qed.

(** *** What each step leaves of the world *)

Lemma cleanup_cleaned path w : cleanup path w = (Ok tt, cleaned path w).
Proof.
  unfold cleanup, cleaned, path_exists, os_remove. step.
  destruct (fs w !! path) as [content|] eqn:E.
  - rewrite bool_decide_eq_true_2 by eauto. now rewrite E.
  - rewrite bool_decide_eq_false_2; [reflexivity|]. intros [x Hx]. discriminate.
Qed.


Lemma cleaned_s3 path w : s3 (cleaned path w) = s3 w.
Proof. unfold cleaned. now destruct (fs w !! path). Qed.

Lemma cleaned_puts path w : puts (cleaned path w) = puts w.
Proof.
  unfold cleaned. destruct (fs w !! path); [|reflexivity].
  unfold puts. cbn [calls]. rewrite List.filter_app. apply List.app_nil_r.
Qed.

Lemma cleaned_loads path w : loads_of (cleaned path w) = loads_of w.
Proof.
  unfold cleaned. destruct (fs w !! path); [|reflexivity].
  unfold loads_of. cbn [calls]. rewrite List.filter_app. apply List.app_nil_r.
Qed.

Lemma process_audio_file_unfold bucket key filename w :
  process_audio_file svc bucket key filename w =
  (fst (pipeline svc bucket key filename (temp_path svc filename) w),
   cleaned (temp_path svc filename)
     (snd (pipeline svc bucket key filename (temp_path svc filename) w))).
Proof.
  unfold process_audio_file, try_finally. rewrite try_except_reraise.
  destruct (pipeline _ _ _ _ _ w) as [r w1]. now rewrite cleanup_cleaned.
Qed.

Lemma download_file_keeps bucket key path w r w1 :
  download_file svc bucket key path w = (r, w1) ->
  s3 w1 = s3 w /\ puts w1 = puts w /\ loads_of w1 = loads_of w.
Proof.
  unfold download_file. intros H.
  assert (Hlog : s3 (log (CDownload bucket key path) w) = s3 w
                 /\ puts (log (CDownload bucket key path) w) = puts w
                 /\ loads_of (log (CDownload bucket key path) w) = loads_of w).
  { rewrite puts_log, loads_of_log by reflexivity. cbn [is_load].
    rewrite List.app_nil_r. repeat split. }
  destruct bucket as [| | |b| |]; try (injection H as <- <-; exact Hlog).
  destruct (download_may_fail svc b key path w) as [[e|]|];
    try (injection H as <- <-; exact Hlog).
  destruct (s3 w !! (b, key)); injection H as <- <-; exact Hlog.
Qed.

Lemma fetch_keeps bucket key path w r w1 :
  fetch svc bucket key path w = (r, w1) ->
  s3 w1 = s3 w /\ puts w1 = puts w /\ loads_of w1 = loads_of w.
Proof.
  unfold fetch. step. unfold path_exists, path_getsize.
  destruct (download_file svc bucket key path w) as [[[]|e] w0] eqn:Hd;
    apply download_file_keeps in Hd.
  2:{ now intros [= <- <-]. }
  destruct (negb (bool_decide (is_Some (fs w0 !! path)))); [now intros [= <- <-]|].
  destruct (fs w0 !! path) as [content|]; [|now intros [= <- <-]].
  destruct (Py.len content =? 0); now intros [= <- <-].
Qed.

Lemma whisper_load_model_log name w r w1 :
  whisper_load_model svc name w = (r, w1) -> w1 = log (CLoadModel name) w.
Proof.
  unfold whisper_load_model. destruct (load_model svc name w); now intros [= <- <-].
Qed.

Lemma model_transcribe_log path w r w1 :
  model_transcribe svc path w = (r, w1) -> w1 = log (CTranscribe path) w.
Proof. unfold model_transcribe. now intros [= <- <-]. Qed.

Lemma extract_analysis_world text w : snd (extract_analysis svc text w) = w.
Proof.
  unfold extract_analysis, try_except_class, loads, lift.
  destruct (json_loads svc (json_substring text)) as [v|e]; [reflexivity|].
  now destruct (is_instance e "JSONDecodeError").
Qed.

Lemma analyze_with_claude_log text w r w1 :
  analyze_with_claude svc text w = (r, w1) ->
  w1 = log (CInvoke INFERENCE_PROFILE_ARN (AnalysisPrompt text)) w.
Proof.
  rewrite analyze_with_claude_unfold. cbv zeta.
  destruct (invoke_model svc _ _ w) as [response|e]; [|now intros [= <- <-]].
  destruct (reply_text svc response) as [[| | |t| |]|e]; try now intros [= <- <-].
  intros H. rewrite <- (extract_analysis_world t (log _ w)). now rewrite H.
Qed.

(** *** The outcomes of the body of the [try] *)

Lemma persist_outcome bucket filename result text analysis w r w1 :
  persist svc bucket filename result text analysis w = (r, w1) ->
  let document := complete_result (now svc w) filename result text analysis in
  let result_key := "transcripts/" +:+ now svc w +:+ ".json" in
  let stored := json_dumps svc (Some 2) document in
  (exists b, bucket = JStr b /\ r = Ok document
             /\ w1 = store_object b result_key stored
                       (log (CPutObject bucket result_key stored) w))
  \/ (exists e, r = Raise e /\ w1 = log (CPutObject bucket result_key stored) w).
Proof.
  unfold persist, datetime_now, put_object. step. cbv zeta.
  destruct bucket as [| | |b| |]; try (intros [= <- <-]; right; eauto).
  destruct (put_may_fail svc b _ _ w) as [e|]; intros [= <- <-]; [right; eauto|].
  left. exists b. repeat split.
Qed.

Lemma pipeline_fails bucket key filename w e wf :
  fails_in svc bucket key filename w e wf ->
  pipeline svc bucket key filename (temp_path svc filename) w = (Raise e, wf).
Proof.
  intros H. unfold pipeline.
  destruct H as [e w1 Hf | e w1 w2 Hf Hl | e w1 w2 w3 Hf Hl Ht
                 | e w1 w2 w3 result Hf Hl Ht Hx
                 | e w1 w2 w3 w4 result text Hf Hl Ht Hx Ha].
  - now rewrite (bind_raise _ _ _ _ _ Hf).
  - rewrite (bind_ok _ _ _ _ _ Hf). now rewrite (bind_raise _ _ _ _ _ Hl).
  - rewrite (bind_ok _ _ _ _ _ Hf), (bind_ok _ _ _ _ _ Hl).
    now rewrite (bind_raise _ _ _ _ _ Ht).
  - rewrite (bind_ok _ _ _ _ _ Hf), (bind_ok _ _ _ _ _ Hl), (bind_ok _ _ _ _ _ Ht).
    apply bind_raise. unfold lift. now rewrite Hx.
  - rewrite (bind_ok _ _ _ _ _ Hf), (bind_ok _ _ _ _ _ Hl), (bind_ok _ _ _ _ _ Ht).
    rewrite (bind_ok _ _ _ text w3) by (unfold lift; now rewrite Hx).
    now rewrite (bind_raise _ _ _ _ _ Ha).
Qed.

Lemma pipeline_persists bucket key filename w result text analysis w4 :
  reaches_persist svc bucket key filename w result text analysis w4 ->
  pipeline svc bucket key filename (temp_path svc filename) w
  = persist svc bucket filename result text analysis w4.
Proof.
  intros (w1 & w2 & w3 & Hf & Hl & Ht & Hx & Ha). unfold pipeline.
  rewrite (bind_ok _ _ _ _ _ Hf), (bind_ok _ _ _ _ _ Hl), (bind_ok _ _ _ _ _ Ht).
  rewrite (bind_ok _ _ _ text w3) by (unfold lift; now rewrite Hx).
  now rewrite (bind_ok _ _ _ _ _ Ha).
Qed.

(** Every run either fails in a step or reaches the store. *)
Lemma pipeline_cases bucket key filename w :
  (exists e wf, fails_in svc bucket key filename w e wf)
  \/ (exists result text analysis w4,
        reaches_persist svc bucket key filename w result text analysis w4).
Proof.
  destruct (fetch svc bucket key (temp_path svc filename) w) as [[[]|e] w1] eqn:Hf.
  2:{ left. exists e, w1. now apply fails_in_fetch. }
  destruct (whisper_load_model svc "medium" w1) as [[[]|e] w2] eqn:Hl.
  2:{ left. exists e, w2. now apply (fails_in_load _ _ _ _ _ _ w1). }
  destruct (model_transcribe svc (temp_path svc filename) w2) as [[result|e] w3] eqn:Ht.
  2:{ left. exists e, w3. now apply (fails_in_transcribe _ _ _ _ _ _ w1 w2). }
  destruct (subscript (JObj result) "text") as [text|e] eqn:Hx.
  2:{ left. exists e, w3. now apply (fails_in_text _ _ _ _ _ _ w1 w2 w3 result). }
  destruct (analyze_with_claude svc text w3) as [[analysis|e] w4] eqn:Ha.
  2:{ left. exists e, w4. now apply (fails_in_analyze _ _ _ _ _ _ w1 w2 w3 w4 result text). }
  right. exists result, text, analysis, w4, w1, w2, w3. repeat split; assumption.
Qed.

Lemma fails_in_keeps bucket key filename w e wf :
  fails_in svc bucket key filename w e wf -> s3 wf = s3 w /\ puts wf = puts w.
Proof.
  intros H.
  destruct H as [e w1 Hf | e w1 w2 Hf Hl | e w1 w2 w3 Hf Hl Ht
                 | e w1 w2 w3 result Hf Hl Ht Hx
                 | e w1 w2 w3 w4 result text Hf Hl Ht Hx Ha];
    apply fetch_keeps in Hf as (Hs & Hp & _);
    try (apply whisper_load_model_log in Hl as ->);
    try (apply model_transcribe_log in Ht as ->);
    try (apply analyze_with_claude_log in Ha as ->);
    rewrite ?puts_log by reflexivity; cbn [s3 log]; auto.
Qed.

Lemma reaches_persist_keeps bucket key filename w result text analysis w4 :
  reaches_persist svc bucket key filename w result text analysis w4 ->
  s3 w4 = s3 w /\ puts w4 = puts w.
Proof.
  intros (w1 & w2 & w3 & Hf & Hl & Ht & Hx & Ha).
  apply fetch_keeps in Hf as (Hs & Hp & _).
  apply whisper_load_model_log in Hl as ->.
  apply model_transcribe_log in Ht as ->.
  apply analyze_with_claude_log in Ha as ->.
  rewrite ?puts_log by reflexivity; cbn [s3 log]; auto.
Qed.


Lemma fails_in_loads bucket key filename w w1 e wf :
  fetch svc bucket key (temp_path svc filename) w = (Ok tt, w1) ->
  fails_in svc bucket key filename w e wf ->
  loads_of wf = (loads_of w ++ [CLoadModel "medium"])%list.
Proof.
  intros Hfetch H.
  destruct H as [e w1' Hf | e w1' w2 Hf Hl | e w1' w2 w3 Hf Hl Ht
                 | e w1' w2 w3 result Hf Hl Ht Hx
                 | e w1' w2 w3 w4 result text Hf Hl Ht Hx Ha];
    [congruence|..];
    apply fetch_keeps in Hf as (_ & _ & Hloads);
    try (apply whisper_load_model_log in Hl as ->);
    try (apply model_transcribe_log in Ht as ->);
    try (apply analyze_with_claude_log in Ha as ->);
    rewrite ?loads_of_log; cbn [is_load]; rewrite ?List.app_nil_r;
    now rewrite Hloads.
Qed.

Lemma reaches_persist_loads bucket key filename w result text analysis w4 :
  reaches_persist svc bucket key filename w result text analysis w4 ->
  loads_of w4 = (loads_of w ++ [CLoadModel "medium"])%list.
Proof.
  intros (w1 & w2 & w3 & Hf & Hl & Ht & Hx & Ha).
  apply fetch_keeps in Hf as (_ & _ & Hloads).
  apply whisper_load_model_log in Hl as ->.
  apply model_transcribe_log in Ht as ->.
  apply analyze_with_claude_log in Ha as ->.
  rewrite !loads_of_log. cbn [is_load]. rewrite !List.app_nil_r. now rewrite Hloads.
Qed.



(** C3: a run that fails in a step returns that failure to its caller
    without running a later step, and leaves the object store as it was;
    the store is written, or even called, only when every step before it
    has succeeded; and no failed run changes the object store. *)
Theorem failure_skips_the_rest_and_stores_nothing bucket key filename w :
  (forall e wf,
     fails_in svc bucket key filename w e wf ->
     process_audio_file svc bucket key filename w
     = (Raise e, cleaned (temp_path svc filename) wf)
     /\ s3 (cleaned (temp_path svc filename) wf) = s3 w
     /\ puts (cleaned (temp_path svc filename) wf) = puts w)
  /\ (forall r w',
        process_audio_file svc bucket key filename w = (r, w') ->
        puts w' <> puts w \/ s3 w' <> s3 w ->
        exists result text analysis w4,
          reaches_persist svc bucket key filename w result text analysis w4)
  /\ (forall e w',
        process_audio_file svc bucket key filename w = (Raise e, w') ->
        s3 w' = s3 w).
Proof.
  assert (Hfail : forall e wf,
     fails_in svc bucket key filename w e wf ->
     process_audio_file svc bucket key filename w
     = (Raise e, cleaned (temp_path svc filename) wf)
     /\ s3 (cleaned (temp_path svc filename) wf) = s3 w
     /\ puts (cleaned (temp_path svc filename) wf) = puts w).
  { intros e wf H. rewrite process_audio_file_unfold, (pipeline_fails _ _ _ _ _ _ H).
    rewrite cleaned_s3, cleaned_puts. split; [reflexivity|].
    now apply fails_in_keeps in H. }
  split; [exact Hfail|]. split.
  - intros r w' Hrun Hchanged.
    destruct (pipeline_cases bucket key filename w) as [(e & wf & H) | H]; [|exact H].
    destruct (Hfail _ _ H) as (Hrun' & Hs & Hp).
    rewrite Hrun' in Hrun. injection Hrun as <- <-. tauto.
  - intros e w' Hrun.
    destruct (pipeline_cases bucket key filename w)
      as [(e' & wf & H) | (result & text & analysis & w4 & H)].
    + destruct (Hfail _ _ H) as (Hrun' & Hs & _).
      rewrite Hrun' in Hrun. now injection Hrun as <- <-.
    + rewrite process_audio_file_unfold, (pipeline_persists _ _ _ _ _ _ _ _ H) in Hrun.
      destruct (persist svc bucket filename result text analysis w4) as [r w5] eqn:Hp.
      cbn [fst snd] in Hrun. injection Hrun as -> <-.
      apply persist_outcome in Hp. cbv zeta in Hp.
      destruct Hp as [(b & _ & [=] & _) | (e' & _ & ->)].
      rewrite cleaned_s3. cbn [s3 log]. now apply reaches_persist_keeps in H.
Qed.

(** C6, amended: the speech model of size class medium is loaded once in
    every run of the orchestrator whose download and size check succeed,
    whatever the process has loaded before, and not at all in a run whose
    download or check fails. *)
Theorem model_is_loaded_on_every_run bucket key filename w :
  (forall w1,
     fetch svc bucket key (temp_path svc filename) w = (Ok tt, w1) ->
     loads_of (snd (process_audio_file svc bucket key filename w))
     = (loads_of w ++ [CLoadModel "medium"])%list
     /\ model_loads (snd (process_audio_file svc bucket key filename w))
        = S (model_loads w))
  /\ (forall e w1,
        fetch svc bucket key (temp_path svc filename) w = (Raise e, w1) ->
        model_loads (snd (process_audio_file svc bucket key filename w))
        = model_loads w).
Proof.
  split.
  - intros w1 Hfetch.
    assert (H : loads_of (snd (process_audio_file svc bucket key filename w))
                = (loads_of w ++ [CLoadModel "medium"])%list).
    { rewrite process_audio_file_unfold. cbn [snd]. rewrite cleaned_loads.
      destruct (pipeline_cases bucket key filename w)
        as [(e & wf & H) | (result & text & analysis & w4 & H)].
      - rewrite (pipeline_fails _ _ _ _ _ _ H). cbn [snd].
        exact (fails_in_loads _ _ _ _ _ _ _ Hfetch H).
      - rewrite (pipeline_persists _ _ _ _ _ _ _ _ H).
        destruct (persist svc bucket filename result text analysis w4) as [r w5] eqn:Hp.
        apply persist_outcome in Hp. cbv zeta in Hp. cbn [snd].
        destruct Hp as [(b & _ & _ & ->) | (e' & _ & ->)];
          unfold store_object, loads_of; cbn [calls log];
          rewrite List.filter_app; cbn [List.filter is_load]; rewrite List.app_nil_r;
          exact (reaches_persist_loads _ _ _ _ _ _ _ _ H). }
    split; [exact H|]. unfold model_loads. rewrite H, List.length_app. cbn. lia.
  - intros e w1 Hfetch. rewrite process_audio_file_unfold.
    rewrite (pipeline_fails _ _ _ _ e w1) by now apply fails_in_fetch.
    cbn [snd]. unfold model_loads. rewrite cleaned_loads.
    apply fetch_keeps in Hfetch as (_ & _ & ->). reflexivity.
Qed.

Lemma audio_duration_complete_result timestamp filename result text analysis :
  audio_duration (complete_result timestamp filename result text analysis)
  = Ok (Dict.get_default "duration" result (JNum 0)).
Proof. reflexivity. Qed.

(** C10: in a successful run whose transcription result has no [duration]
    field, the [audio_duration] of the metadata of the document is 0. *)
Theorem missing_duration_defaults_to_zero
    bucket key filename w result text analysis w4 document w' :
  reaches_persist svc bucket key filename w result text analysis w4 ->
  Dict.get "duration" result = None ->
  process_audio_file svc bucket key filename w = (Ok document, w') ->
  audio_duration document = Ok (JNum 0).
Proof.
  intros Hreach Hduration Hrun.
  rewrite process_audio_file_unfold, (pipeline_persists _ _ _ _ _ _ _ _ Hreach) in Hrun.
  destruct (persist svc bucket filename result text analysis w4) as [r w5] eqn:Hp.
  cbn [fst snd] in Hrun. injection Hrun as -> _.
  apply persist_outcome in Hp. cbv zeta in Hp.
  destruct Hp as [(b & _ & [= ->] & _) | (e & [=] & _)].
  rewrite audio_duration_complete_result. unfold Dict.get_default.
  now rewrite Hduration.
Qed.

End Orchestrator.



Example run_succeeds :
  calls (snd (process_audio_file Demo.svc (JStr "b") "audio/call1.mp3" "call1.mp3"
                Demo.world0))
  = [CDownload (JStr "b") "audio/call1.mp3" "/tmp/call1.mp3";
     CLoadModel "medium";
     CTranscribe "/tmp/call1.mp3";
     CInvoke INFERENCE_PROFILE_ARN (AnalysisPrompt (JStr "I want a Python course"));
     CPutObject (JStr "b") "transcripts/20240101_000000.json"
       (Lite.dumps (Some 2)
          (complete_result "20240101_000000" "call1.mp3" Demo.speech
             (JStr "I want a Python course") Demo.lead_analysis));
     CRemove "/tmp/call1.mp3"].
Proof. vm_compute. reflexivity. Qed.

Example run_fails_on_empty_file :
  process_audio_file Demo.svc (JStr "b") "audio/empty.mp3" "empty.mp3" Demo.world0
  = (Raise (Exn "ValueError" "Downloaded file is empty"),
     World ∅ (s3 Demo.world0)
       [CDownload (JStr "b") "audio/empty.mp3" "/tmp/empty.mp3";
        CRemove "/tmp/empty.mp3"]).
Proof. vm_compute. reflexivity. Qed.

Lemma failure_skips_the_rest_and_stores_nothing_witness :
  (process_audio_file Demo.svc (JStr "b") "audio/none.mp3" "none.mp3" Demo.world0
   = (Raise not_found_404,
      cleaned (temp_path Demo.svc "none.mp3")
        (log (CDownload (JStr "b") "audio/none.mp3" "/tmp/none.mp3") Demo.world0))
   /\ s3 (cleaned (temp_path Demo.svc "none.mp3")
            (log (CDownload (JStr "b") "audio/none.mp3" "/tmp/none.mp3") Demo.world0))
      = s3 Demo.world0
   /\ puts (cleaned (temp_path Demo.svc "none.mp3")
              (log (CDownload (JStr "b") "audio/none.mp3" "/tmp/none.mp3") Demo.world0))
      = puts Demo.world0)
  /\ (exists result text analysis w4,
        reaches_persist Demo.svc (JStr "b") "audio/call1.mp3" "call1.mp3" Demo.world0
          result text analysis w4)
  /\ s3 (snd (process_audio_file Demo.svc (JStr "b") "audio/empty.mp3" "empty.mp3"
                Demo.world0))
     = s3 Demo.world0.
Proof.
  split; [|split].
  - apply (proj1 (failure_skips_the_rest_and_stores_nothing Demo.svc (JStr "b")
                    "audio/none.mp3" "none.mp3" Demo.world0)).
    apply fails_in_fetch. vm_compute. reflexivity.
  - apply (proj1 (proj2 (failure_skips_the_rest_and_stores_nothing Demo.svc (JStr "b")
                           "audio/call1.mp3" "call1.mp3" Demo.world0))
             (fst (process_audio_file Demo.svc (JStr "b") "audio/call1.mp3" "call1.mp3"
                     Demo.world0))
             (snd (process_audio_file Demo.svc (JStr "b") "audio/call1.mp3" "call1.mp3"
                     Demo.world0))).
    + apply surjective_pairing.
    + left. vm_compute. discriminate.
  - apply (proj2 (proj2 (failure_skips_the_rest_and_stores_nothing Demo.svc (JStr "b")
                           "audio/empty.mp3" "empty.mp3" Demo.world0))
             (Exn "ValueError" "Downloaded file is empty")).
    vm_compute. reflexivity.
Defined.

(** C6, as the specification states it, fails: one process that serves two
    runs loads the model twice. *)
Lemma two_runs_load_the_model_twice :
  model_loads
    (snd (serve Demo.svc
            [Demo.transcribe_event "audio/call1.mp3";
             Demo.transcribe_event "audio/call1.mp3"]
            Demo.world0))
  = 2%nat.
Proof. vm_compute. reflexivity. Qed.

Lemma model_is_loaded_on_every_run_witness :
  (loads_of (snd (process_audio_file Demo.svc (JStr "b") "audio/call1.mp3" "call1.mp3"
                    Demo.warm))
   = (loads_of Demo.warm ++ [CLoadModel "medium"])%list
   /\ model_loads (snd (process_audio_file Demo.svc (JStr "b") "audio/call1.mp3"
                          "call1.mp3" Demo.warm))
      = S (model_loads Demo.warm))
  /\ model_loads (snd (process_audio_file Demo.svc (JStr "b") "audio/none.mp3"
                         "none.mp3" Demo.warm))
     = model_loads Demo.warm.
Proof.
  split.
  - apply (proj1 (model_is_loaded_on_every_run Demo.svc (JStr "b") "audio/call1.mp3"
                    "call1.mp3" Demo.warm)
             (snd (fetch Demo.svc (JStr "b") "audio/call1.mp3"
                     (temp_path Demo.svc "call1.mp3") Demo.warm))).
    vm_compute. reflexivity.
  - apply (proj2 (model_is_loaded_on_every_run Demo.svc (JStr "b") "audio/none.mp3"
                    "none.mp3" Demo.warm)
             not_found_404
             (snd (fetch Demo.svc (JStr "b") "audio/none.mp3"
                     (temp_path Demo.svc "none.mp3") Demo.warm))).
    vm_compute. reflexivity.
Defined.

Lemma demo_reaches_persist :
  reaches_persist Demo.svc (JStr "b") "audio/call1.mp3" "call1.mp3" Demo.world0
    Demo.speech (JStr "I want a Python course") Demo.lead_analysis
    (log (CInvoke INFERENCE_PROFILE_ARN (AnalysisPrompt (JStr "I want a Python course")))
       (log (CTranscribe "/tmp/call1.mp3")
          (log (CLoadModel "medium")
             (snd (fetch Demo.svc (JStr "b") "audio/call1.mp3" "/tmp/call1.mp3"
                     Demo.world0))))).
Proof.
  exists (snd (fetch Demo.svc (JStr "b") "audio/call1.mp3" "/tmp/call1.mp3" Demo.world0)),
    (log (CLoadModel "medium")
       (snd (fetch Demo.svc (JStr "b") "audio/call1.mp3" "/tmp/call1.mp3" Demo.world0))),
    (log (CTranscribe "/tmp/call1.mp3")
       (log (CLoadModel "medium")
          (snd (fetch Demo.svc (JStr "b") "audio/call1.mp3" "/tmp/call1.mp3"
                  Demo.world0)))).
  repeat split; vm_compute; reflexivity.
Defined.

Lemma missing_duration_defaults_to_zero_witness :
  audio_duration
    (complete_result "20240101_000000" "call1.mp3" Demo.speech
       (JStr "I want a Python course") Demo.lead_analysis)
  = Ok (JNum 0).
Proof.
  apply (missing_duration_defaults_to_zero Demo.svc (JStr "b") "audio/call1.mp3"
           "call1.mp3" Demo.world0 Demo.speech (JStr "I want a Python course")
           Demo.lead_analysis _ _
           (snd (process_audio_file Demo.svc (JStr "b") "audio/call1.mp3" "call1.mp3"
                   Demo.world0))
           demo_reaches_persist).
  - reflexivity.
  - vm_compute. reflexivity.
Defined.

(** ** The request router *)

Section Router.

Variable svc : services.





Lemma dict_get_default_some name event default v :
  Dict.get name event = Some v -> Dict.get_default name event default = v.
Proof. unfold Dict.get_default. now intros ->. Qed.

Lemma operation_of_transcribe event :
  is_transcribe event ->
  Dict.get_default "operation" event (JStr "transcribe") = JStr "transcribe".
Proof. unfold Dict.get_default. now intros [-> | ->]. Qed.

(** The [transcribe] branch reads nothing of the event but [Records]. *)
Lemma lambda_handler_transcribe event w :
  is_transcribe event ->
  lambda_handler svc event w =
  try_except (transcribe_operation svc event)
    (fun e =>
       ret (Response 500 (json_dumps svc None (JObj [("error", JStr (exn_msg e))]))
              [("Content-Type", "application/json");
               ("Access-Control-Allow-Origin", "*")])) w.
Proof.
  intros H. unfold lambda_handler. cbv zeta.
  now rewrite (operation_of_transcribe _ H).
Qed.




(** C9: two [transcribe] events whose first records name the same bucket
    and the same key get the same answer and leave the same world, whatever
    their other records are. *)
Theorem only_the_first_record_counts event1 event2 record1 rest1 record2 rest2 w :
  is_transcribe event1 -> is_transcribe event2 ->
  Dict.get "Records" event1 = Some (JArr (record1 :: rest1)) ->
  Dict.get "Records" event2 = Some (JArr (record2 :: rest2)) ->
  bucket_name record1 = bucket_name record2 ->
  object_key record1 = object_key record2 ->
  lambda_handler svc event1 w = lambda_handler svc event2 w.
Proof.
  intros Ht1 Ht2 Hr1 Hr2 Hbucket Hkey.
  rewrite !lambda_handler_transcribe by assumption.
  unfold try_except, transcribe_operation, Dict.get_default.
  rewrite Hr1, Hr2. cbn [truthy negb index0].
  unfold mbind, M_bind, bind, lift. now rewrite Hbucket, Hkey.
Qed.

(** *** The question operation *)

Lemma transcript_field_first_present d :
  transcript_field d =
  match first_present transcript_names d with
  | Some v => v
  | None => JStr ""
  end.
Proof.
  unfold transcript_field, transcript_names, Dict.get_default. cbn [first_present].
  destruct (Dict.get "original_transcript" d); [reflexivity|].
  destruct (Dict.get "transcript" d); [reflexivity|].
  now destruct (Dict.get "text" d).
Qed.

Lemma lambda_handler_q_n_a event transcript_file transcript_bucket question w :
  q_n_a_request event transcript_file transcript_bucket question ->
  lambda_handler svc event w =
  match get_transcript_from_s3 svc transcript_bucket transcript_file w with
  | (Raise e, w1) =>
      (Ok (error_response svc 500 ("Error processing Q&A: " +:+ exn_msg e)), w1)
  | (Ok transcript, w1) =>
      if truthy transcript then
        match qa_with_claude svc transcript question w1 with
        | (Ok answer, w2) =>
            (Ok (Response 200
                   (json_dumps svc None
                      (JObj [("question", question);
                             ("answer", answer);
                             ("transcript_file", transcript_file)]))
                   []), w2)
        | (Raise e, w2) =>
            (Ok (error_response svc 500 ("Error processing Q&A: " +:+ exn_msg e)), w2)
        end
      else (Ok (error_response svc 404 "Transcript not found or empty"), w1)
  end.
Proof.
  intros (Hop & Hf & Hb & Hq & Tf & Tb & Tq).
  unfold lambda_handler. rewrite (dict_get_default_some _ _ _ _ Hop). cbv zeta.
  change (eq_str (JStr "q_n_a") "transcribe") with false.
  change (eq_str (JStr "q_n_a") "q_n_a") with true. cbv iota.
  unfold q_n_a_operation, Dict.get_default. rewrite Hf, Hb, Hq. cbv zeta.
  cbn [forallb]. rewrite Tf, Tb, Tq. cbn [andb negb].
  unfold try_except at 1 2. unfold mbind, M_bind, bind, ret.
  destruct (get_transcript_from_s3 svc transcript_bucket transcript_file w)
    as [[transcript|e] w1]; [|reflexivity].
  destruct (truthy transcript); cbn [negb]; [|reflexivity].
  now destruct (qa_with_claude svc transcript question w1) as [[answer|e] w2].
Qed.

Lemma get_transcript_from_s3_unfold bucket key w :
  get_transcript_from_s3 svc bucket key w =
  match get_object svc bucket key w with
  | (Raise e, w1) => (Raise e, w1)
  | (Ok content, w1) =>
      match json_loads svc content with
      | Raise e => (Raise e, w1)
      | Ok (JObj d) =>
          (Ok (if truthy (transcript_field d) then transcript_field d else JNull), w1)
      | Ok v => (Raise (no_attribute v "get"), w1)
      end
  end.
Proof.
  unfold get_transcript_from_s3. rewrite try_except_reraise.
  unfold mbind, M_bind, bind, loads, lift, ret, raise.
  destruct (get_object svc bucket key w) as [[content|e] w1]; [|reflexivity].
  destruct (json_loads svc content) as [[| | | | |d]|e]; try reflexivity.
  now destruct (truthy (transcript_field d)).
Qed.

(** A transcript object that is not in the store: the fetch raises and the
    router answers 500. *)
Lemma missing_transcript_object event b k question w :
  q_n_a_request event (JStr k) (JStr b) question ->
  get_may_fail svc b k w = None ->
  s3 w !! (b, k) = None ->
  lambda_handler svc event w
  = (Ok (error_response svc 500 ("Error processing Q&A: " +:+ exn_msg no_such_key)),
     log (CGetObject (JStr b) (JStr k)) w).
Proof.
  intros Hreq Hfault Hmissing.
  rewrite (lambda_handler_q_n_a _ _ _ _ _ Hreq), get_transcript_from_s3_unfold.
  unfold get_object. now rewrite Hfault, Hmissing.
Qed.

(** C8, amended: for a [q_n_a] request with its three parameters whose
    transcript object is fetched and parses to an object, the transcript is
    the value of the first of [original_transcript], [transcript] and
    [text] that is present; the router answers 404 when none of them is
    present or that value is empty, and hands the value to the question
    adapter otherwise. *)
Theorem q_n_a_reads_the_first_present_field
    event transcript_file transcript_bucket question content w w1 d :
  q_n_a_request event transcript_file transcript_bucket question ->
  get_object svc transcript_bucket transcript_file w = (Ok content, w1) ->
  json_loads svc content = Ok (JObj d) ->
  (first_present transcript_names d = None ->
   lambda_handler svc event w
   = (Ok (error_response svc 404 "Transcript not found or empty"), w1))
  /\ (forall v,
        first_present transcript_names d = Some v -> truthy v = false ->
        lambda_handler svc event w
        = (Ok (error_response svc 404 "Transcript not found or empty"), w1))
  /\ (forall v,
        first_present transcript_names d = Some v -> truthy v = true ->
        lambda_handler svc event w =
        match qa_with_claude svc v question w1 with
        | (Ok answer, w2) =>
            (Ok (Response 200
                   (json_dumps svc None
                      (JObj [("question", question);
                             ("answer", answer);
                             ("transcript_file", transcript_file)]))
                   []), w2)
        | (Raise e, w2) =>
            (Ok (error_response svc 500 ("Error processing Q&A: " +:+ exn_msg e)), w2)
        end).
Proof.
  intros Hreq Hget Hloads.
  rewrite (lambda_handler_q_n_a _ _ _ _ _ Hreq), get_transcript_from_s3_unfold.
  rewrite Hget, Hloads, transcript_field_first_present.
  repeat split.
  - now intros ->.
  - intros v -> Hv. now rewrite Hv.
  - intros v -> Hv. now rewrite Hv, Hv.
Qed.

(** A failure of the orchestrator reaches the router, which answers 500
    with the message of the exception. *)
Lemma transcribe_failure_is_500 event record rest bucket k e w w' :
  is_transcribe event ->
  Dict.get "Records" event = Some (JArr (record :: rest)) ->
  bucket_name record = Ok bucket ->
  object_key record = Ok (JStr k) ->
  validate_audio_file k = true ->
  process_audio_file svc bucket k (Py.last_item (Py.split "/" k)) w = (Raise e, w') ->
  lambda_handler svc event w
  = (Ok (Response 500 (json_dumps svc None (JObj [("error", JStr (exn_msg e))]))
           [("Content-Type", "application/json");
            ("Access-Control-Allow-Origin", "*")]), w').
Proof.
  intros Ht Hr Hb Hk Hvalid Hrun.
  rewrite (lambda_handler_transcribe _ _ Ht).
  unfold try_except, transcribe_operation, Dict.get_default.
  rewrite Hr. cbn [truthy negb index0].
  unfold mbind, M_bind, bind, lift. rewrite Hb, Hk, Hvalid. cbn [negb].
  now rewrite Hrun.
Qed.

End Router.

Example scenario_1 :
  status Demo.svc (Demo.transcribe_event "audio/call1.mp3") Demo.world0 = Some 200.
Proof. vm_compute. reflexivity. Qed.

Example scenario_2 :
  fst (lambda_handler Demo.svc
         (Demo.q_n_a_event "transcripts/20240101_000000.json" "What did the client want?")
         Demo.world0)
  = Ok (Response 200
          (Lite.dumps None
             (JObj [("question", JStr "What did the client want?");
                    ("answer", JStr "The client wants a Python course.");
                    ("transcript_file", JStr "transcripts/20240101_000000.json")]))
          []).
Proof. vm_compute. reflexivity. Qed.

Example scenario_3 :
  fst (lambda_handler Demo.svc (Demo.transcribe_event "audio/call.xyz") Demo.world0)
  = Ok (error_response Demo.svc 400
          "Invalid file type or location. Please upload audio files to the audio/ folder.").
Proof. vm_compute. reflexivity. Qed.

Example text_field_only :
  transcript_field [("text", JStr "I want a Python course")]
  = JStr "I want a Python course".
Proof. reflexivity. Qed.


Lemma only_the_first_record_counts_witness :
  lambda_handler Demo.svc (Demo.transcribe_event "audio/call1.mp3") Demo.world0
  = lambda_handler Demo.svc (Demo.two_records "audio/call1.mp3" "audio/other.wav")
      Demo.world0.
Proof.
  apply (only_the_first_record_counts Demo.svc
           (Demo.transcribe_event "audio/call1.mp3")
           (Demo.two_records "audio/call1.mp3" "audio/other.wav")
           (Demo.record_of "b" "audio/call1.mp3") []
           (Demo.record_of "b" "audio/call1.mp3")
           [Demo.record_of "elsewhere" "audio/other.wav"] Demo.world0);
    try reflexivity; left; reflexivity.
Defined.

(** C8, as the specification states it, fails: for a transcript object
    that is not in the store the router answers 500, not 404. *)
Lemma missing_transcript_object_is_500 :
  s3 Demo.world0 !! ("b", "transcripts/missing.json") = None
  /\ status Demo.svc
       (Demo.q_n_a_event "transcripts/missing.json" "What did the client want?")
       Demo.world0
     = Some 500.
Proof. split; vm_compute; reflexivity. Qed.

Lemma q_n_a_reads_the_first_present_field_witness :
  lambda_handler Demo.svc
    (Demo.q_n_a_event "transcripts/other.json" "What did the client want?") Demo.world1
  = (Ok (error_response Demo.svc 404 "Transcript not found or empty"),
     log (CGetObject (JStr "b") (JStr "transcripts/other.json")) Demo.world1)
  /\ lambda_handler Demo.svc
       (Demo.q_n_a_event "transcripts/empty.json" "What did the client want?") Demo.world1
     = (Ok (error_response Demo.svc 404 "Transcript not found or empty"),
        log (CGetObject (JStr "b") (JStr "transcripts/empty.json")) Demo.world1)
  /\ lambda_handler Demo.svc
       (Demo.q_n_a_event "transcripts/text.json" "What did the client want?") Demo.world1
     = match qa_with_claude Demo.svc (JStr "I want a Python course")
               (JStr "What did the client want?")
               (log (CGetObject (JStr "b") (JStr "transcripts/text.json")) Demo.world1)
       with
       | (Ok answer, w2) =>
           (Ok (Response 200
                  (json_dumps Demo.svc None
                     (JObj [("question", JStr "What did the client want?");
                            ("answer", answer);
                            ("transcript_file", JStr "transcripts/text.json")]))
                  []), w2)
       | (Raise e, w2) =>
           (Ok (error_response Demo.svc 500 ("Error processing Q&A: " +:+ exn_msg e)), w2)
       end.
Proof.
  split; [|split].
  - apply (proj1 (q_n_a_reads_the_first_present_field Demo.svc
                    (Demo.q_n_a_event "transcripts/other.json" "What did the client want?")
                    (JStr "transcripts/other.json") (JStr "b")
                    (JStr "What did the client want?") Demo.no_transcript Demo.world1
                    (log (CGetObject (JStr "b") (JStr "transcripts/other.json")) Demo.world1)
                    [("id", JStr "20240101_000000")]
                    ltac:(repeat split; reflexivity)
                    ltac:(vm_compute; reflexivity)
                    ltac:(vm_compute; reflexivity))).
    reflexivity.
  - apply (proj1 (proj2 (q_n_a_reads_the_first_present_field Demo.svc
                    (Demo.q_n_a_event "transcripts/empty.json" "What did the client want?")
                    (JStr "transcripts/empty.json") (JStr "b")
                    (JStr "What did the client want?") Demo.empty_transcript Demo.world1
                    (log (CGetObject (JStr "b") (JStr "transcripts/empty.json")) Demo.world1)
                    [("original_transcript", JStr "");
                     ("text", JStr "I want a Python course")]
                    ltac:(repeat split; reflexivity)
                    ltac:(vm_compute; reflexivity)
                    ltac:(vm_compute; reflexivity)))
             (JStr "")); reflexivity.
  - apply (proj2 (proj2 (q_n_a_reads_the_first_present_field Demo.svc
                    (Demo.q_n_a_event "transcripts/text.json" "What did the client want?")
                    (JStr "transcripts/text.json") (JStr "b")
                    (JStr "What did the client want?") Demo.text_only Demo.world1
                    (log (CGetObject (JStr "b") (JStr "transcripts/text.json")) Demo.world1)
                    [("text", JStr "I want a Python course")]
                    ltac:(repeat split; reflexivity)
                    ltac:(vm_compute; reflexivity)
                    ltac:(vm_compute; reflexivity)))
             (JStr "I want a Python course")); reflexivity.
Defined.

(** * Further properties *)

(** ** The router and the question operation *)

Section RouterMore.

Variable svc : services.

Ltac run := unfold when_, mbind, M_bind, bind, mret, M_ret, ret, raise, lift.

Lemma get_object_log bucket key w r w1 :
  get_object svc bucket key w = (r, w1) -> w1 = log (CGetObject bucket key) w.
Proof.
  unfold get_object. intros H.
  destruct bucket as [| | |b| |]; try (now injection H as _ <-).
  destruct key as [| | |k| |]; try (now injection H as _ <-).
  destruct (get_may_fail svc b k w); [now injection H as _ <-|].
  destruct (s3 w !! (b, k)); now injection H as _ <-.
Qed.

Lemma qa_with_claude_unfold transcript_text question w :
  qa_with_claude svc transcript_text question w =
  (match invoke_model svc INFERENCE_PROFILE_ARN (QAPrompt transcript_text question) w with
   | Ok response => reply_text svc response
   | Raise e => Raise e
   end,
   log (CInvoke INFERENCE_PROFILE_ARN (QAPrompt transcript_text question)) w).
Proof.
  unfold qa_with_claude.
  change (negb (truthy (JStr INFERENCE_PROFILE_ARN))) with false.
  rewrite try_except_reraise. unfold bedrock_invoke. run.
  now destruct (invoke_model svc _ _ w) as [response|e].
Qed.

Lemma get_transcript_from_s3_log bucket key w r w1 :
  get_transcript_from_s3 svc bucket key w = (r, w1) ->
  w1 = log (CGetObject bucket key) w.
Proof.
  rewrite get_transcript_from_s3_unfold.
  destruct (get_object svc bucket key w) as [[content|e] w0] eqn:Hget;
    apply get_object_log in Hget as ->; [|now intros [= _ <-]].
  destruct (json_loads svc content) as [[| | | | |d]|e]; now intros [= _ <-].
Qed.

(** The answers of the [transcribe] branch, when it returns. *)
Lemma transcribe_operation_status event w r w' :
  transcribe_operation svc event w = (Ok r, w') ->
  statusCode r = 200 \/ statusCode r = 400.
Proof.
  unfold transcribe_operation.
  destruct (negb (truthy (Dict.get_default "Records" event (JArr [])))).
  { intros [= <- _]. now right. }
  run.
  destruct (index0 _) as [record|e]; [|discriminate].
  destruct (bucket_name record) as [bucket|e]; [|discriminate].
  destruct (object_key record) as [[| | |k| |]|e]; try discriminate.
  destruct (negb (validate_audio_file k)).
  { intros [= <- _]. now right. }
  destruct (process_audio_file svc bucket k _ w) as [[document|e] w0]; [|discriminate].
  intros [= <- _]. now left.
Qed.

Lemma q_n_a_operation_status event w :
  exists r w', q_n_a_operation svc event w = (Ok r, w')
               /\ In (statusCode r) [200; 400; 404; 500].
Proof.
  unfold q_n_a_operation. cbv zeta.
  destruct (negb (forallb truthy _)).
  { eexists _, _. split; [reflexivity|]. cbn. tauto. }
  unfold try_except. run.
  destruct (get_transcript_from_s3 svc _ _ w) as [[transcript|e] w0].
  2:{ eexists _, _. split; [reflexivity|]. cbn. tauto. }
  destruct (negb (truthy transcript)).
  { eexists _, _. split; [reflexivity|]. cbn. tauto. }
  destruct (qa_with_claude svc transcript _ w0) as [[answer|e] w1];
    eexists _, _; (split; [reflexivity|]); cbn; tauto.
Qed.

(** X1: the router never raises: whatever the event and the world, it
    returns a response, and the status of the response is 200, 400, 404 or
    500. *)
Theorem router_always_answers event w :
  exists r, fst (lambda_handler svc event w) = Ok r
            /\ In (statusCode r) [200; 400; 404; 500].
Proof.
  unfold lambda_handler, try_except. cbv zeta.
  destruct (eq_str _ "transcribe").
  - destruct (transcribe_operation svc event w) as [[r|e] w0] eqn:H.
    + exists r. split; [reflexivity|].
      apply transcribe_operation_status in H as [-> | ->]; cbn; tauto.
    + eexists. split; [reflexivity|]. cbn. tauto.
  - destruct (eq_str _ "q_n_a").
    + destruct (q_n_a_operation_status event w) as (r & w' & -> & H). now exists r.
    + eexists. split; [reflexivity|]. cbn. tauto.
Qed.

(** X2: a [transcribe] event whose first record names a key that the
    validator refuses is answered 400, and the router makes no external call
    for it: the world is as before. *)
Theorem refused_key_is_answered_400 event record rest bucket k w :
  is_transcribe event ->
  Dict.get "Records" event = Some (JArr (record :: rest)) ->
  bucket_name record = Ok bucket ->
  object_key record = Ok (JStr k) ->
  validate_audio_file k = false ->
  lambda_handler svc event w
  = (Ok (error_response svc 400
           "Invalid file type or location. Please upload audio files to the audio/ folder."),
     w).
Proof.
  intros Ht Hr Hb Hk Hvalid.
  rewrite (lambda_handler_transcribe _ _ _ Ht).
  unfold try_except, transcribe_operation, Dict.get_default.
  rewrite Hr. cbn [truthy negb index0]. run. now rewrite Hb, Hk, Hvalid.
Qed.

(** X3: a [q_n_a] event never writes: whatever its parameters and the
    answers of the services, the local files and the object store are as
    before, no put is made and the speech model is not loaded. *)
Theorem q_n_a_never_writes event w :
  Dict.get "operation" event = Some (JStr "q_n_a") ->
  fs (snd (lambda_handler svc event w)) = fs w
  /\ s3 (snd (lambda_handler svc event w)) = s3 w
  /\ puts (snd (lambda_handler svc event w)) = puts w
  /\ loads_of (snd (lambda_handler svc event w)) = loads_of w.
Proof.
  intros Hop. unfold lambda_handler.
  rewrite (dict_get_default_some _ _ _ _ Hop). cbv zeta.
  change (eq_str (JStr "q_n_a") "transcribe") with false.
  change (eq_str (JStr "q_n_a") "q_n_a") with true. cbv iota.
  unfold try_except at 1, q_n_a_operation. cbv zeta.
  destruct (negb (forallb truthy _)); [now cbn|].
  unfold try_except. run.
  destruct (get_transcript_from_s3 svc _ _ w) as [[transcript|e] w0] eqn:Hget;
    apply get_transcript_from_s3_log in Hget as ->.
  2:{ cbn [snd fs s3 log]. rewrite puts_log, loads_of_log by reflexivity.
      cbn [is_load]. now rewrite List.app_nil_r. }
  assert (Hlog : forall c, is_put c = false -> is_load c = false ->
            forall w1, fs (log c w1) = fs w1 /\ s3 (log c w1) = s3 w1
                       /\ puts (log c w1) = puts w1 /\ loads_of (log c w1) = loads_of w1).
  { intros c Hp Hl w1. rewrite puts_log, loads_of_log by assumption.
    rewrite Hl, List.app_nil_r. now cbn. }
  destruct (negb (truthy transcript)); [cbn [snd]; now apply Hlog|].
  rewrite qa_with_claude_unfold.
  destruct (match invoke_model svc _ _ _ with Ok _ => _ | Raise _ => _ end) as [answer|e];
    cbn [snd];
    destruct (Hlog (CGetObject (Dict.get_default "transcript_bucket" event JNull)
                      (Dict.get_default "transcript_file" event JNull)) eq_refl eq_refl w)
      as (F & S & P & L);
    destruct (Hlog (CInvoke INFERENCE_PROFILE_ARN
                      (QAPrompt transcript (Dict.get_default "question" event JNull)))
                eq_refl eq_refl
                (log (CGetObject (Dict.get_default "transcript_bucket" event JNull)
                        (Dict.get_default "transcript_file" event JNull)) w))
      as (F' & S' & P' & L');
    repeat split; congruence.
Qed.

(** X4: a transcript object that cannot be used is answered 500 by the
    question operation, and the hosted model is not called: when the object
    is not in the store, when its content does not parse, and when it
    parses to something that is no object. *)
Theorem unusable_transcript_is_answered_500 event b k question w :
  q_n_a_request event (JStr k) (JStr b) question ->
  get_may_fail svc b k w = None ->
  (s3 w !! (b, k) = None ->
   lambda_handler svc event w
   = (Ok (error_response svc 500 ("Error processing Q&A: " +:+ exn_msg no_such_key)),
      log (CGetObject (JStr b) (JStr k)) w))
  /\ (forall content e,
        s3 w !! (b, k) = Some content -> json_loads svc content = Raise e ->
        lambda_handler svc event w
        = (Ok (error_response svc 500 ("Error processing Q&A: " +:+ exn_msg e)),
           log (CGetObject (JStr b) (JStr k)) w))
  /\ (forall content v,
        s3 w !! (b, k) = Some content -> json_loads svc content = Ok v ->
        (forall d, v <> JObj d) ->
        lambda_handler svc event w
        = (Ok (error_response svc 500
                 ("Error processing Q&A: " +:+ exn_msg (no_attribute v "get"))),
           log (CGetObject (JStr b) (JStr k)) w)).
Proof.
  intros Hreq Hfault.
  rewrite (lambda_handler_q_n_a _ _ _ _ _ _ Hreq), get_transcript_from_s3_unfold.
  unfold get_object. rewrite Hfault. repeat split.
  - now intros ->.
  - intros content e -> Hloads. now rewrite Hloads.
  - intros content v -> Hloads Hv. rewrite Hloads.
    destruct v as [| | | | |d]; try reflexivity. now elim (Hv d).
Qed.


(** X6: when the call of the hosted model fails in the question operation,
    or its reply has no text where it is expected, the router answers 500
    with the message of the exception after the words "Error processing
    Q&A: ", and without headers. *)
Theorem q_n_a_model_failure_is_answered_500
    event transcript_file transcript_bucket question content d v e w w1 :
  q_n_a_request event transcript_file transcript_bucket question ->
  get_object svc transcript_bucket transcript_file w = (Ok content, w1) ->
  json_loads svc content = Ok (JObj d) ->
  first_present transcript_names d = Some v ->
  truthy v = true ->
  (invoke_model svc INFERENCE_PROFILE_ARN (QAPrompt v question) w1 = Raise e
   \/ exists response,
        invoke_model svc INFERENCE_PROFILE_ARN (QAPrompt v question) w1 = Ok response
        /\ reply_text svc response = Raise e) ->
  lambda_handler svc event w
  = (Ok (Response 500
           (json_dumps svc None
              (JObj [("error", JStr ("Error processing Q&A: " +:+ exn_msg e))]))
           []),
     log (CInvoke INFERENCE_PROFILE_ARN (QAPrompt v question)) w1).
Proof.
  intros Hreq Hget Hloads Hfirst Hv Hfail.
  rewrite (lambda_handler_q_n_a _ _ _ _ _ _ Hreq), get_transcript_from_s3_unfold.
  rewrite Hget, Hloads, transcript_field_first_present, Hfirst, Hv, Hv.
  rewrite qa_with_claude_unfold.
  destruct Hfail as [-> | (response & -> & ->)]; reflexivity.
Qed.

(** X7: a run of the orchestrator that fails in a step is answered 500 by
    the router, with the message of the exception as it is and with the two
    headers of the top-level handler; the world is the one the failing step
    left, without the scratch file. *)
Theorem pipeline_failure_is_answered_500 event record rest bucket k e wf w :
  is_transcribe event ->
  Dict.get "Records" event = Some (JArr (record :: rest)) ->
  bucket_name record = Ok bucket ->
  object_key record = Ok (JStr k) ->
  validate_audio_file k = true ->
  fails_in svc bucket k (Py.last_item (Py.split "/" k)) w e wf ->
  lambda_handler svc event w
  = (Ok (Response 500 (json_dumps svc None (JObj [("error", JStr (exn_msg e))]))
           [("Content-Type", "application/json");
            ("Access-Control-Allow-Origin", "*")]),
     cleaned (temp_path svc (Py.last_item (Py.split "/" k))) wf).
Proof.
  intros Ht Hr Hb Hk Hvalid Hfail.
  apply (transcribe_failure_is_500 svc event record rest bucket k e w); try assumption.
  now rewrite process_audio_file_unfold, (pipeline_fails _ _ _ _ _ _ _ Hfail).
Qed.

(** X8: when every step of a run succeeds, the router answers 200 with the
    dump of the document as its body: the file name of the document is the
    last segment of the key, and the same document, dumped with an indent
    of 2, is in the bucket of the event under [transcripts/], the time
    stamp and [.json]. *)
Theorem successful_transcribe_is_answered_200
    event record rest b k result text analysis w4 w :
  let filename := Py.last_item (Py.split "/" k) in
  let document := complete_result (now svc w4) filename result text analysis in
  let result_key := "transcripts/" +:+ now svc w4 +:+ ".json" in
  let stored := json_dumps svc (Some 2) document in
  is_transcribe event ->
  Dict.get "Records" event = Some (JArr (record :: rest)) ->
  bucket_name record = Ok (JStr b) ->
  object_key record = Ok (JStr k) ->
  validate_audio_file k = true ->
  reaches_persist svc (JStr b) k filename w result text analysis w4 ->
  put_may_fail svc b result_key stored w4 = None ->
  lambda_handler svc event w
  = (Ok (Response 200 (json_dumps svc None document) []),
     cleaned (temp_path svc filename)
       (store_object b result_key stored
          (log (CPutObject (JStr b) result_key stored) w4))).
Proof.
  intros filename document result_key stored Ht Hr Hb Hk Hvalid Hreach Hput.
  rewrite (lambda_handler_transcribe _ _ _ Ht).
  unfold try_except, transcribe_operation, Dict.get_default.
  rewrite Hr. cbn [truthy negb index0]. run. rewrite Hb, Hk, Hvalid. cbn [negb].
  fold filename.
  rewrite process_audio_file_unfold, (pipeline_persists _ _ _ _ _ _ _ _ _ Hreach).
  unfold persist, datetime_now, put_object. run. cbv zeta.
  fold document. fold result_key. fold stored. now rewrite Hput.
Qed.

End RouterMore.

(** ** The file name of a key and the scratch path *)

Section FileNames.

Implicit Types (s t d f : string) (c : ascii).

Lemma split_cons c s : exists w ws, Py.split c s = w :: ws.
Proof.
  destruct s as [|a s]; cbn [Py.split]; [eauto|].
  destruct (Ascii.eqb a c); [eauto|]. destruct (Py.split c s); eauto.
Qed.

Lemma split_whole c f : Py.contains c f = false -> Py.split c f = [f].
Proof.
  induction f as [|a f IH]; [reflexivity|].
  cbn [Py.contains Py.split]. intros H. apply orb_false_elim in H as [-> Hf].
  now rewrite (IH Hf).
Qed.

Lemma split_app c d t :
  Py.split c (d +:+ String c t) = (Py.split c d ++ Py.split c t)%list.
Proof.
  induction d as [|a d IH].
  - rewrite append_nil_l. cbn [Py.split]. now rewrite Ascii.eqb_refl.
  - rewrite append_cons. cbn [Py.split]. rewrite IH.
    destruct (Ascii.eqb a c); [reflexivity|].
    now destruct (split_cons c d) as (w & ws & ->).
Qed.

Lemma last_item_segment c d f :
  Py.contains c f = false ->
  Py.last_item (Py.split c f) = f
  /\ Py.last_item (Py.split c (d +:+ String c f)) = f.
Proof.
  intros Hf. rewrite split_app, (split_whole _ _ Hf). unfold Py.last_item.
  split; [reflexivity | apply List.last_last].
Qed.

Lemma no_slash_no_prefix f : Py.contains "/" f = false -> Py.startswith f "/" = false.
Proof.
  destruct f as [|a f]; [reflexivity|]. cbn [Py.contains]. intros H.
  apply orb_false_elim in H as [Ha _]. unfold Py.startswith. cbn [String.prefix].
  destruct (ascii_dec "/" a) as [<-|]; [discriminate Ha | reflexivity].
Qed.

(** X9: the file name the router takes from a key is what follows the
    last slash of the key, the whole key when it has none: it has no slash,
    so the scratch file lies in the temporary directory itself, and two
    keys with the same last segment share one scratch path. *)
Theorem filename_is_the_last_segment svc key :
  Py.contains "/" (Py.last_item (Py.split "/" key)) = false
  /\ (exists before,
        key = before +:+ Py.last_item (Py.split "/" key)
        /\ (before = "" \/ exists d, before = d +:+ "/"))
  /\ temp_path svc (Py.last_item (Py.split "/" key))
     = (if lambda_function_name svc then "/tmp/" else "./")
       +:+ Py.last_item (Py.split "/" key).
Proof.
  assert (H : Py.contains "/" (Py.last_item (Py.split "/" key)) = false
              /\ exists before,
                   key = before +:+ Py.last_item (Py.split "/" key)
                   /\ (before = "" \/ exists d, before = d +:+ "/")).
  { destruct (Py.contains "/" key) eqn:Hkey.
    - destruct (rfind_split _ _ Hkey) as (d & f & -> & Hf & _).
      rewrite (proj2 (last_item_segment "/" d f Hf)). split; [exact Hf|].
      exists (d +:+ "/"). rewrite append_assoc, append_cons, append_nil_l. eauto.
    - rewrite (proj1 (last_item_segment "/" "" key Hkey)). split; [exact Hkey|].
      exists "". eauto. }
  destruct H as (Hslash & Hbefore). repeat split; try assumption.
  unfold temp_path, Py.path_join. rewrite (no_slash_no_prefix _ Hslash).
  now destruct (lambda_function_name svc).
Qed.

(** X10: the file name of a key that the validator accepts is a name and
    an allowed extension around a dot, and the name is not made of dots
    alone: the scratch file of an accepted key always has a name of its
    own. *)
Theorem accepted_key_has_a_file_name key :
  validate_audio_file key = true ->
  exists name ext,
    Py.last_item (Py.split "/" key) = name +:+ "." +:+ ext
    /\ In (Py.lower ext) allowed_names
    /\ Py.only "." name = false
    /\ Py.contains "/" name = false.
Proof.
  intros H. apply validate_audio_file_true in H as [_ (ext & Hext & Hin)].
  destruct Hext as (dir & name & -> & Hdir & Hn & Hdots & He & Hd).
  exists name, ext. repeat split; try assumption.
  assert (Hrest : Py.contains "/" (name +:+ "." +:+ ext) = false).
  { rewrite contains_app, Hn. change ("." +:+ ext) with (String "." ext).
    cbn [Py.contains]. now rewrite He. }
  destruct Hdir as [-> | [d ->]].
  - rewrite append_nil_l. apply (proj1 (last_item_segment "/" "" _ Hrest)).
  - rewrite append_assoc, append_cons, append_nil_l.
    apply (proj2 (last_item_segment "/" d _ Hrest)).
Qed.

Lemma rfind_lt c s : Py.rfind c s < Py.len s.
Proof.
  induction s as [|a s IH]; [reflexivity|].
  cbn [Py.rfind]. rewrite len_cons. pose proof (len_nonneg s).
  destruct (0 <=? Py.rfind c s); [lia|]. destruct (Ascii.eqb a c); lia.
Qed.

Lemma only_no_other c x s : x <> c -> Py.only c s = true -> Py.contains x s = false.
Proof.
  intros Hx. induction s as [|a s IH]; [reflexivity|].
  cbn [Py.only Py.contains]. intros H. apply andb_prop in H as [Ha Hs].
  apply Ascii.eqb_eq in Ha as ->. rewrite (IH Hs), orb_false_r.
  apply Ascii.eqb_neq. congruence.
Qed.

Lemma splitext_folder s : Py.splitext (s +:+ "/") = (s +:+ "/", "").
Proof.
  unfold Py.splitext. rewrite (rfind_last "/" s "") by reflexivity.
  rewrite (rfind_app "." s "/").
  change (Py.contains "." "/") with false. cbv iota.
  pose proof (rfind_lt "." s).
  destruct (Py.len s <? Py.rfind "." s) eqn:E; [apply Z.ltb_lt in E; lia|].
  reflexivity.
Qed.

Lemma splitext_dots d dots rest :
  Py.only "." dots = true -> Py.contains "." rest = false ->
  Py.contains "/" rest = false ->
  Py.splitext (d +:+ "/" +:+ dots +:+ "." +:+ rest)
  = (d +:+ "/" +:+ dots +:+ "." +:+ rest, "").
Proof.
  intros Hdots Hrest Hslash.
  assert (Hds : Py.contains "/" dots = false) by (apply (only_no_other "."); [discriminate | assumption]).
  set (p := d +:+ "/" +:+ dots +:+ "." +:+ rest).
  assert (Hsep : Py.rfind "/" p = Py.len d).
  { unfold p. change ("/" +:+ dots +:+ "." +:+ rest) with (String "/" (dots +:+ "." +:+ rest)).
    apply rfind_last. rewrite contains_app, Hds.
    change ("." +:+ rest) with (String "." rest). cbn [Py.contains]. now rewrite Hslash. }
  assert (Hdot : Py.rfind "." p = Py.len (d +:+ "/") + Py.len dots).
  { unfold p. rewrite <- (append_assoc d "/"), <- (append_assoc (d +:+ "/") dots).
    change ("." +:+ rest) with (String "." rest).
    rewrite (rfind_last _ _ _ Hrest). apply len_app. }
  unfold Py.splitext. fold p. rewrite Hsep, Hdot, len_app.
  change (Py.len "/") with 1.
  replace (Z.to_nat (Py.len d + 1 + Py.len dots - (Py.len d + 1))) with (String.length dots)
    by (unfold Py.len; lia).
  replace (Py.len d + 1) with (Py.len (d +:+ "/")) by (rewrite len_app; reflexivity).
  replace p with ((d +:+ "/") +:+ dots +:+ "." +:+ rest)
    by (unfold p; now rewrite append_assoc).
  rewrite skip_leading_dots_spec, Hdots. now rewrite andb_false_r.
Qed.

(** X11: the validator refuses the keys that stand for a folder, those
    that end with a slash, and the keys whose last component begins with
    its only dots, such as [audio/.mp3]: what follows the dot there is no
    extension. *)
Theorem folders_and_dot_files_are_refused :
  (forall s, validate_audio_file (s +:+ "/") = false)
  /\ (forall d dots rest,
        Py.only "." dots = true -> Py.contains "." rest = false ->
        Py.contains "/" rest = false ->
        validate_audio_file (d +:+ "/" +:+ dots +:+ "." +:+ rest) = false).
Proof.
  split.
  - intros s. unfold validate_audio_file.
    destruct (Py.startswith _ "audio/"); [|reflexivity]. cbn [negb].
    rewrite lower_app. change (Py.lower "/") with "/". now rewrite splitext_folder.
  - intros d dots rest Hdots Hrest Hslash. unfold validate_audio_file.
    destruct (Py.startswith _ "audio/"); [|reflexivity]. cbn [negb].
    rewrite !lower_app. change (Py.lower "/") with "/". change (Py.lower ".") with ".".
    rewrite splitext_dots; [reflexivity | | |].
    + now rewrite only_lower.
    + rewrite contains_lower; auto.
    + rewrite contains_lower; auto.
Qed.

End FileNames.

(** ** The run of the orchestrator, call by call *)

Section OrchestratorMore.

Variable svc : services.

Ltac run := unfold when_, mbind, M_bind, bind, mret, M_ret, ret, raise, lift.

Lemma download_file_effect bucket key path w r w1 :
  download_file svc bucket key path w = (r, w1) ->
  calls w1 = (calls w ++ [CDownload bucket key path])%list
  /\ forall q, q <> path -> fs w1 !! q = fs w !! q.
Proof.
  unfold download_file. intros H.
  assert (Hlog : calls (log (CDownload bucket key path) w)
                 = (calls w ++ [CDownload bucket key path])%list
                 /\ forall q, q <> path ->
                      fs (log (CDownload bucket key path) w) !! q = fs w !! q)
    by now split.
  destruct bucket as [| | |b| |]; try (injection H as _ <-; exact Hlog).
  destruct (download_may_fail svc b key path w) as [[e|]|];
    try (injection H as _ <-; exact Hlog).
  destruct (s3 w !! (b, key)); injection H as _ <-; [|exact Hlog].
  split; [reflexivity|]. intros q Hq. cbn [fs write_file log].
  now rewrite lookup_insert_ne.
Qed.

Lemma fetch_effect bucket key path w r w1 :
  fetch svc bucket key path w = (r, w1) ->
  calls w1 = (calls w ++ [CDownload bucket key path])%list
  /\ (forall q, q <> path -> fs w1 !! q = fs w !! q)
  /\ (r = Ok tt -> exists content, fs w1 !! path = Some content /\ content <> "").
Proof.
  unfold fetch. run. unfold path_exists, path_getsize.
  destruct (download_file svc bucket key path w) as [[[]|e] w0] eqn:Hd;
    apply download_file_effect in Hd as (Hcalls & Hfs).
  2:{ intros [= <- <-]. repeat split; [assumption.. | discriminate]. }
  destruct (fs w0 !! path) as [content|] eqn:Hpath.
  2:{ rewrite bool_decide_eq_false_2 by (intros [x Hx]; discriminate).
      cbn [negb]. intros [= <- <-]. repeat split; [assumption.. | discriminate]. }
  rewrite bool_decide_eq_true_2 by eauto. cbn [negb]. cbv beta iota.
  rewrite Hpath.
  destruct (Py.len content =? 0) eqn:Hlen; cbv beta iota; intros [= <- <-];
    (repeat split; [assumption.. |]); [discriminate|].
  intros _. exists content. split; [assumption|]. intros ->. discriminate Hlen.
Qed.

Lemma cleaned_present path content w :
  fs w !! path = Some content ->
  cleaned path w = World (delete path (fs w)) (s3 w) (calls w ++ [CRemove path]).
Proof. unfold cleaned. now intros ->. Qed.

(** X12: a run that succeeds makes six calls, in this order: the
    download, the load of the model, the transcription, one call of the
    hosted model with the text of the transcription, the put of the dump of
    the returned document under the key made of its [id], and the removal
    of the scratch file. *)
Theorem successful_run_makes_six_calls bucket key filename w document w' :
  process_audio_file svc bucket key filename w = (Ok document, w') ->
  exists text timestamp,
    subscript document "id" = Ok (JStr timestamp)
    /\ subscript document "original_transcript" = Ok text
    /\ calls w'
       = (calls w
          ++ [CDownload bucket key (temp_path svc filename);
              CLoadModel "medium";
              CTranscribe (temp_path svc filename);
              CInvoke INFERENCE_PROFILE_ARN (AnalysisPrompt text);
              CPutObject bucket ("transcripts/" +:+ timestamp +:+ ".json")
                (json_dumps svc (Some 2) document);
              CRemove (temp_path svc filename)])%list.
Proof.
  intros Hrun. rewrite process_audio_file_unfold in Hrun.
  destruct (pipeline_cases svc bucket key filename w)
    as [(e & wf & H) | (result & text & analysis & w4 & H)].
  { rewrite (pipeline_fails _ _ _ _ _ _ _ H) in Hrun. discriminate Hrun. }
  rewrite (pipeline_persists _ _ _ _ _ _ _ _ _ H) in Hrun.
  destruct (persist svc bucket filename result text analysis w4) as [r w5] eqn:Hp.
  cbn [fst snd] in Hrun. injection Hrun as -> <-.
  apply persist_outcome in Hp. cbv zeta in Hp.
  destruct Hp as [(b & -> & [= ->] & ->) | (e & [=] & _)].
  destruct H as (w1 & w2 & w3 & Hf & Hl & Ht & Hx & Ha).
  apply fetch_effect in Hf as (Hcalls & _ & Hfile).
  destruct (Hfile eq_refl) as (content & Hpath & _).
  apply whisper_load_model_log in Hl as ->.
  apply model_transcribe_log in Ht as ->.
  apply analyze_with_claude_log in Ha as ->.
  exists text, (now svc (log (CInvoke INFERENCE_PROFILE_ARN (AnalysisPrompt text))
                          (log (CTranscribe (temp_path svc filename))
                             (log (CLoadModel "medium") w1)))).
  split; [reflexivity|]. split; [reflexivity|].
  rewrite (cleaned_present _ content) by exact Hpath.
  cbn [calls store_object log]. rewrite Hcalls.
  now rewrite <- !List.app_assoc.
Qed.

(** X14: when the object of the key is empty, or is not in the bucket,
    the run ends before the model is loaded: it raises "Downloaded file is
    empty", respectively the 404 of the download, the only call besides the
    download is the removal of a scratch file that is there, and the object
    store is as before. *)
Theorem nothing_to_transcribe b key filename w :
  download_may_fail svc b key (temp_path svc filename) w = None ->
  (s3 w !! (b, key) = Some "" ->
   process_audio_file svc (JStr b) key filename w
   = (Raise (Exn "ValueError" "Downloaded file is empty"),
      World (delete (temp_path svc filename) (fs w)) (s3 w)
        (calls w ++ [CDownload (JStr b) key (temp_path svc filename);
                     CRemove (temp_path svc filename)])))
  /\ (s3 w !! (b, key) = None ->
      process_audio_file svc (JStr b) key filename w
      = (Raise not_found_404,
         cleaned (temp_path svc filename)
           (log (CDownload (JStr b) key (temp_path svc filename)) w))).
Proof.
  intros Hfault. split; intros Hobject; rewrite process_audio_file_unfold.
  - assert (Hf : fetch svc (JStr b) key (temp_path svc filename) w
                 = (Raise (Exn "ValueError" "Downloaded file is empty"),
                    write_file (temp_path svc filename) ""
                      (log (CDownload (JStr b) key (temp_path svc filename)) w))).
    { unfold fetch, download_file. run. rewrite Hfault, Hobject.
      unfold path_exists, path_getsize. cbn [fs write_file log].
      rewrite lookup_insert_eq.
      rewrite bool_decide_eq_true_2 by eauto. cbn [negb]. cbv beta iota.
      cbn [fs write_file log]. now rewrite lookup_insert_eq. }
    rewrite (pipeline_fails _ _ _ _ _ _ _ (fails_in_fetch _ _ _ _ _ _ _ Hf)).
    cbn [fst snd]. f_equal.
    rewrite (cleaned_present _ "") by (cbn [fs write_file]; apply lookup_insert_eq).
    cbn [fs s3 calls write_file log]. rewrite delete_insert_eq.
    now rewrite <- List.app_assoc.
  - assert (Hf : fetch svc (JStr b) key (temp_path svc filename) w
                 = (Raise not_found_404,
                    log (CDownload (JStr b) key (temp_path svc filename)) w)).
    { unfold fetch, download_file. run. now rewrite Hfault, Hobject. }
    now rewrite (pipeline_fails _ _ _ _ _ _ _ (fails_in_fetch _ _ _ _ _ _ _ Hf)).
Qed.

(** X15: when the result of the transcription has no [text], the run
    raises the [KeyError] of that field: the hosted model is not called and
    nothing is put. *)
Theorem transcription_without_text bucket key filename w w1 w2 result :
  fetch svc bucket key (temp_path svc filename) w = (Ok tt, w1) ->
  whisper_load_model svc "medium" w1 = (Ok tt, w2) ->
  transcribe svc (temp_path svc filename) w2 = Ok result ->
  Dict.get "text" result = None ->
  fst (process_audio_file svc bucket key filename w) = Raise (Exn "KeyError" "'text'")
  /\ calls (snd (process_audio_file svc bucket key filename w))
     = (calls w ++ [CDownload bucket key (temp_path svc filename);
                    CLoadModel "medium";
                    CTranscribe (temp_path svc filename);
                    CRemove (temp_path svc filename)])%list
  /\ s3 (snd (process_audio_file svc bucket key filename w)) = s3 w.
Proof.
  intros Hf Hl Ht Hx.
  assert (Hfail : fails_in svc bucket key filename w (Exn "KeyError" "'text'")
                    (log (CTranscribe (temp_path svc filename)) w2)).
  { apply (fails_in_text _ _ _ _ _ _ w1 w2 _ result); try assumption.
    - unfold model_transcribe. now rewrite Ht.
    - cbn [subscript]. now rewrite Hx. }
  rewrite process_audio_file_unfold, (pipeline_fails _ _ _ _ _ _ _ Hfail).
  cbn [fst snd]. split; [reflexivity|].
  pose proof (fails_in_keeps _ _ _ _ _ _ _ Hfail) as [Hs3 _].
  rewrite cleaned_s3. split; [|exact Hs3].
  apply fetch_effect in Hf as (Hcalls & _ & Hfile).
  destruct (Hfile eq_refl) as (content & Hpath & _).
  apply whisper_load_model_log in Hl as ->.
  rewrite (cleaned_present _ content) by exact Hpath.
  cbn [calls log]. rewrite Hcalls. now rewrite <- !List.app_assoc.
Qed.

(** ** What the analysis adapter does not recover *)

(** X16: the adapter recovers from nothing but a parse failure of the text
    between the braces: a failure of the call, a body of the reply that
    does not parse or has no text at its place, and an exception of
    another class than [JSONDecodeError] from the parse of the text are all
    raised to the caller. *)
Theorem analysis_raises_other_failures transcript_text w :
  (forall e,
     invoke_model svc INFERENCE_PROFILE_ARN (AnalysisPrompt transcript_text) w = Raise e ->
     fst (analyze_with_claude svc transcript_text w) = Raise e)
  /\ (forall response e,
        invoke_model svc INFERENCE_PROFILE_ARN (AnalysisPrompt transcript_text) w
        = Ok response ->
        json_loads svc response = Raise e ->
        fst (analyze_with_claude svc transcript_text w) = Raise e)
  /\ (forall response text e,
        invoke_model svc INFERENCE_PROFILE_ARN (AnalysisPrompt transcript_text) w
        = Ok response ->
        reply_text svc response = Ok (JStr text) ->
        json_loads svc (json_substring text) = Raise e ->
        is_instance e "JSONDecodeError" = false ->
        fst (analyze_with_claude svc transcript_text w) = Raise e).
Proof.
  rewrite analyze_with_claude_unfold. cbv zeta. repeat split.
  - now intros e ->.
  - intros response e -> Hloads. unfold reply_text. run.
    unfold mbind, result_bind. now rewrite Hloads.
  - intros response text e -> -> Hloads Hclass.
    now rewrite (extract_analysis_raises _ _ _ _ Hloads Hclass).
Qed.

(** X17: whatever the reply and the outcome, the adapter calls the hosted
    model once, with the profile of the module and the prompt of the
    transcript, and changes nothing else of the world. *)
Theorem analysis_calls_the_model_once transcript_text w :
  snd (analyze_with_claude svc transcript_text w)
  = log (CInvoke INFERENCE_PROFILE_ARN (AnalysisPrompt transcript_text)) w.
Proof.
  destruct (analyze_with_claude svc transcript_text w) as [r w1] eqn:H.
  now apply analyze_with_claude_log in H.
Qed.

End OrchestratorMore.

(** ** Replies without braces *)

Section Braces.

Lemma substring_none n s : substring n 0 s = "".
Proof.
  revert s. induction n as [|n IH]; intros [|c s]; cbn [substring];
    try reflexivity. apply IH.
Qed.

Lemma slice_empty s i j :
  Py.clamp_index (Py.len s) j <= Py.clamp_index (Py.len s) i ->
  Py.slice s (Some i) (Some j) = "".
Proof.
  intros H. unfold Py.slice.
  replace (Z.to_nat (Py.clamp_index (Py.len s) j - Py.clamp_index (Py.len s) i))
    with 0%nat by lia.
  apply substring_none.
Qed.

Lemma find_range c s : -1 <= Py.find c s < Py.len s.
Proof.
  induction s as [|a s IH]; [cbn [Py.find]; rewrite len_nil; lia|].
  cbn [Py.find]. rewrite len_cons. pose proof (len_nonneg s).
  destruct (Ascii.eqb a c); [lia|].
  destruct (Py.find c s <? 0) eqn:E; [lia | apply Z.ltb_ge in E; lia].
Qed.

Lemma rfind_range c s : -1 <= Py.rfind c s.
Proof.
  destruct (Py.contains c s) eqn:H.
  - apply rfind_present in H. lia.
  - rewrite (rfind_absent _ _ H). lia.
Qed.

(** X18: the text the adapter hands to the parser is empty when the reply
    has no closing brace and when its last closing brace stands before its
    first opening brace; in a reply without an opening brace it is empty or
    the closing brace that ends the reply. *)
Theorem replies_without_an_object text :
  (Py.contains "}" text = false -> json_substring text = "")
  /\ (Py.rfind "}" text < Py.find "{" text -> json_substring text = "")
  /\ (Py.contains "{" text = false ->
      json_substring text = "" \/ json_substring text = "}").
Proof.
  pose proof (len_nonneg text) as Hn.
  pose proof (find_range "{" text) as Hfind.
  pose proof (rfind_lt "}" text) as Hrfind.
  pose proof (rfind_range "}" text) as Hrfind'.
  assert (Hordered : Py.rfind "}" text < Py.find "{" text -> json_substring text = "").
  { intros H. unfold json_substring. apply slice_empty. unfold Py.clamp_index.
    destruct (Py.rfind "}" text + 1 <? 0) eqn:E1; [apply Z.ltb_lt in E1; lia|].
    destruct (Py.find "{" text <? 0) eqn:E2; [apply Z.ltb_lt in E2; lia|]. lia. }
  split; [|split; [exact Hordered|]].
  - intros H. unfold json_substring. rewrite (rfind_absent _ _ H).
    apply slice_empty. unfold Py.clamp_index. change (-1 + 1 <? 0) with false.
    cbv iota.
    destruct (Py.find "{" text <? 0) eqn:E; [lia | apply Z.ltb_ge in E; lia].
  - intros H. unfold json_substring. rewrite (find_absent _ _ H).
    destruct (Py.contains "}" text) eqn:Hclose.
    2:{ left. rewrite (rfind_absent _ _ Hclose). apply slice_empty.
        unfold Py.clamp_index. change (-1 + 1 <? 0) with false.
        change (-1 <? 0) with true. cbv iota. lia. }
    destruct (rfind_split _ _ Hclose) as (a & b & -> & Hb & Hr). rewrite Hr.
    destruct b as [|c b].
    + right. unfold Py.slice, Py.clamp_index.
      rewrite len_app. change (Py.len "}") with 1.
      pose proof (len_nonneg a).
      change (-1 <? 0) with true. cbv iota.
      destruct (Py.len a + 1 <? 0) eqn:E; [apply Z.ltb_lt in E; lia|].
      rewrite Z.max_l, Z.min_l by lia.
      replace (Py.len a + 1 - (-1 + (Py.len a + 1))) with 1 by lia.
      replace (Z.to_nat (-1 + (Py.len a + 1))) with (String.length a)
        by (unfold Py.len; lia).
      now rewrite substring_skip.
    + left. apply slice_empty. unfold Py.clamp_index.
      rewrite len_app, !len_cons. pose proof (len_nonneg a). pose proof (len_nonneg b).
      change (-1 <? 0) with true. cbv iota.
      destruct (Py.len a + 1 <? 0) eqn:E; [apply Z.ltb_lt in E; lia|]. lia.
Qed.

End Braces.

(** ** The transcript helpers *)

Section TranscriptsMore.

Variable svc : services.
Variable g : globals.

Ltac run :=
  unfold read_global, when_, mbind, M_bind, bind, mret, M_ret, ret, raise, lift.

(** *** The names of the module *)

Lemma collect_transcripts_world bucket objects : forall transcripts w r w1,
  collect_transcripts svc bucket objects transcripts w = (r, w1) ->
  fs w1 = fs w /\ s3 w1 = s3 w /\ puts w1 = puts w.
Proof.
  induction objects as [|obj objects IH]; intros transcripts w r w1.
  - now intros [= _ <-].
  - cbn [collect_transcripts]. run. unfold loads, lift.
    destruct (subscript obj "Key") as [key|e]; [|now intros [= _ <-]].
    destruct (get_object svc _ key w) as [[content|e] w0] eqn:Hget;
      apply get_object_log in Hget as ->.
    + destruct (json_loads svc content) as [v|e].
      * intros H. apply IH in H. now rewrite puts_log in H.
      * intros [= _ <-]. now rewrite puts_log.
    + intros [= _ <-]. now rewrite puts_log.
Qed.

(** X19: [get_all_transcripts] never raises, whatever the names of the
    module are bound to and whatever the store answers: it returns a list,
    and it leaves the local files and the object store as they were. *)
Theorem get_all_transcripts_never_raises w :
  exists transcripts,
    fst (get_all_transcripts svc g w) = Ok transcripts
    /\ fs (snd (get_all_transcripts svc g w)) = fs w
    /\ s3 (snd (get_all_transcripts svc g w)) = s3 w
    /\ puts (snd (get_all_transcripts svc g w)) = puts w.
Proof.
  unfold get_all_transcripts, try_except, list_objects. run.
  destruct (s3_global g) as [client|]; [|now exists []].
  destruct (BUCKET_NAME g) as [bucket|]; [|now exists []].
  destruct (list_objects_v2 client bucket "transcripts/" w) as [response|e];
    [|now exists []].
  destruct (iterate _) as [objects|e]; [|now exists []].
  destruct (collect_transcripts svc bucket objects [] w) as [[l|e] w1] eqn:H;
    apply collect_transcripts_world in H; eauto.
Qed.

(** X20: with the names as [services.py] leaves them the three helpers
    cannot do their work.  When [s3] or [BUCKET_NAME] is unbound,
    [get_all_transcripts] returns the empty list, and [get_transcript],
    with [ClientError] unbound too, raises the [NameError] of [ClientError];
    when [TEMP_DIR] is unbound, [export_transcript] raises the
    [UnboundLocalError] of its [finally] block for every transcript.  No
    call is made. *)
Theorem helpers_without_their_names transcript_id transcript w :
  (s3_global g = None \/ BUCKET_NAME g = None ->
   get_all_transcripts svc g w = (Ok [], w))
  /\ (s3_global g = None \/ BUCKET_NAME g = None ->
      ClientError g = false ->
      get_transcript svc g transcript_id w = (Raise (name_error "ClientError"), w))
  /\ (TEMP_DIR g = None ->
      export_transcript svc g transcript w = (Raise unbound_export_path, w)).
Proof.
  split; [|split].
  - unfold get_all_transcripts, try_except. run.
    intros [-> | ->]; [reflexivity|]. now destruct (s3_global g).
  - unfold get_transcript, try_except_ClientError. run.
    intros [-> | ->] ->; [reflexivity|]. now destruct (s3_global g).
  - intros Hdir. unfold export_transcript. rewrite Hdir.
    now destruct (subscript transcript "id").
Qed.

(** *** One transcript *)

Lemma get_transcript_unfold client bucket transcript_id w :
  s3_global g = Some client ->
  BUCKET_NAME g = Some bucket ->
  get_transcript svc g transcript_id w =
  let key := "transcripts/" +:+ py_str svc transcript_id +:+ ".json" in
  let handle e w1 :=
    if ClientError g
    then if is_instance e "ClientError"
         then if String.eqb (error_code e) "NoSuchKey" then (Ok JNull, w1) else (Raise e, w1)
         else (Raise e, w1)
    else (Raise (name_error "ClientError"), w1) in
  match get_object svc (JStr bucket) (JStr key) w with
  | (Ok content, w1) =>
      match json_loads svc content with
      | Ok v => (Ok v, w1)
      | Raise e => handle e w1
      end
  | (Raise e, w1) => handle e w1
  end.
Proof.
  intros Hs3 Hbucket. unfold get_transcript, try_except_ClientError, loads. run.
  rewrite Hs3, Hbucket. cbv zeta.
  destruct (get_object svc _ _ w) as [[content|e] w1].
  - destruct (json_loads svc content) as [v|e]; [reflexivity|].
    destruct (ClientError g); [|reflexivity].
    destruct (is_instance e "ClientError"); [|reflexivity].
    now destruct (String.eqb (error_code e) "NoSuchKey").
  - destruct (ClientError g); [|reflexivity].
    destruct (is_instance e "ClientError"); [|reflexivity].
    now destruct (String.eqb (error_code e) "NoSuchKey").
Qed.

(** X21: with [s3] and [BUCKET_NAME] bound, [get_transcript] answers
    [None] for a transcript that is not in the bucket when [ClientError] is
    bound; when it is not, the same call raises the [NameError] of
    [ClientError]. *)
Theorem absent_transcript_is_none client bucket transcript_id w :
  s3_global g = Some client ->
  BUCKET_NAME g = Some bucket ->
  get_may_fail svc bucket ("transcripts/" +:+ py_str svc transcript_id +:+ ".json") w
  = None ->
  s3 w !! (bucket, "transcripts/" +:+ py_str svc transcript_id +:+ ".json") = None ->
  (ClientError g = true -> fst (get_transcript svc g transcript_id w) = Ok JNull)
  /\ (ClientError g = false ->
      fst (get_transcript svc g transcript_id w) = Raise (name_error "ClientError")).
Proof.
  intros Hs3 Hbucket Hfault Hmissing.
  rewrite (get_transcript_unfold client bucket) by assumption. cbv zeta.
  unfold get_object. rewrite Hfault, Hmissing. split; now intros ->.
Qed.

(** X22: with the three names bound, [get_transcript] turns no other
    failure into [None]: a failure of the store that is no [ClientError],
    or a [ClientError] with another code than [NoSuchKey], is raised, and
    so is the failure of the parse of a transcript that is there. *)
Theorem other_failures_of_get_transcript_are_raised client bucket transcript_id w :
  s3_global g = Some client ->
  BUCKET_NAME g = Some bucket ->
  ClientError g = true ->
  (forall e,
     get_may_fail svc bucket ("transcripts/" +:+ py_str svc transcript_id +:+ ".json") w
     = Some e ->
     is_instance e "ClientError" = false \/ error_code e <> "NoSuchKey" ->
     fst (get_transcript svc g transcript_id w) = Raise e)
  /\ (forall content e,
        get_may_fail svc bucket
          ("transcripts/" +:+ py_str svc transcript_id +:+ ".json") w = None ->
        s3 w !! (bucket, "transcripts/" +:+ py_str svc transcript_id +:+ ".json")
        = Some content ->
        json_loads svc content = Raise e ->
        is_instance e "ClientError" = false ->
        fst (get_transcript svc g transcript_id w) = Raise e).
Proof.
  intros Hs3 Hbucket Hclass.
  rewrite (get_transcript_unfold client bucket) by assumption. cbv zeta.
  rewrite Hclass. unfold get_object. split.
  - intros e Hfault Hother. rewrite Hfault.
    destruct Hother as [-> | Hcode]; [reflexivity|].
    apply String.eqb_neq in Hcode. rewrite Hcode.
    now destruct (is_instance e "ClientError").
  - intros content e Hfault Hthere Hloads Hother.
    now rewrite Hfault, Hthere, Hloads, Hother.
Qed.

(** X23: what a successful run stores, [get_transcript] finds: with [s3]
    bound and [BUCKET_NAME] bound to the bucket of the run, called with the
    [id] of the returned document it returns what the parser makes of the
    stored dump of that document. *)
Theorem stored_document_is_found client bucket key filename w document w' parsed :
  s3_global g = Some client ->
  BUCKET_NAME g = Some bucket ->
  (forall s, py_str svc (JStr s) = s) ->
  process_audio_file svc (JStr bucket) key filename w = (Ok document, w') ->
  json_loads svc (json_dumps svc (Some 2) document) = Ok parsed ->
  exists timestamp,
    subscript document "id" = Ok (JStr timestamp)
    /\ s3 w' !! (bucket, "transcripts/" +:+ timestamp +:+ ".json")
       = Some (json_dumps svc (Some 2) document)
    /\ (get_may_fail svc bucket ("transcripts/" +:+ timestamp +:+ ".json") w' = None ->
        fst (get_transcript svc g (JStr timestamp) w') = Ok parsed).
Proof.
  intros Hs3 Hbucket Hstr Hrun Hparsed. rewrite process_audio_file_unfold in Hrun.
  destruct (pipeline_cases svc (JStr bucket) key filename w)
    as [(e & wf & H) | (result & text & analysis & w4 & H)].
  { rewrite (pipeline_fails _ _ _ _ _ _ _ H) in Hrun. discriminate Hrun. }
  rewrite (pipeline_persists _ _ _ _ _ _ _ _ _ H) in Hrun.
  destruct (persist svc _ filename result text analysis w4) as [r w5] eqn:Hp.
  cbn [fst snd] in Hrun. injection Hrun as -> <-.
  apply persist_outcome in Hp. cbv zeta in Hp.
  destruct Hp as [(b & [= <-] & [= ->] & ->) | (e & [=] & _)].
  exists (now svc w4). split; [reflexivity|].
  assert (Hthere : s3 (cleaned (temp_path svc filename)
                         (store_object bucket
                            ("transcripts/" +:+ now svc w4 +:+ ".json")
                            (json_dumps svc (Some 2)
                               (complete_result (now svc w4) filename result text analysis))
                            (log (CPutObject (JStr bucket)
                                    ("transcripts/" +:+ now svc w4 +:+ ".json")
                                    (json_dumps svc (Some 2)
                                       (complete_result (now svc w4) filename result text
                                          analysis))) w4)))
                   !! (bucket, "transcripts/" +:+ now svc w4 +:+ ".json")
                   = Some (json_dumps svc (Some 2)
                             (complete_result (now svc w4) filename result text analysis))).
  { rewrite cleaned_s3. cbn [s3 store_object]. apply lookup_insert_eq. }
  split; [exact Hthere|].
  intros Hfault. rewrite (get_transcript_unfold client bucket) by assumption.
  cbv zeta. rewrite Hstr. unfold get_object. now rewrite Hfault, Hthere, Hparsed.
Qed.

(** *** The listing *)

Lemma collect_transcripts_unreadable bucket objects obj k content e :
  In obj objects ->
  subscript obj "Key" = Ok (JStr k) ->
  json_loads svc content = Raise e ->
  forall transcripts w,
    s3 w !! (bucket, k) = Some content ->
    exists e' w1, collect_transcripts svc bucket objects transcripts w = (Raise e', w1).
Proof.
  intros Hin Hkey Hloads.
  induction objects as [|obj' objects IH]; [now elim Hin|].
  intros transcripts w Hthere. cbn [collect_transcripts]. run. unfold loads, lift.
  destruct (subscript obj' "Key") as [key'|e'] eqn:Hkey'; [|eauto].
  destruct (get_object svc _ key' w) as [[content'|e'] w0] eqn:Hget; [|eauto].
  destruct (json_loads svc content') as [v|e'] eqn:Hloads'; [|eauto].
  destruct Hin as [-> | Hin].
  - rewrite Hkey in Hkey'. injection Hkey' as <-.
    unfold get_object in Hget. rewrite Hthere in Hget.
    destruct (get_may_fail svc _ k w); [discriminate Hget|].
    injection Hget as <- _. congruence.
  - apply (IH Hin). apply get_object_log in Hget as ->. exact Hthere.
Qed.

(** X24: with [s3] and [BUCKET_NAME] bound, [get_all_transcripts] is all
    or nothing: a failure of the listing, or one listed transcript that
    does not parse, gives the empty list, whatever the other transcripts
    are. *)
Theorem one_unreadable_transcript_empties_the_list client bucket w :
  s3_global g = Some client ->
  BUCKET_NAME g = Some bucket ->
  (forall e,
     list_objects_v2 client bucket "transcripts/" w = Raise e ->
     fst (get_all_transcripts svc g w) = Ok [])
  /\ (forall response objects obj k content e,
        list_objects_v2 client bucket "transcripts/" w = Ok response ->
        Dict.get "Contents" response = Some (JArr objects) ->
        In obj objects ->
        subscript obj "Key" = Ok (JStr k) ->
        s3 w !! (bucket, k) = Some content ->
        json_loads svc content = Raise e ->
        fst (get_all_transcripts svc g w) = Ok []).
Proof.
  intros Hs3 Hbucket. unfold get_all_transcripts, try_except, list_objects. run.
  rewrite Hs3, Hbucket. split.
  - now intros e ->.
  - intros response objects obj k content e -> Hcontents Hin Hkey Hthere Hloads.
    unfold Dict.get_default. rewrite Hcontents. cbn [iterate].
    destruct (collect_transcripts_unreadable bucket objects obj k content e Hin Hkey
                Hloads [] w Hthere) as (e' & w1 & ->).
    reflexivity.
Qed.

Lemma collect_transcripts_readable bucket objects : forall documents transcripts w,
  (forall k w0, get_may_fail svc bucket k w0 = None) ->
  Forall2 (fun obj document =>
             exists k content,
               subscript obj "Key" = Ok (JStr k)
               /\ s3 w !! (bucket, k) = Some content
               /\ json_loads svc content = Ok document) objects documents ->
  fst (collect_transcripts svc bucket objects transcripts w)
  = Ok (transcripts ++ documents)%list.
Proof.
  induction objects as [|obj objects IH]; intros documents transcripts w Hfault Hall.
  - inversion Hall; subst. cbn. now rewrite List.app_nil_r.
  - inversion Hall as [|? document ? documents' (k & content & Hkey & Hthere & Hloads) Hrest];
      subst.
    cbn [collect_transcripts]. run. unfold loads, lift. rewrite Hkey.
    unfold get_object. rewrite Hfault, Hthere, Hloads.
    rewrite IH with (documents := documents'); [now rewrite <- List.app_assoc | assumption |].
    exact Hrest.
Qed.

(** X25: with [s3] and [BUCKET_NAME] bound, when every listed transcript
    is in the bucket and parses, [get_all_transcripts] returns their
    documents in the order of the listing; a listing without [Contents]
    gives the empty list. *)
Theorem readable_transcripts_are_listed_in_order client bucket w response objects documents :
  s3_global g = Some client ->
  BUCKET_NAME g = Some bucket ->
  list_objects_v2 client bucket "transcripts/" w = Ok response ->
  Dict.get_default "Contents" response (JArr []) = JArr objects ->
  (forall k w0, get_may_fail svc bucket k w0 = None) ->
  Forall2 (fun obj document =>
             exists k content,
               subscript obj "Key" = Ok (JStr k)
               /\ s3 w !! (bucket, k) = Some content
               /\ json_loads svc content = Ok document) objects documents ->
  fst (get_all_transcripts svc g w) = Ok documents.
Proof.
  intros Hs3 Hbucket Hlist Hcontents Hfault Hall.
  pose proof (collect_transcripts_readable bucket objects documents [] w Hfault Hall) as H.
  unfold get_all_transcripts, try_except, list_objects. run.
  rewrite Hs3, Hbucket, Hlist, Hcontents. cbn [iterate].
  destruct (collect_transcripts svc bucket objects [] w) as [[l|e] w1];
    cbn [fst] in H; [|discriminate H].
  now injection H as ->.
Qed.

(** *** The export *)

Lemma export_transcript_unfold dir transcript id w :
  TEMP_DIR g = Some dir ->
  subscript transcript "id" = Ok id ->
  export_transcript svc g transcript w =
  let export_filename := "export_" +:+ py_str svc id +:+ ".txt" in
  let export_path := Py.path_join dir export_filename in
  let export_key := "exports/" +:+ export_filename in
  let w1 := write_file export_path "" w in
  match subscript transcript "text" with
  | Raise e => (Raise e, cleaned export_path w1)
  | Ok (JStr text) =>
      let w2 := write_file export_path text w1 in
      match s3_global g, BUCKET_NAME g with
      | None, _ => (Raise (name_error "s3"), cleaned export_path w2)
      | Some _, None => (Raise (name_error "BUCKET_NAME"), cleaned export_path w2)
      | Some client, Some bucket =>
          let w3 := log (CPutObject (JStr bucket) export_key text) w2 in
          match upload_may_fail client export_path bucket export_key w2 with
          | Some e => (Raise e, cleaned export_path w3)
          | None =>
              let w4 := store_object bucket export_key text w3 in
              (generate_presigned_url client bucket export_key 3600 w4,
               cleaned export_path w4)
          end
      end
  | Ok v =>
      (Raise (Exn "TypeError" ("write() argument must be str, not " +:+ type_name v)),
       cleaned export_path w1)
  end.
Proof.
  intros Hdir Hid. unfold export_transcript. rewrite Hid, Hdir. cbv zeta.
  unfold try_finally, export_cleanup, open_for_writing, upload_file, presigned_url.
  run.
  destruct (subscript transcript "text") as [[| | |text| |]|e];
    unfold file_write; run; cbv beta iota; rewrite ?cleanup_cleaned; try reflexivity.
  destruct (s3_global g) as [client|]; [|now rewrite cleanup_cleaned].
  destruct (BUCKET_NAME g) as [bucket|]; [|now rewrite cleanup_cleaned].
  cbn [fs write_file]. rewrite lookup_insert_eq.
  destruct (upload_may_fail client _ _ _ _) as [e|]; rewrite cleanup_cleaned;
    [reflexivity|].
  now destruct (generate_presigned_url client _ _ _ _).
Qed.

(** X26: [export_transcript] cannot export a document of the orchestrator,
    whatever the names of the module are bound to: such a document has no
    [text] field, so the export raises, and nothing is uploaded. *)
Theorem pipeline_document_cannot_be_exported bucket key filename w document w1 w2 :
  process_audio_file svc bucket key filename w = (Ok document, w1) ->
  (exists e, fst (export_transcript svc g document w2) = Raise e)
  /\ s3 (snd (export_transcript svc g document w2)) = s3 w2
  /\ puts (snd (export_transcript svc g document w2)) = puts w2.
Proof.
  intros Hrun. rewrite process_audio_file_unfold in Hrun.
  destruct (pipeline_cases svc bucket key filename w)
    as [(e & wf & H) | (result & text & analysis & w4 & H)].
  { rewrite (pipeline_fails _ _ _ _ _ _ _ H) in Hrun. discriminate Hrun. }
  rewrite (pipeline_persists _ _ _ _ _ _ _ _ _ H) in Hrun.
  destruct (persist svc bucket filename result text analysis w4) as [r w5] eqn:Hp.
  cbn [fst snd] in Hrun. injection Hrun as -> _.
  apply persist_outcome in Hp. cbv zeta in Hp.
  destruct Hp as [(b & _ & [= ->] & _) | (e & [=] & _)].
  destruct (TEMP_DIR g) as [dir|] eqn:Hdir.
  - rewrite (export_transcript_unfold dir _ (JStr (now svc w4)) _ Hdir) by reflexivity.
    cbv zeta. change (subscript (complete_result _ _ _ _ _) "text")
      with (@Raise json (Exn "KeyError" "'text'")).
    cbn [fst snd]. rewrite cleaned_s3, cleaned_puts. eauto.
  - unfold export_transcript. rewrite Hdir.
    change (subscript (complete_result _ _ _ _ _) "id") with (Ok (JStr (now svc w4))).
    cbv beta iota. eauto.
Qed.

(** X28: for a transcript whose [id] cannot be read the export raises the
    [UnboundLocalError] of its [finally] block, which reads a path that was
    never made, in place of the exception of the missing field, whatever
    the names of the module are bound to; the world is as before. *)
Theorem export_without_id_raises_unbound transcript e w :
  subscript transcript "id" = Raise e ->
  export_transcript svc g transcript w = (Raise unbound_export_path, w).
Proof. intros H. unfold export_transcript. now rewrite H. Qed.

End TranscriptsMore.

(** ** The further properties on concrete events *)

Lemma refused_key_is_answered_400_witness :
  lambda_handler Demo.svc (Demo.transcribe_event "audio/call.xyz") Demo.world0
  = (Ok (error_response Demo.svc 400
           "Invalid file type or location. Please upload audio files to the audio/ folder."),
     Demo.world0).
Proof.
  apply (refused_key_is_answered_400 Demo.svc (Demo.transcribe_event "audio/call.xyz")
           (Demo.record_of "b" "audio/call.xyz") [] (JStr "b") "audio/call.xyz"
           Demo.world0); [left; reflexivity | reflexivity..].
Defined.

Lemma q_n_a_never_writes_witness :
  fs (snd (lambda_handler Demo.svc
             (Demo.q_n_a_event "transcripts/20240101_000000.json" "What did the client want?")
             Demo.world0)) = fs Demo.world0
  /\ s3 (snd (lambda_handler Demo.svc
                (Demo.q_n_a_event "transcripts/20240101_000000.json"
                   "What did the client want?")
                Demo.world0)) = s3 Demo.world0
  /\ puts (snd (lambda_handler Demo.svc
                  (Demo.q_n_a_event "transcripts/20240101_000000.json"
                     "What did the client want?")
                  Demo.world0)) = puts Demo.world0
  /\ loads_of (snd (lambda_handler Demo.svc
                      (Demo.q_n_a_event "transcripts/20240101_000000.json"
                         "What did the client want?")
                      Demo.world0)) = loads_of Demo.world0.
Proof.
  apply (q_n_a_never_writes Demo.svc
           (Demo.q_n_a_event "transcripts/20240101_000000.json" "What did the client want?")
           Demo.world0).
  reflexivity.
Defined.

Lemma unusable_transcript_is_answered_500_witness :
  lambda_handler Demo.svc
    (Demo.q_n_a_event "transcripts/missing.json" "What did the client want?")
    Fixtures.world2
  = (Ok (error_response Demo.svc 500 ("Error processing Q&A: " +:+ exn_msg no_such_key)),
     log (CGetObject (JStr "b") (JStr "transcripts/missing.json")) Fixtures.world2)
  /\ lambda_handler Demo.svc
       (Demo.q_n_a_event "transcripts/broken.json" "What did the client want?")
       Fixtures.world2
     = (Ok (error_response Demo.svc 500 "Error processing Q&A: Expecting value"),
        log (CGetObject (JStr "b") (JStr "transcripts/broken.json")) Fixtures.world2)
  /\ lambda_handler Demo.svc
       (Demo.q_n_a_event "transcripts/list.json" "What did the client want?")
       Fixtures.world2
     = (Ok (error_response Demo.svc 500
              "Error processing Q&A: 'list' object has no attribute 'get'"),
        log (CGetObject (JStr "b") (JStr "transcripts/list.json")) Fixtures.world2).
Proof.
  split; [|split].
  - apply (proj1 (unusable_transcript_is_answered_500 Demo.svc
                    (Demo.q_n_a_event "transcripts/missing.json" "What did the client want?")
                    "b" "transcripts/missing.json" (JStr "What did the client want?")
                    Fixtures.world2
                    ltac:(repeat split; reflexivity) ltac:(reflexivity))).
    vm_compute. reflexivity.
  - apply (proj1 (proj2 (unusable_transcript_is_answered_500 Demo.svc
                    (Demo.q_n_a_event "transcripts/broken.json" "What did the client want?")
                    "b" "transcripts/broken.json" (JStr "What did the client want?")
                    Fixtures.world2
                    ltac:(repeat split; reflexivity) ltac:(reflexivity)))
             Fixtures.broken_transcript (Exn "JSONDecodeError" "Expecting value"));
      vm_compute; reflexivity.
  - apply (proj2 (proj2 (unusable_transcript_is_answered_500 Demo.svc
                    (Demo.q_n_a_event "transcripts/list.json" "What did the client want?")
                    "b" "transcripts/list.json" (JStr "What did the client want?")
                    Fixtures.world2
                    ltac:(repeat split; reflexivity) ltac:(reflexivity)))
             Fixtures.list_transcript (JArr [JStr "I want a Python course"]));
      [vm_compute; reflexivity | vm_compute; reflexivity | discriminate].
Defined.


Lemma q_n_a_model_failure_is_answered_500_witness :
  lambda_handler Fixtures.offline
    (Demo.q_n_a_event "transcripts/20240101_000000.json" "What did the client want?")
    Demo.world0
  = (Ok (Response 500
           (json_dumps Fixtures.offline None
              (JObj [("error",
                      JStr ("Error processing Q&A: "
                            +:+ "Could not connect to the endpoint URL"))]))
           []),
     log (CInvoke INFERENCE_PROFILE_ARN
            (QAPrompt (JStr "I want a Python course") (JStr "What did the client want?")))
       (log (CGetObject (JStr "b") (JStr "transcripts/20240101_000000.json")) Demo.world0)).
Proof.
  apply (q_n_a_model_failure_is_answered_500 Fixtures.offline
           (Demo.q_n_a_event "transcripts/20240101_000000.json" "What did the client want?")
           (JStr "transcripts/20240101_000000.json") (JStr "b")
           (JStr "What did the client want?") Demo.stored_transcript
           [("original_transcript", JStr "I want a Python course")]
           (JStr "I want a Python course")
           (Exn "EndpointConnectionError" "Could not connect to the endpoint URL")
           Demo.world0);
    [repeat split; reflexivity | vm_compute; reflexivity.. | left; reflexivity].
Defined.

Lemma pipeline_failure_is_answered_500_witness :
  lambda_handler Demo.svc (Demo.transcribe_event "audio/empty.mp3") Demo.world0
  = (Ok (Response 500
           (json_dumps Demo.svc None (JObj [("error", JStr "Downloaded file is empty")]))
           [("Content-Type", "application/json");
            ("Access-Control-Allow-Origin", "*")]),
     cleaned "/tmp/empty.mp3"
       (write_file "/tmp/empty.mp3" ""
          (log (CDownload (JStr "b") "audio/empty.mp3" "/tmp/empty.mp3") Demo.world0))).
Proof.
  apply (pipeline_failure_is_answered_500 Demo.svc (Demo.transcribe_event "audio/empty.mp3")
           (Demo.record_of "b" "audio/empty.mp3") [] (JStr "b") "audio/empty.mp3"
           (Exn "ValueError" "Downloaded file is empty")
           (write_file "/tmp/empty.mp3" ""
              (log (CDownload (JStr "b") "audio/empty.mp3" "/tmp/empty.mp3") Demo.world0))
           Demo.world0);
    [left; reflexivity | reflexivity.. |].
  apply fails_in_fetch. vm_compute. reflexivity.
Defined.

Lemma successful_transcribe_is_answered_200_witness :
  fst (lambda_handler Demo.svc (Demo.transcribe_event "audio/call1.mp3") Demo.world0)
  = Ok (Response 200
          (json_dumps Demo.svc None
             (complete_result "20240101_000000" "call1.mp3" Demo.speech
                (JStr "I want a Python course") Demo.lead_analysis))
          []).
Proof.
  rewrite (successful_transcribe_is_answered_200 Demo.svc
             (Demo.transcribe_event "audio/call1.mp3")
             (Demo.record_of "b" "audio/call1.mp3") [] "b" "audio/call1.mp3"
             Demo.speech (JStr "I want a Python course") Demo.lead_analysis _ Demo.world0
             ltac:(left; reflexivity) ltac:(reflexivity) ltac:(reflexivity)
             ltac:(reflexivity) ltac:(reflexivity) demo_reaches_persist
             ltac:(reflexivity)).
  reflexivity.
Defined.

Lemma accepted_key_has_a_file_name_witness :
  exists name ext,
    Py.last_item (Py.split "/" "audio/calls/Call.WAV") = name +:+ "." +:+ ext
    /\ In (Py.lower ext) allowed_names
    /\ Py.only "." name = false
    /\ Py.contains "/" name = false.
Proof.
  apply (accepted_key_has_a_file_name "audio/calls/Call.WAV"). reflexivity.
Defined.

Lemma folders_and_dot_files_are_refused_witness :
  validate_audio_file ("audio" +:+ "/") = false
  /\ validate_audio_file ("audio" +:+ "/" +:+ "" +:+ "." +:+ "mp3") = false.
Proof.
  split.
  - apply (proj1 folders_and_dot_files_are_refused "audio").
  - apply (proj2 folders_and_dot_files_are_refused "audio" "" "mp3"); reflexivity.
Defined.

Lemma successful_run_makes_six_calls_witness :
  exists text timestamp,
    subscript (complete_result "20240101_000000" "call1.mp3" Demo.speech
                 (JStr "I want a Python course") Demo.lead_analysis) "id"
    = Ok (JStr timestamp)
    /\ subscript (complete_result "20240101_000000" "call1.mp3" Demo.speech
                    (JStr "I want a Python course") Demo.lead_analysis)
         "original_transcript" = Ok text
    /\ calls (snd (process_audio_file Demo.svc (JStr "b") "audio/call1.mp3" "call1.mp3"
                     Demo.world0))
       = (calls Demo.world0
          ++ [CDownload (JStr "b") "audio/call1.mp3" (temp_path Demo.svc "call1.mp3");
              CLoadModel "medium";
              CTranscribe (temp_path Demo.svc "call1.mp3");
              CInvoke INFERENCE_PROFILE_ARN (AnalysisPrompt text);
              CPutObject (JStr "b") ("transcripts/" +:+ timestamp +:+ ".json")
                (json_dumps Demo.svc (Some 2)
                   (complete_result "20240101_000000" "call1.mp3" Demo.speech
                      (JStr "I want a Python course") Demo.lead_analysis));
              CRemove (temp_path Demo.svc "call1.mp3")])%list.
Proof.
  apply (successful_run_makes_six_calls Demo.svc (JStr "b") "audio/call1.mp3" "call1.mp3"
           Demo.world0).
  vm_compute. reflexivity.
Defined.

Lemma nothing_to_transcribe_witness :
  process_audio_file Demo.svc (JStr "b") "audio/empty.mp3" "empty.mp3" Demo.world0
  = (Raise (Exn "ValueError" "Downloaded file is empty"),
     World (delete (temp_path Demo.svc "empty.mp3") (fs Demo.world0)) (s3 Demo.world0)
       (calls Demo.world0
        ++ [CDownload (JStr "b") "audio/empty.mp3" (temp_path Demo.svc "empty.mp3");
            CRemove (temp_path Demo.svc "empty.mp3")]))
  /\ process_audio_file Demo.svc (JStr "b") "audio/none.mp3" "none.mp3" Demo.world0
     = (Raise not_found_404,
        cleaned (temp_path Demo.svc "none.mp3")
          (log (CDownload (JStr "b") "audio/none.mp3" (temp_path Demo.svc "none.mp3"))
             Demo.world0)).
Proof.
  split.
  - apply (proj1 (nothing_to_transcribe Demo.svc "b" "audio/empty.mp3" "empty.mp3"
                    Demo.world0 ltac:(reflexivity))).
    vm_compute. reflexivity.
  - apply (proj2 (nothing_to_transcribe Demo.svc "b" "audio/none.mp3" "none.mp3"
                    Demo.world0 ltac:(reflexivity))).
    vm_compute. reflexivity.
Defined.

Lemma transcription_without_text_witness :
  fst (process_audio_file Fixtures.mute (JStr "b") "audio/call1.mp3" "call1.mp3" Demo.world0)
  = Raise (Exn "KeyError" "'text'")
  /\ calls (snd (process_audio_file Fixtures.mute (JStr "b") "audio/call1.mp3" "call1.mp3"
                   Demo.world0))
     = (calls Demo.world0
        ++ [CDownload (JStr "b") "audio/call1.mp3" (temp_path Fixtures.mute "call1.mp3");
            CLoadModel "medium";
            CTranscribe (temp_path Fixtures.mute "call1.mp3");
            CRemove (temp_path Fixtures.mute "call1.mp3")])%list
  /\ s3 (snd (process_audio_file Fixtures.mute (JStr "b") "audio/call1.mp3" "call1.mp3"
                Demo.world0))
     = s3 Demo.world0.
Proof.
  apply (transcription_without_text Fixtures.mute (JStr "b") "audio/call1.mp3" "call1.mp3"
           Demo.world0
           (snd (fetch Fixtures.mute (JStr "b") "audio/call1.mp3" "/tmp/call1.mp3"
                   Demo.world0))
           (log (CLoadModel "medium")
              (snd (fetch Fixtures.mute (JStr "b") "audio/call1.mp3" "/tmp/call1.mp3"
                      Demo.world0)))
           [("language", JStr "en")]);
    vm_compute; reflexivity.
Defined.

Lemma analysis_raises_other_failures_witness :
  fst (analyze_with_claude Fixtures.offline (JStr "hello") Demo.world0)
  = Raise (Exn "EndpointConnectionError" "Could not connect to the endpoint URL")
  /\ fst (analyze_with_claude Fixtures.garbled (JStr "hello") Demo.world0)
     = Raise (Exn "JSONDecodeError" "Expecting value")
  /\ fst (analyze_with_claude Fixtures.limited (JStr "hello") Demo.world0)
     = Raise (Exn "RecursionError"
                "maximum recursion depth exceeded while decoding a JSON array").
Proof.
  split; [|split].
  - apply (proj1 (analysis_raises_other_failures Fixtures.offline (JStr "hello")
                    Demo.world0)).
    reflexivity.
  - apply (proj1 (proj2 (analysis_raises_other_failures Fixtures.garbled (JStr "hello")
                           Demo.world0))
             "<html>502 Bad Gateway</html>"); vm_compute; reflexivity.
  - apply (proj2 (proj2 (analysis_raises_other_failures Fixtures.limited (JStr "hello")
                           Demo.world0))
             (Demo.model_response Fixtures.deep_reply) Fixtures.deep_reply);
      vm_compute; reflexivity.
Defined.

Lemma replies_without_an_object_witness :
  json_substring "no braces" = ""
  /\ json_substring "} and {" = ""
  /\ (json_substring "done}" = "" \/ json_substring "done}" = "}").
Proof.
  split; [|split].
  - apply (proj1 (replies_without_an_object "no braces")). reflexivity.
  - apply (proj1 (proj2 (replies_without_an_object "} and {"))). vm_compute. reflexivity.
  - apply (proj2 (proj2 (replies_without_an_object "done}"))). reflexivity.
Defined.

Lemma helpers_without_their_names_witness :
  get_all_transcripts Demo.svc module_globals Fixtures.world2 = (Ok [], Fixtures.world2)
  /\ get_transcript Demo.svc module_globals (JStr "20240101_000000") Fixtures.world2
     = (Raise (name_error "ClientError"), Fixtures.world2)
  /\ export_transcript Demo.svc module_globals Fixtures.exportable Fixtures.world2
     = (Raise unbound_export_path, Fixtures.world2).
Proof.
  split; [|split].
  - apply (proj1 (helpers_without_their_names Demo.svc module_globals
                    (JStr "20240101_000000") Fixtures.exportable Fixtures.world2)).
    left. reflexivity.
  - apply (proj1 (proj2 (helpers_without_their_names Demo.svc module_globals
                           (JStr "20240101_000000") Fixtures.exportable Fixtures.world2))).
    + left. reflexivity.
    + reflexivity.
  - apply (proj2 (proj2 (helpers_without_their_names Demo.svc module_globals
                           (JStr "20240101_000000") Fixtures.exportable Fixtures.world2))).
    reflexivity.
Defined.

Lemma absent_transcript_is_none_witness :
  fst (get_transcript Demo.svc (Fixtures.bound []) (JStr "missing") Demo.world0) = Ok JNull
  /\ fst (get_transcript Demo.svc (Fixtures.no_class []) (JStr "missing") Demo.world0)
     = Raise (name_error "ClientError").
Proof.
  split.
  - apply (proj1 (absent_transcript_is_none Demo.svc (Fixtures.bound [])
                    {| list_objects_v2 := Fixtures.listing [];
                       upload_may_fail := fun _ _ _ _ => None;
                       generate_presigned_url := Fixtures.sign |}
                    "b" (JStr "missing") Demo.world0
                    ltac:(reflexivity) ltac:(reflexivity) ltac:(reflexivity)
                    ltac:(vm_compute; reflexivity))).
    reflexivity.
  - apply (proj2 (absent_transcript_is_none Demo.svc (Fixtures.no_class [])
                    {| list_objects_v2 := Fixtures.listing [];
                       upload_may_fail := fun _ _ _ _ => None;
                       generate_presigned_url := Fixtures.sign |}
                    "b" (JStr "missing") Demo.world0
                    ltac:(reflexivity) ltac:(reflexivity) ltac:(reflexivity)
                    ltac:(vm_compute; reflexivity))).
    reflexivity.
Defined.

Lemma other_failures_of_get_transcript_are_raised_witness :
  fst (get_transcript Fixtures.denied (Fixtures.bound []) (JStr "20240101_000000")
         Demo.world0)
  = Raise Fixtures.access_denied
  /\ fst (get_transcript Demo.svc (Fixtures.bound []) (JStr "broken") Fixtures.world2)
     = Raise (Exn "JSONDecodeError" "Expecting value").
Proof.
  split.
  - apply (proj1 (other_failures_of_get_transcript_are_raised Fixtures.denied
                    (Fixtures.bound [])
                    {| list_objects_v2 := Fixtures.listing [];
                       upload_may_fail := fun _ _ _ _ => None;
                       generate_presigned_url := Fixtures.sign |}
                    "b" (JStr "20240101_000000") Demo.world0
                    ltac:(reflexivity) ltac:(reflexivity) ltac:(reflexivity))).
    + reflexivity.
    + right. vm_compute. discriminate.
  - apply (proj2 (other_failures_of_get_transcript_are_raised Demo.svc
                    (Fixtures.bound [])
                    {| list_objects_v2 := Fixtures.listing [];
                       upload_may_fail := fun _ _ _ _ => None;
                       generate_presigned_url := Fixtures.sign |}
                    "b" (JStr "broken") Fixtures.world2
                    ltac:(reflexivity) ltac:(reflexivity) ltac:(reflexivity))
             Fixtures.broken_transcript); vm_compute; reflexivity.
Defined.

Lemma stored_document_is_found_witness :
  exists timestamp,
    subscript (complete_result "20240101_000000" "call1.mp3" Demo.speech
                 (JStr "I want a Python course") Demo.lead_analysis) "id"
    = Ok (JStr timestamp)
    /\ s3 Fixtures.after_run !! ("b", "transcripts/" +:+ timestamp +:+ ".json")
       = Some (json_dumps Demo.svc (Some 2)
                 (complete_result "20240101_000000" "call1.mp3" Demo.speech
                    (JStr "I want a Python course") Demo.lead_analysis))
    /\ (get_may_fail Demo.svc "b" ("transcripts/" +:+ timestamp +:+ ".json")
          Fixtures.after_run = None ->
        fst (get_transcript Demo.svc (Fixtures.bound []) (JStr timestamp)
               Fixtures.after_run)
        = Ok (complete_result "20240101_000000" "call1.mp3" Demo.speech
                (JStr "I want a Python course") Demo.lead_analysis)).
Proof.
  apply (stored_document_is_found Demo.svc (Fixtures.bound [])
           {| list_objects_v2 := Fixtures.listing [];
              upload_may_fail := fun _ _ _ _ => None;
              generate_presigned_url := Fixtures.sign |}
           "b" "audio/call1.mp3" "call1.mp3" Fixtures.world2).
  - reflexivity.
  - reflexivity.
  - intros s. reflexivity.
  - vm_compute. reflexivity.
  - vm_compute. reflexivity.
Defined.

Lemma one_unreadable_transcript_empties_the_list_witness :
  fst (get_all_transcripts Demo.svc Fixtures.unlisted Fixtures.world2) = Ok []
  /\ fst (get_all_transcripts Demo.svc
            (Fixtures.bound ["transcripts/20240101_000000.json"; "transcripts/broken.json"])
            Fixtures.world2)
     = Ok [].
Proof.
  split.
  - apply (proj1 (one_unreadable_transcript_empties_the_list Demo.svc Fixtures.unlisted
                    {| list_objects_v2 := fun _ _ _ => Raise Fixtures.access_denied;
                       upload_may_fail := fun _ _ _ _ => None;
                       generate_presigned_url := Fixtures.sign |}
                    "b" Fixtures.world2 ltac:(reflexivity) ltac:(reflexivity))
             Fixtures.access_denied).
    reflexivity.
  - apply (proj2 (one_unreadable_transcript_empties_the_list Demo.svc
                    (Fixtures.bound ["transcripts/20240101_000000.json";
                                     "transcripts/broken.json"])
                    {| list_objects_v2 :=
                         Fixtures.listing ["transcripts/20240101_000000.json";
                                           "transcripts/broken.json"];
                       upload_may_fail := fun _ _ _ _ => None;
                       generate_presigned_url := Fixtures.sign |}
                    "b" Fixtures.world2 ltac:(reflexivity) ltac:(reflexivity))
             [("KeyCount", JNum 2);
              ("Contents", JArr [JObj [("Key", JStr "transcripts/20240101_000000.json")];
                                 JObj [("Key", JStr "transcripts/broken.json")]])]
             [JObj [("Key", JStr "transcripts/20240101_000000.json")];
              JObj [("Key", JStr "transcripts/broken.json")]]
             (JObj [("Key", JStr "transcripts/broken.json")])
             "transcripts/broken.json" Fixtures.broken_transcript
             (Exn "JSONDecodeError" "Expecting value"));
      try (vm_compute; reflexivity).
    right. left. reflexivity.
Defined.

Lemma readable_transcripts_are_listed_in_order_witness :
  fst (get_all_transcripts Demo.svc
         (Fixtures.bound ["transcripts/text.json"; "transcripts/20240101_000000.json"])
         Demo.world1)
  = Ok [JObj [("text", JStr "I want a Python course")];
        JObj [("original_transcript", JStr "I want a Python course")]].
Proof.
  apply (readable_transcripts_are_listed_in_order Demo.svc
           (Fixtures.bound ["transcripts/text.json"; "transcripts/20240101_000000.json"])
           {| list_objects_v2 :=
                Fixtures.listing ["transcripts/text.json";
                                  "transcripts/20240101_000000.json"];
              upload_may_fail := fun _ _ _ _ => None;
              generate_presigned_url := Fixtures.sign |}
           "b" Demo.world1
           [("KeyCount", JNum 2);
            ("Contents", JArr [JObj [("Key", JStr "transcripts/text.json")];
                               JObj [("Key", JStr "transcripts/20240101_000000.json")]])]
           [JObj [("Key", JStr "transcripts/text.json")];
            JObj [("Key", JStr "transcripts/20240101_000000.json")]]).
  - reflexivity.
  - reflexivity.
  - reflexivity.
  - reflexivity.
  - reflexivity.
  - constructor.
    + exists "transcripts/text.json", Demo.text_only.
      split; [|split]; vm_compute; reflexivity.
    + constructor; [|constructor].
      exists "transcripts/20240101_000000.json", Demo.stored_transcript.
      split; [|split]; vm_compute; reflexivity.
Defined.

Lemma pipeline_document_cannot_be_exported_witness :
  (exists e,
     fst (export_transcript Demo.svc (Fixtures.bound [])
            (complete_result "20240101_000000" "call1.mp3" Demo.speech
               (JStr "I want a Python course") Demo.lead_analysis)
            Fixtures.world2) = Raise e)
  /\ s3 (snd (export_transcript Demo.svc (Fixtures.bound [])
                (complete_result "20240101_000000" "call1.mp3" Demo.speech
                   (JStr "I want a Python course") Demo.lead_analysis)
                Fixtures.world2))
     = s3 Fixtures.world2
  /\ puts (snd (export_transcript Demo.svc (Fixtures.bound [])
                  (complete_result "20240101_000000" "call1.mp3" Demo.speech
                     (JStr "I want a Python course") Demo.lead_analysis)
                  Fixtures.world2))
     = puts Fixtures.world2.
Proof.
  apply (pipeline_document_cannot_be_exported Demo.svc (Fixtures.bound [])
           (JStr "b") "audio/call1.mp3" "call1.mp3" Demo.world0 _
           (snd (process_audio_file Demo.svc (JStr "b") "audio/call1.mp3" "call1.mp3"
                   Demo.world0))).
  vm_compute. reflexivity.
Defined.

Lemma export_without_id_raises_unbound_witness :
  export_transcript Demo.svc (Fixtures.bound [])
    (JObj [("text", JStr "I want a Python course")]) Fixtures.world2
  = (Raise unbound_export_path, Fixtures.world2).
Proof.
  apply (export_without_id_raises_unbound Demo.svc (Fixtures.bound [])
           (JObj [("text", JStr "I want a Python course")])
           (Exn "KeyError" "'id'") Fixtures.world2).
  reflexivity.
Defined.
